(** * Intelbras AMT integration: protocol engine

    Shallow embedding of the framing, checksum, password encoding, status
    decoding and command correlation code of [client.py] (dial-out role,
    class [AMTClient]) and [server.py] (accept-in role, class [AMTServer]).
    Bytes are [Z] values in [0, 255]; [bytes] objects are [list Z]. *)

From Stdlib Require Import ZArith List Bool String Ascii Lia.
Import ListNotations.
Open Scope Z_scope.

Definition bytes := list Z.

(** A Python [int] that is a valid element of a [bytes] object. *)
Definition is_byte (b : Z) : Prop := 0 <= b < 256.

(** [bytes([x])] raises [ValueError] outside [0, 255]. *)
Definition byte_ok (b : Z) : bool := (0 <=? b) && (b <? 256).

(** Python slicing of [bytes]: [xs[i:j]] with non-negative indices. *)
Definition slice (xs : bytes) (i j : nat) : bytes := firstn (j - i) (skipn i xs).

(** [xs[i] if len(xs) > i else 0], the guarded access used throughout the
    status decoders. *)
Definition get_or0 (xs : bytes) (i : nat) : Z :=
  if Nat.ltb i (List.length xs) then nth i xs 0 else 0.

Module Const.
(** [const.py] *)
Definition FRAME_START : Z := 233.        (* 0xE9 *)
Definition FRAME_SEPARATOR : Z := 33.     (* 0x21 *)
(** The heartbeat byte; its value is given by the comment
    [# Check for heartbeat (single byte 0xF7)] in [AMTServer._extract_frame]. *)
Definition FRAME_HEARTBEAT : Z := 247.    (* 0xF7 *)
End Const.
Import Const.

(** ** Checksums *)
Module Checksum.
(** [AMTClient._calculate_checksum]: plain running XOR. *)
Definition client_checksum (data : bytes) : Z :=
  fold_left (fun acc b => Z.lxor acc b) data 0.

(** [AMTServer._calculate_checksum]: running XOR, then [^ 0xFF]. *)
Definition server_checksum (data : bytes) : Z :=
  Z.lxor (fold_left (fun acc b => Z.lxor acc b) data 0) 255.

(** [AMTServer._validate_checksum]. *)
Definition validate_checksum (frame : bytes) : bool :=
  if Nat.ltb (List.length frame) 2 then false
  else
    let data := removelast frame in
    let expected := server_checksum data in
    Z.eqb (last frame 0) expected.
End Checksum.
Import Checksum.

(** ** Passwords and frame construction *)
Module Frame.
(** [pwd = password or self._password]: [None] and [""] both fall back. *)
Definition effective_password (password : option string) (self_password : string)
  : string :=
  match password with
  | Some p => if String.eqb p EmptyString then self_password else p
  | None => self_password
  end.

(** [str.encode('ascii')]: raises [UnicodeEncodeError] on a character
    outside [0, 127]. *)
Fixpoint encode_ascii (s : string) : option bytes :=
  match s with
  | EmptyString => Some []
  | String c rest =>
      let n := Z.of_nat (nat_of_ascii c) in
      if n <? 128 then
        match encode_ascii rest with
        | Some r => Some (n :: r)
        | None => None
        end
      else None
  end.

(** [inner = bytes([FRAME_START, FRAME_SEPARATOR]) + pwd_bytes + command
    + bytes([FRAME_SEPARATOR])], shared by both roles. *)
Definition inner (pwd_bytes command : bytes) : bytes :=
  [FRAME_START; FRAME_SEPARATOR] ++ pwd_bytes ++ command ++ [FRAME_SEPARATOR].

(** [AMTServer._build_frame] on already-encoded password bytes:
    [length = len(inner)]; [bytes([length])] raises when it exceeds 255. *)
Definition server_frame_of (pwd_bytes command : bytes) : option bytes :=
  let i := inner pwd_bytes command in
  let length := Z.of_nat (List.length i) in
  if byte_ok length then
    let frame_without_checksum := length :: i in
    let checksum := server_checksum frame_without_checksum in
    Some (frame_without_checksum ++ [checksum])
  else None.

(** [AMTServer._build_frame]: [None] models a raised exception. *)
Definition server_build_frame (self_password : string) (command : bytes)
    (password : option string) : option bytes :=
  match encode_ascii (effective_password password self_password) with
  | Some pwd_bytes => server_frame_of pwd_bytes command
  | None => None
  end.
End Frame.
Import Frame.

(** ** Dial-out role: password packing and frame construction *)
Module ClientFrame.
(** [str.upper()] on one ASCII character. *)
Definition upper (c : ascii) : ascii :=
  let n := nat_of_ascii c in
  if (Nat.leb 97 n && Nat.leb n 122)%bool then ascii_of_nat (n - 32) else c.

(** ["0123456789ABCDEF"]; [x in s] for a one-character [x] is membership. *)
Definition HEX_DIGITS : string := "0123456789ABCDEF".

Fixpoint in_string (c : ascii) (s : string) : bool :=
  match s with
  | EmptyString => false
  | String d rest => if Ascii.eqb c d then true else in_string c rest
  end.

(** [int(c, 16)] on a hexadecimal digit (either case). *)
Definition int16 (c : ascii) : Z :=
  let n := Z.of_nat (nat_of_ascii c) in
  if (48 <=? n) && (n <=? 57) then n - 48
  else if (65 <=? n) && (n <=? 70) then n - 55
  else n - 87.

(** [int(ch, 16) if ch.upper() in "0123456789ABCDEF" else 0] *)
Definition nibble (c : ascii) : Z :=
  if in_string (upper c) HEX_DIGITS then int16 c else 0.

(** [s.ljust(n, fill)] *)
Definition ljust (s : string) (n : nat) (fill : ascii) : string :=
  (s ++ String.concat "" (List.repeat (String fill EmptyString) (n - String.length s)))%string.

(** The loop [for i in range(0, len(password), 2)] with its body. *)
Fixpoint pairs_to_bytes (fuel : nat) (password : string) : bytes :=
  match fuel with
  | O => []
  | S fuel' =>
      match password with
      | String c0 (String c1 rest) =>
          let high := nibble c0 in
          let low := nibble c1 in
          Z.lor (Z.shiftl high 4) low :: pairs_to_bytes fuel' rest
      | _ => []
      end
  end.

(** [AMTClient._password_to_bytes]: [password.ljust(6, "F")[:6]], then the
    pair loop; the padded string has exactly 6 characters, so the loop runs
    over 3 full pairs. *)
Definition password_to_bytes (password : string) : bytes :=
  let password := substring 0 6 (ljust password 6 "F"%char) in
  pairs_to_bytes (String.length password) password.

(** [AMTClient._build_frame]: [length = len(inner) + 1] counts the
    checksum; [bytes([length])] raises when it exceeds 255. *)
Definition client_build_frame (self_password : string) (command : bytes)
    (password : option string) : option bytes :=
  let pwd := effective_password password self_password in
  let pwd_bytes := password_to_bytes pwd in
  let i := inner pwd_bytes command in
  let length := Z.of_nat (List.length i) + 1 in
  if byte_ok length then
    let frame_without_checksum := length :: i in
    let checksum := client_checksum frame_without_checksum in
    Some (frame_without_checksum ++ [checksum])
  else None.

(** The reading half of [AMTClient._send_command] on a stream that already
    holds all the bytes the panel sent: [header = read(1)] ([b''] closes
    the connection), [length = header[0]], [response = read(length)]. *)
Definition client_read_response (stream : bytes) : option bytes :=
  match stream with
  | [] => None
  | header :: rest => Some (firstn (Z.to_nat header) rest)
  end.
End ClientFrame.
Import ClientFrame.

(** ** Stream reassembly *)
Module Extract.
(** [AMTServer._extract_frame]: the returned option is the frame, the
    returned list is the buffer after the in-place [pop]/[del]. *)
Definition extract_frame (buffer : bytes) : option bytes * bytes :=
  match buffer with
  | [] => (None, buffer)
  | b0 :: rest =>
      if Z.eqb b0 FRAME_HEARTBEAT then (Some [b0], rest)
      else if Nat.ltb (List.length buffer) 3 then (None, buffer)
      else
        let length := b0 in
        let total_size := Z.to_nat (length + 2) in
        if Nat.ltb (List.length buffer) total_size then (None, buffer)
        else
          let frame := firstn total_size buffer in
          let buffer' := skipn total_size buffer in
          if negb (validate_checksum frame) then (None, buffer')
          else (Some frame, buffer')
  end.

(** The inner loop of [AMTServer._handle_client] after one socket read:
    [while len(buffer) > 0: frame = self._extract_frame(buffer);
    if frame is None: break; await self._process_frame(connection, frame)].
    Returns the frames handed to [_process_frame], in order, and the buffer
    left for the next read.  Every frame returned consumes at least one
    byte of a buffer of bytes, so [List.length buffer] iterations suffice. *)
Fixpoint process_pass (fuel : nat) (buffer : bytes) : list bytes * bytes :=
  match fuel with
  | O => ([], buffer)
  | S fuel' =>
      match buffer with
      | [] => ([], buffer)
      | _ :: _ =>
          match extract_frame buffer with
          | (None, buffer') => ([], buffer')
          | (Some frame, buffer') =>
              let (frames, buffer'') := process_pass fuel' buffer' in
              (frame :: frames, buffer'')
          end
      end
  end.

Definition handle_data (buffer : bytes) : list bytes * bytes :=
  process_pass (List.length buffer) buffer.
End Extract.
Import Extract.


(** ** Errors and results *)
Module Errors.
(** [AMTProtocolError], [AMTNackError] and [AMTConnectionError] of both
    [client.py] and [server.py]. *)
Inductive AMTError :=
| ProtocolError (too_short_len : nat)     (* "Response too short: {len} bytes" *)
| NackError (nack_code : Z) (message : string)
| ConnectionError (message : string).

Inductive result (A : Type) :=
| Ok (a : A)
| Err (e : AMTError).
Arguments Ok {A} a.
Arguments Err {A} e.
End Errors.
Import Errors.

(** ** Status decoding *)
Module Status.
Definition MODEL_AMT_4010_SMART : Z := 65.   (* 0x41 *)
Definition MODEL_AMT_2018 : Z := 57.         (* 0x39 *)
Definition MODEL_AMT_1016 : Z := 56.         (* 0x38 *)
Definition MAX_ZONES_4010 : nat := 64.
Definition MAX_ZONES_2018 : nat := 18.

(** [bool(x & mask)] *)
Definition flag (x mask : Z) : bool := negb (Z.eqb (Z.land x mask) 0).

(** [MODEL_NAMES.get(model_id, f"<prefix> (0x{model_id:02x})")]: the
    fallback is kept symbolic, with its prefix ["Unknown"] or ["AMT"]. *)
Inductive model_name :=
| KnownModel (name : string)
| UnnamedModel (prefix : string) (model_id : Z).

Definition model_name_of (prefix : string) (model_id : Z) : model_name :=
  if Z.eqb model_id MODEL_AMT_4010_SMART then KnownModel "AMT 4010 SMART"
  else if Z.eqb model_id MODEL_AMT_2018 then KnownModel "AMT 2018"
  else if Z.eqb model_id MODEL_AMT_1016 then KnownModel "AMT 1016"
  else UnnamedModel prefix model_id.

(** [f"{(b >> 4) & 0x0F}.{b & 0x0F}"] as the pair (major, minor). *)
Definition firmware_of (firmware_byte : Z) : Z * Z :=
  (Z.land (Z.shiftr firmware_byte 4) 15, Z.land firmware_byte 15).

Record partition_status := {
  p_armed : bool;
  p_stay : bool;
  p_triggered : bool
}.

(** [_parse_partition_status] (identical in both roles). *)
Definition parse_partition_status (status_byte : Z) : partition_status :=
  {| p_armed := flag status_byte 1;
     p_stay := flag status_byte 2;
     p_triggered := flag status_byte 4 |}.

(** Partitions A, B, C, D from the A/B and C/D bytes. *)
Definition parse_partitions (part_ab part_cd : Z) : list partition_status :=
  [parse_partition_status (Z.land part_ab 15);
   parse_partition_status (Z.land (Z.shiftr part_ab 4) 15);
   parse_partition_status (Z.land part_cd 15);
   parse_partition_status (Z.land (Z.shiftr part_cd 4) 15)].

(** The inner loop of [_parse_zones]: [for bit in range(8)], stopping at
    the first [zone_num >= max_zones]. *)
Fixpoint zone_bits (byte : Z) (byte_idx : nat) (bits : list nat) (max_zones : nat)
  : list bool :=
  match bits with
  | [] => []
  | bit :: bits' =>
      let zone_num := (byte_idx * 8 + bit)%nat in
      if Nat.leb max_zones zone_num then []
      else flag byte (Z.shiftl 1 (Z.of_nat bit)) :: zone_bits byte byte_idx bits' max_zones
  end.

(** The outer loop of [_parse_zones]: [for byte_idx in range(8)],
    stopping when [offset + byte_idx >= len(data)]. *)
Fixpoint zone_bytes (data : bytes) (offset : nat) (idxs : list nat) (max_zones : nat)
  : list bool :=
  match idxs with
  | [] => []
  | byte_idx :: idxs' =>
      if Nat.leb (List.length data) (offset + byte_idx) then []
      else zone_bits (nth (offset + byte_idx) data 0) byte_idx (seq 0 8) max_zones
           ++ zone_bytes data offset idxs' max_zones
  end.

(** [_parse_zones] (identical in both roles). *)
Definition parse_zones (data : bytes) (offset max_zones : nat) : list bool :=
  firstn max_zones (zone_bytes data offset (seq 0 8) max_zones).

(** [sum(zones)] *)
Definition count_true (zones : list bool) : nat := List.length (filter (fun b => b) zones).

(** [min(100, max(0, level))] (dial-out) *)
Definition clamp_level (level : Z) : Z := Z.min 100 (Z.max 0 level).

(** The dictionary returned by [AMTClient._parse_response]. *)
Record client_status := {
  c_model_id : Z;
  c_model_name : model_name;
  c_max_zones : nat;
  c_firmware : Z * Z;
  c_zones_open : list bool;
  c_zones_violated : list bool;
  c_zones_bypassed : list bool;
  c_partitions : list partition_status;
  c_armed : bool;
  c_stay : bool;
  c_triggered : bool;
  c_ac_power : bool;
  c_battery_connected : bool;
  c_battery_level : Z;
  c_siren : bool;
  c_pgms : list bool;
  c_problem : bool
}.

Definition OFFSET_ZONES_OPEN_START : nat := 2.
Definition OFFSET_ZONES_VIOLATED_START : nat := 10.
Definition OFFSET_ZONES_BYPASSED_START : nat := 18.
Definition OFFSET_MODEL_ID : nat := 26.
Definition OFFSET_FIRMWARE : nat := 27.
Definition OFFSET_PARTITION_AB : nat := 28.
Definition OFFSET_PARTITION_CD : nat := 29.
Definition OFFSET_CENTRAL_STATUS : nat := 30.
Definition OFFSET_POWER_STATUS : nat := 36.
Definition OFFSET_BATTERY_LEVEL : nat := 41.
Definition OFFSET_PGM_SIREN_STATUS : nat := 46.

(** [AMTClient._parse_response] *)
Definition client_parse_response (data : bytes) : result client_status :=
  if Nat.ltb (List.length data) 47 then Err (ProtocolError (List.length data))
  else
    let model_id := get_or0 data OFFSET_MODEL_ID in
    let max_zones :=
      if Z.eqb model_id MODEL_AMT_4010_SMART then MAX_ZONES_4010
      else if Z.eqb model_id MODEL_AMT_2018 then MAX_ZONES_2018
      else MAX_ZONES_4010 in
    let part_ab := get_or0 data OFFSET_PARTITION_AB in
    let part_cd := get_or0 data OFFSET_PARTITION_CD in
    let central_status := get_or0 data OFFSET_CENTRAL_STATUS in
    let power_status := get_or0 data OFFSET_POWER_STATUS in
    let pgm_siren := get_or0 data OFFSET_PGM_SIREN_STATUS in
    Ok {| c_model_id := model_id;
          c_model_name := model_name_of "Unknown" model_id;
          c_max_zones := max_zones;
          c_firmware := firmware_of (get_or0 data OFFSET_FIRMWARE);
          c_zones_open := parse_zones data OFFSET_ZONES_OPEN_START max_zones;
          c_zones_violated := parse_zones data OFFSET_ZONES_VIOLATED_START max_zones;
          c_zones_bypassed := parse_zones data OFFSET_ZONES_BYPASSED_START max_zones;
          c_partitions := parse_partitions part_ab part_cd;
          c_armed := flag central_status 8;
          c_stay := flag central_status 16;
          c_triggered := flag central_status 4;
          c_ac_power := flag power_status 1;
          c_battery_connected := flag power_status 4;
          c_battery_level := clamp_level (get_or0 data OFFSET_BATTERY_LEVEL);
          c_siren := flag pgm_siren 1;
          c_pgms := [flag pgm_siren 2; flag pgm_siren 4; flag pgm_siren 8];
          c_problem := flag central_status 16 |}.

(** The dictionary returned by [AMTServer._parse_response]. *)
Record server_status := {
  s_model_id : Z;
  s_model_name : model_name;
  s_max_zones : nat;
  s_firmware : Z * Z;
  s_zones_open : list bool;
  s_zones_violated : list bool;
  s_zones_bypassed : list bool;
  s_zones_tamper : list bool;
  s_zones_short_circuit : list bool;
  s_zones_low_battery : list bool;
  s_zones_open_count : nat;
  s_zones_violated_count : nat;
  s_zones_bypassed_count : nat;
  s_partitions : list partition_status;
  s_armed : bool;
  s_stay : bool;
  s_triggered : bool;
  s_ac_power : bool;
  s_battery_connected : bool;
  s_battery_level : Z;
  s_siren : bool;
  s_pgms : list bool;
  s_problem : bool;
  s_battery_low : bool;
  s_battery_absent : bool;
  s_battery_short : bool;
  s_aux_overload : bool;
  s_siren_wire_cut : bool;
  s_siren_short : bool;
  s_phone_line_cut : bool;
  s_comm_failure : bool
}.

Section ServerDecoder.
(** [MAX_PGMS], [MAX_ZONES_TAMPER], [MAX_ZONES_SHORT_CIRCUIT] and
    [MAX_ZONES_LOW_BATTERY] as imported by [server.py]; the decoder is
    stated for every value of them. *)
Variables (MAX_PGMS MAX_ZONES_TAMPER MAX_ZONES_SHORT_CIRCUIT MAX_ZONES_LOW_BATTERY : nat).

(** [pgms = [False] * MAX_PGMS], then
    [for i in range(min(8, MAX_PGMS)): pgms[i] = bool(pgm_byte & (1 << (i + 1))) if i < 7 else False] *)
Definition server_pgms (pgm_byte : Z) : list bool :=
  map (fun i =>
         if Nat.ltb i (Nat.min 8 MAX_PGMS) then
           if Nat.ltb i 7 then flag pgm_byte (Z.shiftl 1 (Z.of_nat i + 1)) else false
         else false)
      (seq 0 MAX_PGMS).

(** [AMTServer._parse_response] *)
Definition server_parse_response (data : bytes) : result server_status :=
  if Nat.ltb (List.length data) 10 then Err (ProtocolError (List.length data))
  else
    let content := slice data 2 (List.length data - 1) in
    let max_zones := MAX_ZONES_4010 in
    let zones_open := parse_zones content 0 max_zones in
    let zones_violated := parse_zones content 8 max_zones in
    let zones_bypassed := parse_zones content 16 max_zones in
    let zones_open_count := count_true zones_open in
    let zones_violated_count := count_true zones_violated in
    let zones_bypassed_count := count_true zones_bypassed in
    let model_id := get_or0 content 24 in
    let is_2018 := Z.eqb model_id MODEL_AMT_2018 in
    let max_zones := if is_2018 then MAX_ZONES_2018 else max_zones in
    let zones_open := if is_2018 then firstn max_zones zones_open else zones_open in
    let zones_violated :=
      if is_2018 then firstn max_zones zones_violated else zones_violated in
    let zones_bypassed :=
      if is_2018 then firstn max_zones zones_bypassed else zones_bypassed in
    let central_status := get_or0 content 29 in
    let power_status := get_or0 content 39 in
    let ac_power := flag power_status 128 in
    let battery_connected := negb (flag power_status 64) in
    let battery_low := flag power_status 32 in
    let battery_level := get_or0 content 40 in
    let battery_level := if 100 <? battery_level then 100 else battery_level in
    let pgm_byte := get_or0 content 41 in
    Ok {| s_model_id := model_id;
          s_model_name := model_name_of "AMT" model_id;
          s_max_zones := max_zones;
          s_firmware := firmware_of (get_or0 content 26);
          s_zones_open := zones_open;
          s_zones_violated := zones_violated;
          s_zones_bypassed := zones_bypassed;
          s_zones_tamper := List.repeat false MAX_ZONES_TAMPER;
          s_zones_short_circuit := List.repeat false MAX_ZONES_SHORT_CIRCUIT;
          s_zones_low_battery := List.repeat false MAX_ZONES_LOW_BATTERY;
          s_zones_open_count := zones_open_count;
          s_zones_violated_count := zones_violated_count;
          s_zones_bypassed_count := zones_bypassed_count;
          s_partitions := parse_partitions (get_or0 content 27) (get_or0 content 28);
          s_armed := flag central_status 8;
          s_stay := flag central_status 16;
          s_triggered := flag central_status 4;
          s_ac_power := ac_power;
          s_battery_connected := battery_connected;
          s_battery_level := battery_level;
          s_siren := flag pgm_byte 1;
          s_pgms := server_pgms pgm_byte;
          s_problem := battery_low || negb battery_connected;
          s_battery_low := battery_low;
          s_battery_absent := negb battery_connected;
          s_battery_short := false;
          s_aux_overload := false;
          s_siren_wire_cut := false;
          s_siren_short := false;
          s_phone_line_cut := false;
          s_comm_failure := false |}.
End ServerDecoder.
End Status.
Import Status.

(** ** NACK detection *)
Module Nack.
(** One uppercase hexadecimal digit, for [f"{code:02X}"]. *)
Definition hex_upper (n : Z) : ascii :=
  if n <? 10 then ascii_of_nat (Z.to_nat (48 + n)) else ascii_of_nat (Z.to_nat (55 + n)).

(** [f"Erro desconhecido (0x{nack_code:02X})"] for a byte code. *)
Definition unknown_nack_message (code : Z) : string :=
  ("Erro desconhecido (0x" ++ String (hex_upper (Z.shiftr code 4))
     (String (hex_upper (Z.land code 15)) EmptyString) ++ ")")%string.

(** Modelled from the spec: the table [NACK_MESSAGES] that [server.py]
    imports is not among the sources; the spec says only that a NACK code
    is mapped to a human-readable message table, so the table is a
    parameter.  The lookup with its fallback is [AMTNackError.__init__]
    called without a message:
    [NACK_MESSAGES.get(nack_code, f"Erro desconhecido (0x{nack_code:02X})")]. *)
Definition nack_message (NACK_MESSAGES : Z -> option string) (code : Z) : string :=
  match NACK_MESSAGES code with
  | Some m => m
  | None => unknown_nack_message code
  end.

(** The NACK check of [AMTServer._send_command] on the resolved response:
    [if len(response) >= 3 and response[1] == FRAME_START:
       resp_content = response[2:-1]
       if len(resp_content) >= 1 and 0xE0 <= resp_content[0] <= 0xEF:
         raise AMTNackError(resp_content[0])
     return response] *)
Definition check_response (NACK_MESSAGES : Z -> option string) (response : bytes)
  : result bytes :=
  if Nat.leb 3 (List.length response) && Z.eqb (nth 1 response 0) FRAME_START then
    let resp_content := slice response 2 (List.length response - 1) in
    match resp_content with
    | c :: _ =>
        if (224 <=? c) && (c <=? 239) then Err (NackError c (nack_message NACK_MESSAGES c))
        else Ok response
    | [] => Ok response
    end
  else Ok response.
End Nack.
Import Nack.

(** ** Accept-in role: connections, the read loop and command correlation

    [asyncio] runs one task at a time and switches only at an [await]
    that suspends.  The model has one step per resumption of a task: the
    task runs, synchronously, up to its next suspending [await].  Events
    that come from the network (a panel connecting, a complete frame read,
    end of stream, a time-out) are steps too; the scheduler may take the
    steps in any order in which they are enabled. *)
Module ServerModel.
(** [asyncio.Lock]: [acquire] takes the lock at once when it is free and
    nobody waits; otherwise the caller queues and, once woken by
    [release], takes the lock when it runs. *)
Record lock := { locked : bool; waiters : list nat }.

Definition lock_free : lock := {| locked := false; waiters := [] |}.

(** An [AMTConnection]: open or closed socket, its [_lock], and the
    [pending_response] slot (the future of a command task). *)
Record conn := {
  is_open : bool;
  conn_lock : lock;
  pending_response : option nat
}.

Definition fresh_conn : conn :=
  {| is_open := true; conn_lock := lock_free; pending_response := None |}.

(** [_handle_client] of one connection: not started, at its start,
    suspended in [await self._connection.close()] of the connection it
    replaces, in its read loop, finished. *)
Inductive handler_phase := HNone | HStart | HClosing | HLoop | HDone.

(** What a command's response future was resolved with. *)
Inductive outcome := Got (frame : bytes) | TimedOut.

(** [_send_command] of one command task.  [SWaitLock lk]: queued on the
    lock of connection [lk]; [SAwait lk x]: holds the lock of [lk], has
    written its frame to connection [x] and waits for the response;
    [SResolved lk o]: its future is done, it has not yet resumed. *)
Inductive cmd_phase :=
| CNone
| SStart (command : bytes) (password : option string)
| SWaitLock (lk : nat) (command : bytes) (password : option string)
| SAwait (lk x : nat)
| SResolved (lk : nat) (o : outcome)
| SDone (r : result bytes)
| SRaised (exception : string). (* an exception that is no [AMTServerError] *)

Record sstate := {
  conns : nat -> conn;
  created : nat -> bool;
  handlers : nat -> handler_phase;
  cmds : nat -> cmd_phase;
  current : option nat;        (* [self._connection] *)
  next_conn : nat;
  writes : list (nat * bytes)  (* every [writer.write], with its connection *)
}.

Definition upd {A} (f : nat -> A) (k : nat) (v : A) : nat -> A :=
  fun n => if Nat.eqb n k then v else f n.

Definition set_conns st f :=
  {| conns := f; created := created st; handlers := handlers st; cmds := cmds st;
     current := current st; next_conn := next_conn st; writes := writes st |}.
Definition set_handler st c p :=
  {| conns := conns st; created := created st; handlers := upd (handlers st) c p;
     cmds := cmds st; current := current st; next_conn := next_conn st;
     writes := writes st |}.
Definition set_cmd st t p :=
  {| conns := conns st; created := created st; handlers := handlers st;
     cmds := upd (cmds st) t p; current := current st; next_conn := next_conn st;
     writes := writes st |}.
Definition set_current st o :=
  {| conns := conns st; created := created st; handlers := handlers st;
     cmds := cmds st; current := o; next_conn := next_conn st; writes := writes st |}.
Definition add_write st c fr :=
  {| conns := conns st; created := created st; handlers := handlers st;
     cmds := cmds st; current := current st; next_conn := next_conn st;
     writes := writes st ++ [(c, fr)] |}.

Definition map_conn st c (g : conn -> conn) := set_conns st (upd (conns st) c (g (conns st c))).

(** [AMTConnection.close()] up to its [await]: [writer.close()]. *)
Definition close_conn st c :=
  map_conn st c (fun k => {| is_open := false; conn_lock := conn_lock k;
                             pending_response := pending_response k |}).

Definition set_pending st c (o : option nat) :=
  map_conn st c (fun k => {| is_open := is_open k; conn_lock := conn_lock k;
                             pending_response := o |}).

Definition set_lock st c (l : lock) :=
  map_conn st c (fun k => {| is_open := is_open k; conn_lock := l;
                             pending_response := pending_response k |}).

(** [lock.release()]: the first waiter, if any, is woken and takes the
    lock when it next runs. *)
Definition release st lk :=
  set_lock st lk {| locked := false; waiters := waiters (conn_lock (conns st lk)) |}.

(** [self._connection.pending_response = None] in the [finally] clause;
    [None] when [self._connection] is [None]: the assignment raises
    [AttributeError] (the lock is still released by [async with]). *)
Definition clear_current_pending st : option sstate :=
  match current st with
  | Some x => Some (set_pending st x None)
  | None => None
  end.

(** The [finally] clause of [_handle_client] of connection [c]:
    [self._connection = None] if it is [c], then [connection.close()]. *)
Definition handler_exit st c :=
  let st1 := match current st with
             | Some x => if Nat.eqb x c then set_current st None else st
             | None => st
             end in
  set_handler (close_conn st1 c) c HDone.

Section Step.
Variable self_password : string.
Variable NACK_MESSAGES : Z -> option string.

(** [AMTServer._build_ack_frame] *)
Definition FRAME_ACK : Z := 254.   (* 0xFE, from the comment [FE] *)
Definition ack_frame : bytes := [1; FRAME_ACK; server_checksum [1; FRAME_ACK]].

(** [connection.writer.write(ack)] and [await connection.writer.drain()]
    in [_process_frame] and [_handle_connection_info]: on a connection
    already closed [drain()] raises [ConnectionResetError], which
    [_handle_client] catches before running its [finally]. *)
Definition send_ack (st : sstate) (c : nat) : sstate :=
  let st1 := add_write st c ack_frame in
  if is_open (conns st1 c) then st1 else handler_exit st1 c.

(** The body of [async with self._connection._lock:] of task [t], run
    right after the lock of [lk] was taken, up to [await wait_for(...)]. *)
Definition cmd_body (st : sstate) (t lk : nat) (command : bytes)
    (password : option string) : sstate :=
  match server_build_frame self_password command password with
  | None =>
      (* [bytes([length])] or [pwd.encode('ascii')] raises a [ValueError] *)
      set_cmd (release st lk) t (SRaised "ValueError")
  | Some frame =>
      match current st with
      | None =>
          (* [self._connection.pending_response = ...] raises *)
          set_cmd (release st lk) t (SRaised "AttributeError")
      | Some x =>
          let st1 := set_pending st x (Some t) in
          let st2 := add_write st1 x frame in
          if is_open (conns st2 x) then set_cmd st2 t (SAwait lk x)
          else (* [drain()] on a closed transport raises [ConnectionResetError];
                  [finally] clears the future of [self._connection], still [x] *)
            set_cmd (release (set_pending st2 x None) lk) t (SRaised "ConnectionResetError")
      end
  end.

Inductive event :=
| EAccept                       (* a panel connects; [_handle_client] is spawned *)
| ERunHandler (c : nat)         (* the handler of connection [c] resumes *)
| EFrame (c : nat) (frame : bytes) (* the read loop of [c] hands a frame to [_process_frame] *)
| EEof (c : nat)                (* [reader.read] returned [b''] on [c] *)
| ESend (t : nat) (command : bytes) (password : option string)
| ERunCmd (t : nat)             (* command task [t] resumes *)
| ETimeout (t : nat).           (* the [wait_for] of task [t] expires *)

Definition step (st : sstate) (e : event) : option sstate :=
  match e with
  | EAccept =>
      let c := next_conn st in
      Some {| conns := upd (conns st) c fresh_conn;
              created := upd (created st) c true;
              handlers := upd (handlers st) c HStart;
              cmds := cmds st; current := current st;
              next_conn := S c; writes := writes st |}
  | ERunHandler c =>
      match handlers st c with
      | HStart =>
          match current st with
          | Some old => Some (set_handler (close_conn st old) c HClosing)
          | None => Some (set_handler (set_current st (Some c)) c HLoop)
          end
      | HClosing => Some (set_handler (set_current st (Some c)) c HLoop)
      | _ => None
      end
  | EFrame c frame =>
      match handlers st c with
      | HLoop =>
          (* the read loop also runs on a connection closed by a newer
             handler, for the bytes already received *)
          if (Nat.eqb (List.length frame) 1 && Z.eqb (nth 0 frame 0) FRAME_HEARTBEAT)%bool
          then Some (send_ack st c)
          else if Nat.ltb (List.length frame) 3 then Some st
          else if Z.eqb (nth 1 frame 0) 148 (* CMD_CONNECTION_INFO, 0x94 *)
          then Some (send_ack st c)
          else
            match pending_response (conns st c) with
            | Some f =>
                match cmds st f with
                | SAwait lk _ => Some (set_cmd st f (SResolved lk (Got frame)))
                | _ => Some st
                end
            | None => Some st
            end
      | _ => None
      end
  | EEof c =>
      match handlers st c with
      | HLoop => Some (handler_exit st c)
      | _ => None
      end
  | ESend t command password =>
      match cmds st t with
      | CNone => Some (set_cmd st t (SStart command password))
      | _ => None
      end
  | ERunCmd t =>
      match cmds st t with
      | SStart command password =>
          match current st with
          | None => Some (set_cmd st t (SDone (Err (ConnectionError "No panel connected"))))
          | Some lk =>
              let l := conn_lock (conns st lk) in
              if negb (locked l) && (match waiters l with [] => true | _ => false end)
              then Some (cmd_body (set_lock st lk {| locked := true; waiters := [] |})
                                  t lk command password)
              else Some (set_cmd (set_lock st lk {| locked := locked l;
                                                     waiters := waiters l ++ [t] |})
                                 t (SWaitLock lk command password))
          end
      | SWaitLock lk command password =>
          let l := conn_lock (conns st lk) in
          match waiters l with
          | w :: ws =>
              if negb (locked l) && Nat.eqb w t
              then Some (cmd_body (set_lock st lk {| locked := true; waiters := ws |})
                                  t lk command password)
              else None
          | [] => None
          end
      | SResolved lk o =>
          let r := match o with
                   | Got response => check_response NACK_MESSAGES response
                   | TimedOut => Err (ConnectionError "Response timeout")
                   end in
          match clear_current_pending st with
          | Some st1 => Some (set_cmd (release st1 lk) t (SDone r))
          | None => (* the [AttributeError] of [finally] replaces [r] *)
              Some (set_cmd (release st lk) t (SRaised "AttributeError"))
          end
      | _ => None
      end
  | ETimeout t =>
      match cmds st t with
      | SAwait lk _ => Some (set_cmd st t (SResolved lk TimedOut))
      | _ => None
      end
  end.

Fixpoint run (st : sstate) (es : list event) : option sstate :=
  match es with
  | [] => Some st
  | e :: es' => match step st e with Some st' => run st' es' | None => None end
  end.
End Step.

Definition init : sstate :=
  {| conns := fun _ => {| is_open := false; conn_lock := lock_free; pending_response := None |};
     created := fun _ => false;
     handlers := fun _ => HNone;
     cmds := fun _ => CNone;
     current := None; next_conn := 0; writes := [] |}.

(** A panel connection is active when its socket is open and its handler
    is in the read loop. *)
Definition active (st : sstate) (c : nat) : bool :=
  is_open (conns st c) && match handlers st c with HLoop => true | _ => false end.

(** Task [t] has a frame written on connection [x] and is waiting for its
    response. *)
Definition in_flight_on (st : sstate) (t x : nat) : bool :=
  match cmds st t with SAwait _ y => Nat.eqb x y | _ => false end.
End ServerModel.

(** ** Dial-out role: command serialisation

    [AMTClient._send_command] holds [self._lock] around connecting,
    writing the frame and reading the response.  One step per resumption
    of a task, as for the accept-in role. *)
Module ClientModel.
Inductive kphase :=
| KNone
| KStart (command : bytes) (password : option string)
| KWaitLock (command : bytes) (password : option string)
| KConnecting (command : bytes) (password : option string)  (* in [await self.connect()] *)
| KAwaitHeader                 (* frame written; in [await wait_for(read(1))] *)
| KAwaitBody (length : Z)      (* in [await wait_for(read(length))] *)
| KDone (r : result bytes)
| KRaised (exception : string). (* an exception that is no [AMTClientError] *)

Record cstate := {
  locked : bool;               (* [self._lock] *)
  waiters : list nat;
  tasks : nat -> kphase;
  connected : bool;            (* [self._connected] *)
  cwrites : list bytes
}.

Definition upd {A} (f : nat -> A) (k : nat) (v : A) : nat -> A :=
  fun n => if Nat.eqb n k then v else f n.

Definition mk l w ts c ws : cstate :=
  {| locked := l; waiters := w; tasks := ts; connected := c; cwrites := ws |}.

Section Step.
Variable self_password : string.

(** Leaving [async with self._lock] with result [r]. *)
Definition finish (st : cstate) (t : nat) (conn : bool) (r : result bytes) : cstate :=
  mk false (waiters st) (upd (tasks st) t (KDone r)) conn (cwrites st).

(** From [frame = self._build_frame(...)] to [await wait_for(read(1))];
    the connection is established here. *)
Definition write_frame (st : cstate) (t : nat) (command : bytes)
    (password : option string) : cstate :=
  match client_build_frame self_password command password with
  | None => (* [bytes([length])] raises a [ValueError], outside the [try] *)
      mk false (waiters st) (upd (tasks st) t (KRaised "ValueError")) (connected st) (cwrites st)
  | Some frame =>
      mk (locked st) (waiters st) (upd (tasks st) t KAwaitHeader) (connected st)
         (cwrites st ++ [frame])
  end.

(** The body of [async with self._lock:] right after the lock is taken. *)
Definition body (st : cstate) (t : nat) (command : bytes) (password : option string)
  : cstate :=
  if connected st then write_frame st t command password
  else mk (locked st) (waiters st) (upd (tasks st) t (KConnecting command password))
          (connected st) (cwrites st).

Inductive kevent :=
| KSend (t : nat) (command : bytes) (password : option string)
| KRun (t : nat)                      (* task [t] takes or queues for the lock *)
| KConnectDone (t : nat) (ok : bool)  (* [open_connection] completes or fails *)
| KHeader (t : nat) (header : option Z) (* [read(1)]: a byte, or [b''] *)
| KBody (t : nat) (data : bytes)      (* [read(length)] returns *)
| KTimeout (t : nat).                 (* a [wait_for] expires *)

Definition kstep (st : cstate) (e : kevent) : option cstate :=
  match e with
  | KSend t command password =>
      match tasks st t with
      | KNone => Some (mk (locked st) (waiters st) (upd (tasks st) t (KStart command password))
                          (connected st) (cwrites st))
      | _ => None
      end
  | KRun t =>
      match tasks st t with
      | KStart command password =>
          if negb (locked st) && (match waiters st with [] => true | _ => false end)
          then Some (body (mk true [] (tasks st) (connected st) (cwrites st)) t command password)
          else Some (mk (locked st) (waiters st ++ [t])
                        (upd (tasks st) t (KWaitLock command password))
                        (connected st) (cwrites st))
      | KWaitLock command password =>
          match waiters st with
          | w :: ws =>
              if negb (locked st) && Nat.eqb w t
              then Some (body (mk true ws (tasks st) (connected st) (cwrites st)) t command password)
              else None
          | [] => None
          end
      | _ => None
      end
  | KConnectDone t ok =>
      match tasks st t with
      | KConnecting command password =>
          if ok then
            Some (write_frame (mk (locked st) (waiters st) (tasks st) true (cwrites st))
                              t command password)
          else Some (finish st t false (Err (ConnectionError "Connection failed")))
      | _ => None
      end
  | KHeader t header =>
      match tasks st t with
      | KAwaitHeader =>
          match header with
          | None => Some (finish st t false (Err (ConnectionError "Connection closed by remote")))
          | Some h => Some (mk (locked st) (waiters st) (upd (tasks st) t (KAwaitBody h))
                               (connected st) (cwrites st))
          end
      | _ => None
      end
  | KBody t data =>
      match tasks st t with
      | KAwaitBody h => Some (finish st t (connected st) (Ok (firstn (Z.to_nat h) data)))
      | _ => None
      end
  | KTimeout t =>
      match tasks st t with
      | KConnecting _ _ => Some (finish st t (connected st) (Err (ConnectionError "Connection timeout")))
      | KAwaitHeader | KAwaitBody _ =>
          Some (finish st t false (Err (ConnectionError "Response timeout")))
      | _ => None
      end
  end.

Fixpoint krun (st : cstate) (es : list kevent) : option cstate :=
  match es with
  | [] => Some st
  | e :: es' => match kstep st e with Some st' => krun st' es' | None => None end
  end.
End Step.

Definition kinit : cstate := mk false [] (fun _ => KNone) false [].

(** Task [t] has written its frame and waits for the response. *)
Definition k_in_flight (st : cstate) (t : nat) : bool :=
  match tasks st t with KAwaitHeader | KAwaitBody _ => true | _ => false end.

(** Task [t] is inside [async with self._lock]. *)
Definition k_critical (p : kphase) : bool :=
  match p with KConnecting _ _ | KAwaitHeader | KAwaitBody _ => true | _ => false end.
End ClientModel.

(** ** Panel commands and partition passwords *)
Module Commands.
(** [const.py] *)
Definition CMD_STATUS : bytes := [90].              (* 'Z' *)
Definition CMD_ARM : bytes := [65].                 (* 'A' *)
Definition CMD_DISARM : bytes := [68].              (* 'D' *)
Definition CMD_STAY : bytes := [65; 80].            (* 'AP' *)
Definition CMD_PGM_ON_PREFIX : bytes := [80; 76].   (* 'PL' *)
Definition CMD_PGM_OFF_PREFIX : bytes := [80; 68].  (* 'PD' *)
Definition CMD_BYPASS : bytes := [66].              (* 'B' *)

(** The [commands] dictionary of [arm_partition]: [commands[partition]],
    or [None] when [partition not in commands]. *)
Definition arm_partition_commands (partition : string) : option bytes :=
  if String.eqb partition "A" then Some [65; 65]        (* CMD_ARM_PARTITION_A *)
  else if String.eqb partition "B" then Some [65; 66]
  else if String.eqb partition "C" then Some [65; 67]
  else if String.eqb partition "D" then Some [65; 68]
  else None.

(** The [commands] dictionary of [disarm_partition]. *)
Definition disarm_partition_commands (partition : string) : option bytes :=
  if String.eqb partition "A" then Some [68; 65]        (* CMD_DISARM_PARTITION_A *)
  else if String.eqb partition "B" then Some [68; 66]
  else if String.eqb partition "C" then Some [68; 67]
  else if String.eqb partition "D" then Some [68; 68]
  else None.

(** [self._partition_passwords], a [dict[str, str]]: the code only assigns
    a key and calls [get]. *)
Definition pdict := list (string * string).

(** [d.get(k)] *)
Fixpoint dict_get (d : pdict) (k : string) : option string :=
  match d with
  | [] => None
  | (k', v) :: d' => if String.eqb k' k then Some v else dict_get d' k
  end.

(** [d[k] = v]: an existing key keeps its place, a new key goes last. *)
Fixpoint dict_set (d : pdict) (k v : string) : pdict :=
  match d with
  | [] => [(k, v)]
  | (k', v') :: d' => if String.eqb k' k then (k', v) :: d' else (k', v') :: dict_set d' k v
  end.

(** [if password_x: self._partition_passwords[key] = password_x] *)
Definition set_if (d : pdict) (k : string) (password : option string) : pdict :=
  match password with
  | Some p => if String.eqb p EmptyString then d else dict_set d k p
  | None => d
  end.

(** [set_partition_passwords] (identical in both roles). *)
Definition set_partition_passwords (d : pdict)
    (password_a password_b password_c password_d : option string) : pdict :=
  set_if (set_if (set_if (set_if d "A" password_a) "B" password_b) "C" password_c)
         "D" password_d.

(** [arm_partition] and [disarm_partition] (identical in both roles) up to
    [await self._send_command(commands[partition], pwd)], with
    [pwd = password or self._partition_passwords.get(partition) or self._password]:
    the command and password handed to [_send_command], or [None] for the
    [ValueError] raised on an invalid partition. *)
Definition partition_call (commands : string -> option bytes) (partition_passwords : pdict)
    (self_password partition : string) (password : option string)
  : option (bytes * string) :=
  match commands partition with
  | None => None
  | Some command =>
      Some (command,
            effective_password password
              (effective_password (dict_get partition_passwords partition) self_password))
  end.

(** [AMTClient.activate_pgm] / [deactivate_pgm] up to
    [_send_command(command)], [prefix] being [CMD_PGM_ON_PREFIX] or
    [CMD_PGM_OFF_PREFIX]; [None] is the [ValueError]. *)
Definition client_pgm_command (prefix : bytes) (pgm_number : Z) : option bytes :=
  if (pgm_number <? 1) || (3 <? pgm_number) then None
  else Some (prefix ++ [48 + pgm_number]).

(** [AMTServer.activate_pgm] / [deactivate_pgm]; [MAX_PGMS] is the value
    [server.py] imports; [bytes([...])] raises on a value above 255. *)
Definition server_pgm_command (MAX_PGMS : Z) (prefix : bytes) (pgm_number : Z)
  : option bytes :=
  if (pgm_number <? 1) || (MAX_PGMS <? pgm_number) then None
  else if pgm_number <? 10 then Some (prefix ++ [48; 48 + pgm_number])
  else if byte_ok (48 + (pgm_number - 10)) then Some (prefix ++ [49; 48 + (pgm_number - 10)])
  else None.

(** The body of [for i in range(0, len(zone_mask), 8)] in [bypass_zones]:
    [byte |= 1 << bit] for every [bit in range(8)] with
    [i + bit < len(zone_mask) and zone_mask[i + bit]]. *)
Definition mask_byte (zone_mask : list bool) (i : nat) : Z :=
  fold_left (fun byte bit =>
               if (Nat.ltb (i + bit) (List.length zone_mask) && nth (i + bit) zone_mask false)%bool
               then Z.lor byte (Z.shiftl 1 (Z.of_nat bit)) else byte)
            (seq 0 8) 0.

(** [range(0, n, 8)] *)
Definition range_by8 (n : nat) : list nat := map (fun k => 8 * k)%nat (seq 0 ((n + 7) / 8)).

(** [bypass_zones] (identical in both roles; [bypass_open_zones] calls it)
    up to [_send_command(command)]: [command = CMD_BYPASS + bytes(mask_bytes)]. *)
Definition bypass_command (zone_mask : list bool) : bytes :=
  CMD_BYPASS ++ map (mask_byte zone_mask) (range_by8 (List.length zone_mask)).
End Commands.
Import Commands.

(** ** Raw commands and hexadecimal strings *)
Module RawCommand.
(** [Py_ISSPACE]: space, tab, line feed, vertical tab, form feed, carriage return. *)
Definition is_space (c : ascii) : bool :=
  let n := nat_of_ascii c in (Nat.eqb n 32 || (Nat.leb 9 n && Nat.leb n 13))%bool.

(** A hexadecimal digit of either case ([_PyLong_DigitValue[c] < 16]). *)
Definition hex_value (c : ascii) : option Z :=
  let n := Z.of_nat (nat_of_ascii c) in
  if (48 <=? n) && (n <=? 57) then Some (n - 48)
  else if (65 <=? n) && (n <=? 70) then Some (n - 55)
  else if (97 <=? n) && (n <=? 102) then Some (n - 87)
  else None.

(** The loop of [bytes.fromhex] (CPython [_PyBytes_FromHex]): whitespace
    is skipped before each pair of digits, each pair gives
    [(top << 4) + bot]; [None] is the [ValueError]. *)
Fixpoint fromhex_chars (cs : list ascii) : option bytes :=
  match cs with
  | [] => Some []
  | c :: rest =>
      if is_space c then fromhex_chars rest
      else
        match hex_value c with
        | None => None
        | Some top =>
            match rest with
            | [] => None
            | d :: rest' =>
                match hex_value d with
                | None => None
                | Some bot =>
                    match fromhex_chars rest' with
                    | Some r => Some (top * 16 + bot :: r)
                    | None => None
                    end
                end
            end
        end
  end.

(** [bytes.fromhex(s)] *)
Definition fromhex (s : string) : option bytes := fromhex_chars (list_ascii_of_string s).

(** [s.replace(" ", "")] *)
Fixpoint remove_spaces (s : string) : string :=
  match s with
  | EmptyString => EmptyString
  | String c rest =>
      if Ascii.eqb c " "%char then remove_spaces rest else String c (remove_spaces rest)
  end.

(** One lower-case hexadecimal digit. *)
Definition hex_lower (n : Z) : ascii :=
  if n <? 10 then ascii_of_nat (Z.to_nat (48 + n)) else ascii_of_nat (Z.to_nat (87 + n)).

(** [bytes.hex()] *)
Fixpoint hex (bs : bytes) : string :=
  match bs with
  | [] => EmptyString
  | b :: rest => String (hex_lower (Z.shiftr b 4)) (String (hex_lower (Z.land b 15)) (hex rest))
  end.

(** The dictionary returned by [send_raw_command]. *)
Inductive raw_result :=
| RawSuccess (response_hex : string) (response_length : nat)  (* "success": True *)
| RawNack (error : string) (nack_code : Z)                    (* "success": False *)
| RawFailure (error : AMTError).                              (* "success": False *)

Definition success (r : raw_result) : bool :=
  match r with RawSuccess _ _ => true | _ => false end.

(** [AMTServer.send_raw_command]; [send] is [self._send_command]: it
    returns a response, raises an [AMTServerError] ([Some (Err _)]), or
    raises an exception of another class ([None]: the [ValueError] of
    [_build_frame], an [AttributeError], a [ConnectionResetError] of
    [drain()]).  The outer [None] is the [ValueError] of [bytes.fromhex];
    [Some None] is an exception of [send], propagated: neither is an
    [AMTServerError], neither is caught.  [Some (Some r)] is the dictionary
    returned. *)
Definition send_raw_command (send : bytes -> option string -> option (result bytes))
    (command_hex : string) (password : option string) : option (option raw_result) :=
  match fromhex (remove_spaces command_hex) with
  | None => None
  | Some command_bytes =>
      Some (match send command_bytes password with
            | None => None
            | Some (Ok response) => Some (RawSuccess (hex response) (List.length response))
            | Some (Err (NackError code message)) => Some (RawNack message code)
            | Some (Err e) => Some (RawFailure e)
            end)
  end.
End RawCommand.
Import RawCommand.

(** ** Panel identification (accept-in role) *)
Module ConnInfo.
(** [bytes.decode('ascii', errors='replace')] as code points: U+FFFD for a
    byte above 0x7F. *)
Definition decode_ascii_replace (bs : bytes) : list Z :=
  map (fun b => if b <? 128 then b else 65533) bs.

(** The [account] and [mac_suffix] attributes of an [AMTConnection]. *)
Record conn_info := { account : option (list Z); mac_suffix : option string }.

(** [content = frame[2:-1] if len(frame) > 3 else bytes()] in [_process_frame]. *)
Definition frame_content (frame : bytes) : bytes :=
  if Nat.ltb 3 (List.length frame) then slice frame 2 (List.length frame - 1) else [].

(** [_handle_connection_info] before it sends the ACK frame. *)
Definition handle_connection_info (ci : conn_info) (content : bytes) : conn_info :=
  let ci := if Nat.leb 4 (List.length content)
            then {| account := Some (decode_ascii_replace (firstn 4 content));
                    mac_suffix := mac_suffix ci |}
            else ci in
  if Nat.leb 10 (List.length content)
  then {| account := account ci; mac_suffix := Some (hex (slice content 4 10)) |}
  else ci.
End ConnInfo.
Import ConnInfo.

(** ** Status polling *)
Module Poll.
Section ServerPoll.
Variables (MAX_PGMS MAX_ZONES_TAMPER MAX_ZONES_SHORT_CIRCUIT MAX_ZONES_LOW_BATTERY : nat).

(** [AMTServer.get_status] on the outcome of [self._send_command(CMD_STATUS)]:
    the status returned (or the exception raised) and [self._last_status]
    after the call, for a status callback that returns normally. *)
Definition server_get_status (last_status : option server_status) (response : result bytes)
  : result server_status * option server_status :=
  match response with
  | Err e => (Err e, last_status)
  | Ok r =>
      match server_parse_response MAX_PGMS MAX_ZONES_TAMPER MAX_ZONES_SHORT_CIRCUIT
              MAX_ZONES_LOW_BATTERY r with
      | Ok status => (Ok status, Some status)
      | Err e => (Err e, last_status)
      end
  end.

(** [AMTServer.test_connection]: every modelled error is an [AMTServerError]. *)
Definition server_test_connection (last_status : option server_status) (response : result bytes)
  : bool :=
  match fst (server_get_status last_status response) with Ok _ => true | Err _ => false end.
End ServerPoll.

(** [AMTClient.get_status] on the outcome of [self._send_command(CMD_STATUS)]. *)
Definition client_get_status (response : result bytes) : result client_status :=
  match response with
  | Err e => Err e
  | Ok r => client_parse_response r
  end.

(** [AMTClient.test_connection]: every modelled error is an [AMTClientError]. *)
Definition client_test_connection (response : result bytes) : bool :=
  match client_get_status response with Ok _ => true | Err _ => false end.
End Poll.
Import Poll.

(** ** Sample states of the accept-in role *)
(** Panel connection 0 is active, and command task 1 has written the
    status command "Z" on it and waits for the response. *)
Definition after_send_state : ServerModel.sstate :=
  match ServerModel.run "1234" (fun _ => None) ServerModel.init
          [ServerModel.EAccept; ServerModel.ERunHandler 0;
           ServerModel.ESend 1 [90] None; ServerModel.ERunCmd 1] with
  | Some s => s | None => ServerModel.init end.

(** The state after one event, or [init] when the event is not enabled. *)
Definition after_event (st : ServerModel.sstate) (e : ServerModel.event) : ServerModel.sstate :=
  match ServerModel.step "1234" (fun _ => None) st e with Some s => s | None => ServerModel.init end.

Definition after_frame (st : ServerModel.sstate) (c : nat) (frame : bytes) : ServerModel.sstate :=
  after_event st (ServerModel.EFrame c frame).

(** ** Event traces *)
(** The event trace of C8: panel A connects and becomes the active
    connection; panels B and C connect before B's handler has finished
    closing A; both handlers find A as [self._connection], both close it,
    then each makes its own connection the active one. *)
Definition two_new_panels : list ServerModel.event :=
  [ServerModel.EAccept; ServerModel.ERunHandler 0;
   ServerModel.EAccept; ServerModel.EAccept;
   ServerModel.ERunHandler 1; ServerModel.ERunHandler 2;
   ServerModel.ERunHandler 1; ServerModel.ERunHandler 2].

(** The event trace of C9: command W (task 1) is in flight on panel
    connection A; command X (task 2) queues on A's lock; panel B connects
    and replaces A; command Y (task 3) takes B's lock and writes its frame
    on B; W times out and releases A's lock; X takes A's lock and writes its
    frame on [self._connection], which is now B, while Y is still waiting
    for its response on B. *)
Definition replaced_while_queued : list ServerModel.event :=
  [ServerModel.EAccept; ServerModel.ERunHandler 0;
   ServerModel.ESend 1 [90] None; ServerModel.ERunCmd 1;
   ServerModel.ESend 2 [90] None; ServerModel.ERunCmd 2;
   ServerModel.EAccept; ServerModel.ERunHandler 1; ServerModel.ERunHandler 1;
   ServerModel.ESend 3 [90] None; ServerModel.ERunCmd 3;
   ServerModel.ETimeout 1; ServerModel.ERunCmd 1;
   ServerModel.ERunCmd 2].

(** ** Reference definitions written from the specification's wording *)
Module PasswordSpec.
(** "non-hex characters decode as 0" *)
Definition hex_decode (c : ascii) : Z :=
  let n := Z.of_nat (nat_of_ascii c) in
  if (48 <=? n) && (n <=? 57) then n - 48
  else if (65 <=? n) && (n <=? 70) then n - 55
  else if (97 <=? n) && (n <=? 102) then n - 87
  else 0.

(** "right-padded with 'F' to exactly 6 characters, truncated to 6" *)
Definition padded6 (s : string) : list ascii :=
  firstn 6 (list_ascii_of_string s ++ List.repeat "F"%char 6).

(** "packed into one byte (high<<4 | low)" *)
Definition pack (high low : ascii) : Z :=
  Z.lor (Z.shiftl (hex_decode high) 4) (hex_decode low).
End PasswordSpec.

(** * Properties *)

(** ** Generic list facts *)
Lemma firstn_length_app {A} (xs ys : list A) : firstn (List.length xs) (xs ++ ys) = xs.
Proof. induction xs; simpl; [reflexivity | now rewrite IHxs]. Qed.

Lemma skipn_length_app {A} (xs ys : list A) : skipn (List.length xs) (xs ++ ys) = ys.
Proof. induction xs; simpl; [reflexivity | exact IHxs]. Qed.

Lemma inner_length (pwd command : bytes) :
  List.length (inner pwd command) = (3 + List.length pwd + List.length command)%nat.
Proof. unfold inner; simpl; rewrite !length_app; simpl; lia. Qed.

Lemma validate_appended (data : bytes) (cs : Z) :
  (1 <= List.length data)%nat -> cs = server_checksum data ->
  validate_checksum (data ++ [cs]) = true.
Proof.
  intros Hl Hcs. unfold validate_checksum.
  rewrite length_app; simpl.
  replace (Nat.ltb (List.length data + 1) 2) with false by (symmetry; apply Nat.ltb_ge; lia).
  rewrite removelast_last, last_last, Hcs. apply Z.eqb_refl.
Qed.

(** The accept-in decoder on a frame of the accept-in encoder's shape. *)
Lemma extract_server_shaped (i rest : bytes) (cs : Z) :
  (3 <= List.length i)%nat ->
  Z.of_nat (List.length i) <> FRAME_HEARTBEAT ->
  cs = server_checksum (Z.of_nat (List.length i) :: i) ->
  extract_frame ((Z.of_nat (List.length i) :: i ++ [cs]) ++ rest)
  = (Some (Z.of_nat (List.length i) :: i ++ [cs]), rest).
Proof.
  intros Hlen Hhb Hcs.
  set (L := Z.of_nat (List.length i)).
  unfold extract_frame.
  change ((L :: i ++ [cs]) ++ rest) with (L :: (i ++ [cs]) ++ rest).
  lazy beta iota zeta.
  set (frame := L :: i ++ [cs]).
  assert (Hfl : List.length frame = (List.length i + 2)%nat)
    by (unfold frame; simpl; rewrite length_app; simpl; lia).
  assert (Htot : Z.to_nat (L + 2) = List.length frame) by (rewrite Hfl; unfold L; lia).
  rewrite (proj2 (Z.eqb_neq L FRAME_HEARTBEAT) Hhb).
  change (L :: (i ++ [cs]) ++ rest) with (frame ++ rest).
  rewrite Htot, length_app.
  replace (Nat.ltb (List.length frame + List.length rest) 3) with false
    by (symmetry; apply Nat.ltb_ge; lia).
  replace (Nat.ltb (List.length frame + List.length rest) (List.length frame)) with false
    by (symmetry; apply Nat.ltb_ge; lia).
  rewrite firstn_length_app, skipn_length_app.
  replace (validate_checksum frame) with true; [reflexivity|].
  unfold validate_checksum.
  replace (Nat.ltb (List.length frame) 2) with false by (symmetry; apply Nat.ltb_ge; lia).
  unfold frame. change (L :: i ++ [cs]) with ((L :: i) ++ [cs]).
  rewrite removelast_last, last_last, Hcs. symmetry; apply Z.eqb_refl.
Qed.

(** ** C1 *)

(** C1 (corrected).  In the accept-in role, an encodable command frame
    ([AMTServer._build_frame] succeeds) whose length byte is not the
    heartbeat byte 0xF7 is decoded by [AMTServer._extract_frame] as exactly
    that frame, of the shape [length, 0xE9, 0x21] ++ password ++ command ++
    [0x21, checksum], with a valid checksum, and the bytes after it stay in
    the buffer.  In the dial-out role, reading the length byte and then that
    many bytes of an encodable [AMTClient._build_frame] frame yields the
    frame content and a trailing checksum equal to the plain XOR of all
    bytes before it. *)
Theorem frame_roundtrip
  : (forall self_password command password pwd_bytes frame rest,
       encode_ascii (effective_password password self_password) = Some pwd_bytes ->
       server_build_frame self_password command password = Some frame ->
       Z.of_nat (List.length (inner pwd_bytes command)) <> FRAME_HEARTBEAT ->
       exists checksum,
         frame = Z.of_nat (List.length (inner pwd_bytes command))
                   :: inner pwd_bytes command ++ [checksum]
         /\ validate_checksum frame = true
         /\ extract_frame (frame ++ rest) = (Some frame, rest))
    /\ (forall self_password command password frame rest,
       client_build_frame self_password command password = Some frame ->
       let i := inner (password_to_bytes (effective_password password self_password)) command in
       exists checksum,
         frame = (Z.of_nat (List.length i) + 1) :: i ++ [checksum]
         /\ checksum = client_checksum (removelast frame)
         /\ client_read_response (frame ++ rest) = Some (i ++ [checksum])).
Proof.
  split.
  - intros self_password command password pwd_bytes frame rest Henc Hbuild Hhb.
    unfold server_build_frame in Hbuild; rewrite Henc in Hbuild.
    unfold server_frame_of in Hbuild.
    destruct (byte_ok _) eqn:Hok; [|discriminate].
    pose proof (f_equal (fun o => match o with Some f => f | None => [] end) Hbuild) as Hf.
    cbv beta iota in Hf; subst frame.
    set (i := inner pwd_bytes command) in *.
    assert (Hi : (3 <= List.length i)%nat) by (unfold i; rewrite inner_length; lia).
    exists (server_checksum (Z.of_nat (List.length i) :: i)).
    split; [reflexivity|].
    pose proof (extract_server_shaped i rest _ Hi Hhb eq_refl) as Hx.
    split; [|exact Hx].
    apply (validate_appended (Z.of_nat (List.length i) :: i)); simpl; [lia | reflexivity].
  - intros self_password command password frame rest Hbuild i.
    unfold client_build_frame in Hbuild; cbv zeta in Hbuild; fold i in Hbuild.
    destruct (byte_ok (Z.of_nat (List.length i) + 1)); [|discriminate].
    pose proof (f_equal (fun o => match o with Some f => f | None => [] end) Hbuild) as Hf.
    cbv beta iota in Hf; subst frame.
    exists (client_checksum ((Z.of_nat (List.length i) + 1) :: i)).
    split; [reflexivity|].
    split.
    + now rewrite removelast_last.
    + rewrite <- app_assoc, <- app_comm_cons.
      unfold client_read_response; lazy beta iota. f_equal.
      replace (Z.to_nat (Z.of_nat (List.length i) + 1)) with (List.length (i ++ [client_checksum ((Z.of_nat (List.length i) + 1) :: i)]))
        by (rewrite length_app; simpl; lia).
      rewrite app_assoc. apply firstn_length_app.
Qed.

(** Witness for C1 at the password "1234" and the status command 0x5A. *)
Lemma frame_roundtrip_witness :
  extract_frame ([8; 233; 33; 49; 50; 51; 52; 90; 33; 64] ++ [247])
    = (Some [8; 233; 33; 49; 50; 51; 52; 90; 33; 64], [247])
  /\ client_read_response [8; 233; 33; 18; 52; 255; 90; 33; 98]
    = Some [233; 33; 18; 52; 255; 90; 33; 98].
Proof.
  split.
  - destruct (proj1 frame_roundtrip "1234"%string [90] None [49; 50; 51; 52]
                [8; 233; 33; 49; 50; 51; 52; 90; 33; 64] [247]
                eq_refl eq_refl ltac:(vm_compute; discriminate))
      as [cs [_ [_ H]]].
    exact H.
  - destruct (proj2 frame_roundtrip "1234"%string [90] None
                [8; 233; 33; 18; 52; 255; 90; 33; 98] [] eq_refl)
      as [cs [Hf [_ H]]].
    injection Hf; intros; subst cs. exact H.
Defined.

(** C1 counterexample: as stated, the claim fails in two ways.  A dial-out
    role frame (password "1234", command 0x5A) is not decoded by the stream
    decoder at all: its length byte counts the checksum, so the decoder waits
    for one more byte and leaves the buffer untouched.  And an accept-in role
    frame whose length byte is 247 (password "1234" with a 240-byte raw
    command) is taken for a heartbeat: one byte is consumed and
    returned. *)
Lemma frame_roundtrip_counterexample :
  (exists frame,
     client_build_frame "1234"%string [90] None = Some frame
     /\ extract_frame frame = (None, frame))
  /\ (exists frame,
     server_build_frame "1234"%string (List.repeat 65 240) None = Some frame
     /\ extract_frame frame = (Some [247], tl frame)).
Proof.
  split.
  - eexists; split; [reflexivity|]. vm_compute. reflexivity.
  - eexists; split; [reflexivity|]. vm_compute. reflexivity.
Qed.

(** ** C2 *)

(** C2.  [AMTServer._extract_frame], case by case: a leading heartbeat
    byte is returned as a one-byte frame; fewer than 3 bytes, or fewer than
    [length + 2] bytes, give no frame and leave the buffer as it was; a
    complete frame whose checksum does not validate is removed from the
    buffer and no frame is returned (the function has no error outcome);
    a complete valid frame is returned and removed. *)
Theorem extract_frame_spec :
  (forall rest,
     extract_frame (FRAME_HEARTBEAT :: rest) = (Some [FRAME_HEARTBEAT], rest))
  /\ (forall buffer,
     hd_error buffer <> Some FRAME_HEARTBEAT ->
     ((List.length buffer < 3)%nat
      \/ Z.of_nat (List.length buffer) < nth 0 buffer 0 + 2) ->
     extract_frame buffer = (None, buffer))
  /\ (forall b0 rest,
     b0 <> FRAME_HEARTBEAT ->
     (3 <= List.length (b0 :: rest))%nat ->
     b0 + 2 <= Z.of_nat (List.length (b0 :: rest)) ->
     validate_checksum (firstn (Z.to_nat (b0 + 2)) (b0 :: rest)) = false ->
     extract_frame (b0 :: rest) = (None, skipn (Z.to_nat (b0 + 2)) (b0 :: rest)))
  /\ (forall b0 rest,
     b0 <> FRAME_HEARTBEAT ->
     (3 <= List.length (b0 :: rest))%nat ->
     b0 + 2 <= Z.of_nat (List.length (b0 :: rest)) ->
     validate_checksum (firstn (Z.to_nat (b0 + 2)) (b0 :: rest)) = true ->
     extract_frame (b0 :: rest)
     = (Some (firstn (Z.to_nat (b0 + 2)) (b0 :: rest)),
        skipn (Z.to_nat (b0 + 2)) (b0 :: rest))).
Proof.
  split; [|split; [|split]].
  - intros rest. unfold extract_frame. rewrite Z.eqb_refl. reflexivity.
  - intros [|b0 rest] Hhd Hshort; [reflexivity|].
    unfold extract_frame.
    assert (Hne : b0 <> FRAME_HEARTBEAT) by (intros ->; apply Hhd; reflexivity).
    rewrite (proj2 (Z.eqb_neq _ _) Hne).
    destruct (Nat.ltb (List.length (b0 :: rest)) 3) eqn:H3; [reflexivity|].
    apply Nat.ltb_ge in H3.
    destruct Hshort as [Hs | Hs]; [lia|].
    simpl nth in Hs.
    replace (Nat.ltb (List.length (b0 :: rest)) (Z.to_nat (b0 + 2))) with true
      by (symmetry; apply Nat.ltb_lt; lia).
    reflexivity.
  - intros b0 rest Hne H3 Hlen Hbad. unfold extract_frame.
    rewrite (proj2 (Z.eqb_neq _ _) Hne).
    replace (Nat.ltb (List.length (b0 :: rest)) 3) with false
      by (symmetry; apply Nat.ltb_ge; lia).
    replace (Nat.ltb (List.length (b0 :: rest)) (Z.to_nat (b0 + 2))) with false
      by (symmetry; apply Nat.ltb_ge; lia).
    lazy beta iota zeta. rewrite Hbad. reflexivity.
  - intros b0 rest Hne H3 Hlen Hok. unfold extract_frame.
    rewrite (proj2 (Z.eqb_neq _ _) Hne).
    replace (Nat.ltb (List.length (b0 :: rest)) 3) with false
      by (symmetry; apply Nat.ltb_ge; lia).
    replace (Nat.ltb (List.length (b0 :: rest)) (Z.to_nat (b0 + 2))) with false
      by (symmetry; apply Nat.ltb_ge; lia).
    lazy beta iota zeta. rewrite Hok. reflexivity.
Qed.

(** Witness for C2: a heartbeat, an incomplete frame, a corrupted frame
    and the valid ACK frame [01 FE 00]. *)
Lemma extract_frame_spec_witness :
  extract_frame [247; 1] = (Some [247], [1])
  /\ extract_frame [8; 233; 33] = (None, [8; 233; 33])
  /\ extract_frame [1; 254; 5; 7] = (None, [7])
  /\ extract_frame [1; 254; 0; 7] = (Some [1; 254; 0], [7]).
Proof.
  split; [|split; [|split]].
  - apply (proj1 extract_frame_spec).
  - apply (proj1 (proj2 extract_frame_spec)).
    + simpl. intros H; injection H; intros Hx; discriminate Hx.
    + right. simpl. lia.
  - apply (proj1 (proj2 (proj2 extract_frame_spec)) 1 [254; 5; 7]);
      [discriminate | simpl; lia | simpl; lia | vm_compute; reflexivity].
  - apply (proj2 (proj2 (proj2 extract_frame_spec)) 1 [254; 0; 7]);
      [discriminate | simpl; lia | simpl; lia | vm_compute; reflexivity].
Defined.

(** ** C3 *)

Lemma lxor_is_byte (a b : Z) : is_byte a -> is_byte b -> is_byte (Z.lxor a b).
Proof.
  unfold is_byte; intros Ha Hb.
  assert (H0 : 0 <= Z.lxor a b) by (apply Z.lxor_nonneg; lia).
  assert (Hs : Z.shiftr (Z.lxor a b) 8 = 0).
  { rewrite Z.shiftr_lxor, !Z.shiftr_div_pow2 by lia.
    rewrite (Z.div_small a), (Z.div_small b) by (simpl; lia). reflexivity. }
  rewrite Z.shiftr_div_pow2 in Hs by lia.
  split; [exact H0|].
  pose proof (Z.div_mod (Z.lxor a b) (2 ^ 8) ltac:(simpl; lia)) as Hdm.
  rewrite Hs in Hdm.
  pose proof (Z.mod_pos_bound (Z.lxor a b) (2 ^ 8) ltac:(simpl; lia)).
  simpl in *; lia.
Qed.

Lemma fold_xor_is_byte (data : bytes) (acc : Z) :
  Forall is_byte data -> is_byte acc ->
  is_byte (fold_left (fun acc b => Z.lxor acc b) data acc).
Proof.
  revert acc; induction data as [|b data IH]; intros acc Hd Ha; simpl; [exact Ha|].
  inversion Hd; subst. apply IH; [assumption|]. apply lxor_is_byte; assumption.
Qed.

Lemma lxor_255_complement (c : Z) : is_byte c -> Z.lxor c 255 = 255 - c.
Proof.
  intros Hc.
  assert (Hall : forallb (fun n => Z.eqb (Z.lxor (Z.of_nat n) 255) (255 - Z.of_nat n))
                   (seq 0 256) = true) by (vm_compute; reflexivity).
  rewrite forallb_forall in Hall.
  specialize (Hall (Z.to_nat c)).
  rewrite Z2Nat.id in Hall by (unfold is_byte in Hc; lia).
  apply Z.eqb_eq, Hall, in_seq. unfold is_byte in Hc; lia.
Qed.

(** C3.  On any byte sequence, the accept-in checksum is the bitwise
    complement (within a byte) of the dial-out checksum: it is the XOR of
    the dial-out checksum with 0xFF, the dial-out checksum is a byte, and the
    accept-in checksum equals 255 minus it. *)
Theorem server_checksum_complement (data : bytes) :
  Forall is_byte data ->
  server_checksum data = Z.lxor (client_checksum data) 255
  /\ is_byte (client_checksum data)
  /\ server_checksum data = 255 - client_checksum data.
Proof.
  intros Hd.
  assert (Hb : is_byte (client_checksum data))
    by (apply fold_xor_is_byte; [exact Hd | unfold is_byte; lia]).
  split; [reflexivity|]. split; [exact Hb|].
  apply lxor_255_complement, Hb.
Qed.

(** Witness for C3 on the frame prefix [08 E9 21 31 32 33 34 5A 21]. *)
Lemma server_checksum_complement_witness :
  server_checksum [8; 233; 33; 49; 50; 51; 52; 90; 33]
  = 255 - client_checksum [8; 233; 33; 49; 50; 51; 52; 90; 33].
Proof.
  apply (server_checksum_complement [8; 233; 33; 49; 50; 51; 52; 90; 33]).
  repeat constructor; unfold is_byte; lia.
Defined.

(** ** C4 *)

Lemma nibble_hex_decode (c : ascii) : nibble c = PasswordSpec.hex_decode c.
Proof.
  destruct c as [b0 b1 b2 b3 b4 b5 b6 b7].
  destruct b0, b1, b2, b3, b4, b5, b6, b7; vm_compute; reflexivity.
Qed.

Lemma pack_is_byte (h l : ascii) : is_byte (PasswordSpec.pack h l).
Proof.
  destruct h as [h0 h1 h2 h3 h4 h5 h6 h7], l as [l0 l1 l2 l3 l4 l5 l6 l7].
  unfold is_byte.
  assert (Hh : 0 <= PasswordSpec.hex_decode (Ascii h0 h1 h2 h3 h4 h5 h6 h7) < 16)
    by (destruct h0, h1, h2, h3, h4, h5, h6, h7; vm_compute; split; congruence).
  assert (Hl : 0 <= PasswordSpec.hex_decode (Ascii l0 l1 l2 l3 l4 l5 l6 l7) < 16)
    by (destruct l0, l1, l2, l3, l4, l5, l6, l7; vm_compute; split; congruence).
  unfold PasswordSpec.pack.
  set (x := PasswordSpec.hex_decode (Ascii h0 h1 h2 h3 h4 h5 h6 h7)) in *.
  set (y := PasswordSpec.hex_decode (Ascii l0 l1 l2 l3 l4 l5 l6 l7)) in *.
  rewrite Z.shiftl_mul_pow2 by lia.
  assert (Hlor : Z.lor (x * 2 ^ 4) y = x * 2 ^ 4 + y).
  { rewrite <- Z.lxor_lor.
    - rewrite <- Z.add_nocarry_lxor; [reflexivity|].
      apply Z.bits_inj'; intros n Hn. rewrite Z.land_spec, Z.bits_0.
      destruct (Z.lt_ge_cases n 4).
      + rewrite Z.mul_pow2_bits_low by lia. reflexivity.
      + rewrite (Z.bits_above_log2 y n); [apply andb_false_r|lia|].
        destruct (Z.eq_dec y 0) as [->|]; [simpl; lia|].
        assert (Z.log2 y < 4) by (apply Z.log2_lt_pow2; simpl; lia). lia.
    - apply Z.bits_inj'; intros n Hn. rewrite Z.land_spec, Z.bits_0.
      destruct (Z.lt_ge_cases n 4).
      + rewrite Z.mul_pow2_bits_low by lia. reflexivity.
      + rewrite (Z.bits_above_log2 y n); [apply andb_false_r|lia|].
        destruct (Z.eq_dec y 0) as [->|]; [simpl; lia|].
        assert (Z.log2 y < 4) by (apply Z.log2_lt_pow2; simpl; lia). lia. }
  rewrite Hlor. simpl. lia.
Qed.

Lemma substring_0_0 (s : string) : substring 0 0 s = EmptyString.
Proof. destruct s; reflexivity. Qed.

(** C4.  [AMTClient._password_to_bytes] of any (ASCII) password string is
    the spec's packing of the string right-padded with 'F' and truncated to
    6 characters: each pair is hex-decoded (non-hex characters as 0) and
    packed as [high << 4 | low]; the result is exactly 3 bytes; and "1234"
    gives [0x12, 0x34, 0xFF]. *)
Theorem password_to_bytes_spec (password : string) :
  (exists c0 c1 c2 c3 c4 c5,
     PasswordSpec.padded6 password = [c0; c1; c2; c3; c4; c5]
     /\ password_to_bytes password
        = [PasswordSpec.pack c0 c1; PasswordSpec.pack c2 c3; PasswordSpec.pack c4 c5])
  /\ List.length (password_to_bytes password) = 3%nat
  /\ Forall is_byte (password_to_bytes password)
  /\ password_to_bytes "1234" = [18; 52; 255].
Proof.
  assert (Hshape : exists c0 c1 c2 c3 c4 c5,
     PasswordSpec.padded6 password = [c0; c1; c2; c3; c4; c5]
     /\ password_to_bytes password
        = [PasswordSpec.pack c0 c1; PasswordSpec.pack c2 c3; PasswordSpec.pack c4 c5]).
  { destruct password as [|c0 [|c1 [|c2 [|c3 [|c4 [|c5 rest]]]]]];
      unfold PasswordSpec.padded6, password_to_bytes, ljust;
      cbn -[nibble PasswordSpec.pack Z.shiftl Z.lor]; rewrite ?substring_0_0;
      do 6 eexists; split; try reflexivity;
      unfold PasswordSpec.pack; rewrite !nibble_hex_decode; reflexivity. }
  destruct Hshape as (c0 & c1 & c2 & c3 & c4 & c5 & Hp & Hb).
  split; [exists c0, c1, c2, c3, c4, c5; tauto|].
  rewrite Hb. split; [reflexivity|]. split; [|reflexivity].
  repeat constructor; apply pack_is_byte.
Qed.

(** ** C10 *)

Lemma extract_corrupted_prefix (b0 : Z) (bad_rest valid : bytes) :
  b0 <> FRAME_HEARTBEAT ->
  (3 <= List.length (b0 :: bad_rest))%nat ->
  Z.of_nat (List.length (b0 :: bad_rest)) = b0 + 2 ->
  validate_checksum (b0 :: bad_rest) = false ->
  extract_frame ((b0 :: bad_rest) ++ valid) = (None, valid).
Proof.
  intros Hne H3 Hlen Hbad.
  assert (Ht : Z.to_nat (b0 + 2) = List.length (b0 :: bad_rest)) by lia.
  unfold extract_frame. change ((b0 :: bad_rest) ++ valid) with (b0 :: bad_rest ++ valid).
  lazy beta iota zeta.
  rewrite (proj2 (Z.eqb_neq _ _) Hne).
  change (b0 :: bad_rest ++ valid) with ((b0 :: bad_rest) ++ valid).
  rewrite Ht, length_app.
  replace (Nat.ltb (List.length (b0 :: bad_rest) + List.length valid) 3) with false
    by (symmetry; apply Nat.ltb_ge; lia).
  replace (Nat.ltb (List.length (b0 :: bad_rest) + List.length valid)
             (List.length (b0 :: bad_rest))) with false
    by (symmetry; apply Nat.ltb_ge; lia).
  rewrite firstn_length_app, skipn_length_app, Hbad. reflexivity.
Qed.

(** C10.  In one pass of the [_handle_client] frame loop, a complete
    frame with an invalid checksum in front of a valid complete frame is
    dropped and ends the pass: no frame is processed and the valid frame is
    left in the buffer; it is only processed in a later pass, after the next
    read has appended more bytes (the first frame processed then is that
    valid frame). *)
Theorem corrupted_frame_ends_pass (b0 : Z) (bad_rest i more : bytes) (cs : Z) :
  b0 <> FRAME_HEARTBEAT ->
  (3 <= List.length (b0 :: bad_rest))%nat ->
  Z.of_nat (List.length (b0 :: bad_rest)) = b0 + 2 ->
  validate_checksum (b0 :: bad_rest) = false ->
  (3 <= List.length i)%nat ->
  Z.of_nat (List.length i) <> FRAME_HEARTBEAT ->
  cs = server_checksum (Z.of_nat (List.length i) :: i) ->
  let valid := Z.of_nat (List.length i) :: i ++ [cs] in
  handle_data ((b0 :: bad_rest) ++ valid) = ([], valid)
  /\ exists frames rest,
       handle_data (valid ++ more) = (valid :: frames, rest).
Proof.
  intros Hne H3 Hlen Hbad Hi Hhb Hcs valid.
  split.
  - unfold handle_data. rewrite length_app; simpl List.length at 1.
    rewrite Nat.add_succ_l. cbn [process_pass].
    change ((b0 :: bad_rest) ++ valid) with (b0 :: bad_rest ++ valid).
    lazy beta iota.
    change (b0 :: bad_rest ++ valid) with ((b0 :: bad_rest) ++ valid).
    rewrite (extract_corrupted_prefix b0 bad_rest valid Hne H3 Hlen Hbad).
    reflexivity.
  - unfold handle_data.
    pose proof (extract_server_shaped i more cs Hi Hhb Hcs) as Hx.
    fold valid in Hx.
    destruct (valid ++ more) as [|x xs] eqn:Hvm; [unfold valid in Hvm; discriminate|].
    simpl List.length. cbn [process_pass].
    rewrite Hx.
    destruct (process_pass (List.length xs) more) as [frames rest].
    exists frames, rest. reflexivity.
Qed.

(** Witness for C10: a corrupted ACK frame [01 FE 05] in front of the
    status command frame of password "1234". *)
Lemma corrupted_frame_ends_pass_witness :
  handle_data ([1; 254; 5] ++ [8; 233; 33; 49; 50; 51; 52; 90; 33; 64])
  = ([], [8; 233; 33; 49; 50; 51; 52; 90; 33; 64]).
Proof.
  exact (proj1 (corrupted_frame_ends_pass 1 [254; 5] [233; 33; 49; 50; 51; 52; 90; 33] [] 64
                  ltac:(discriminate) ltac:(simpl; lia) ltac:(reflexivity)
                  ltac:(vm_compute; reflexivity) ltac:(simpl; lia)
                  ltac:(vm_compute; discriminate) ltac:(vm_compute; reflexivity))).
Defined.
(** ** C5 *)

(** C5.  Each status decoder fails, and then with a protocol error, exactly
    when its input is shorter than the role's minimum (47 bytes for
    [AMTClient._parse_response], 10 bytes for [AMTServer._parse_response]);
    on every longer input it returns a status record. *)
Theorem parse_response_errors :
  (forall data,
     (exists e, client_parse_response data = Err e) <-> (List.length data < 47)%nat)
  /\ (forall data,
     (List.length data < 47)%nat -> client_parse_response data = Err (ProtocolError (List.length data)))
  /\ (forall data,
     (47 <= List.length data)%nat -> exists s, client_parse_response data = Ok s)
  /\ (forall max_pgms max_tamper max_short max_low data,
     (exists e, server_parse_response max_pgms max_tamper max_short max_low data = Err e)
     <-> (List.length data < 10)%nat)
  /\ (forall max_pgms max_tamper max_short max_low data,
     (List.length data < 10)%nat ->
     server_parse_response max_pgms max_tamper max_short max_low data
     = Err (ProtocolError (List.length data)))
  /\ (forall max_pgms max_tamper max_short max_low data,
     (10 <= List.length data)%nat ->
     exists s, server_parse_response max_pgms max_tamper max_short max_low data = Ok s).
Proof.
  repeat split.
  - intros [e He]. unfold client_parse_response in He.
    destruct (Nat.ltb (List.length data) 47) eqn:Hl; [apply Nat.ltb_lt; exact Hl | discriminate].
  - intros Hl. exists (ProtocolError (List.length data)).
    unfold client_parse_response. apply Nat.ltb_lt in Hl. rewrite Hl. reflexivity.
  - intros data Hl. unfold client_parse_response. apply Nat.ltb_lt in Hl. rewrite Hl. reflexivity.
  - intros data Hl. unfold client_parse_response.
    replace (Nat.ltb (List.length data) 47) with false by (symmetry; apply Nat.ltb_ge; exact Hl).
    eexists; reflexivity.
  - intros [e He]. unfold server_parse_response in He.
    destruct (Nat.ltb (List.length data) 10) eqn:Hl; [apply Nat.ltb_lt; exact Hl | discriminate].
  - intros Hl. exists (ProtocolError (List.length data)).
    unfold server_parse_response. apply Nat.ltb_lt in Hl. rewrite Hl. reflexivity.
  - intros max_pgms max_tamper max_short max_low data Hl. unfold server_parse_response.
    apply Nat.ltb_lt in Hl. rewrite Hl. reflexivity.
  - intros max_pgms max_tamper max_short max_low data Hl. unfold server_parse_response.
    replace (Nat.ltb (List.length data) 10) with false by (symmetry; apply Nat.ltb_ge; exact Hl).
    eexists; reflexivity.
Qed.

(** Witness for C5 at the boundaries: 46 and 47 bytes for the dial-out
    decoder, 9 and 10 bytes for the accept-in decoder (3 PGMs). *)
Lemma parse_response_errors_witness :
  client_parse_response (List.repeat 0 46) = Err (ProtocolError 46)
  /\ (exists s, client_parse_response (List.repeat 0 47) = Ok s)
  /\ server_parse_response 3%nat 0%nat 0%nat 0%nat (List.repeat 0 9) = Err (ProtocolError 9)
  /\ (exists s, server_parse_response 3%nat 0%nat 0%nat 0%nat (List.repeat 0 10) = Ok s).
Proof.
  split; [|split; [|split]].
  - exact (proj1 (proj2 parse_response_errors) (List.repeat 0 46) ltac:(simpl; lia)).
  - exact (proj1 (proj2 (proj2 parse_response_errors)) (List.repeat 0 47) ltac:(simpl; lia)).
  - exact (proj1 (proj2 (proj2 (proj2 (proj2 parse_response_errors)))) 3%nat 0%nat 0%nat 0%nat
             (List.repeat 0 9) ltac:(simpl; lia)).
  - exact (proj2 (proj2 (proj2 (proj2 (proj2 parse_response_errors)))) 3%nat 0%nat 0%nat 0%nat
             (List.repeat 0 10) ltac:(simpl; lia)).
Defined.

(** ** C7 *)

(** C7.  The [problem] flag is derived per role: in the accept-in decoder
    it is [low battery OR NOT battery connected] (power-status bits 5 and 6
    of content byte 39); in the dial-out decoder it is bit 4 (0x10) of the
    central-status byte 30, with no battery term: a dial-out payload with no
    battery connected can still report no problem. *)
Theorem problem_flag_per_role :
  (forall max_pgms max_tamper max_short max_low data s,
     server_parse_response max_pgms max_tamper max_short max_low data = Ok s ->
     s_problem s = s_battery_low s || negb (s_battery_connected s))
  /\ (forall data s,
     client_parse_response data = Ok s ->
     c_problem s = flag (get_or0 data OFFSET_CENTRAL_STATUS) 16)
  /\ (exists data s,
     client_parse_response data = Ok s
     /\ c_battery_connected s = false /\ c_problem s = false).
Proof.
  split; [|split].
  - intros max_pgms max_tamper max_short max_low data s H.
    unfold server_parse_response in H.
    destruct (Nat.ltb (List.length data) 10); [discriminate|].
    injection H as <-. reflexivity.
  - intros data s H. unfold client_parse_response in H.
    destruct (Nat.ltb (List.length data) 47); [discriminate|].
    injection H as <-. reflexivity.
  - exists (List.repeat 0 47). eexists. split; [reflexivity|]. split; reflexivity.
Qed.

(** Witness for C7 on all-zero payloads. *)
Lemma problem_flag_per_role_witness :
  (exists s, server_parse_response 3%nat 0%nat 0%nat 0%nat (List.repeat 0 54) = Ok s
             /\ s_problem s = false)
  /\ (exists s, client_parse_response (List.repeat 0 47) = Ok s
             /\ c_problem s = false).
Proof.
  split.
  - eexists; split; [reflexivity|].
    rewrite (proj1 problem_flag_per_role 3%nat 0%nat 0%nat 0%nat (List.repeat 0 54) _ eq_refl).
    vm_compute; reflexivity.
  - eexists; split; [reflexivity|].
    rewrite (proj1 (proj2 problem_flag_per_role) (List.repeat 0 47) _ eq_refl).
    vm_compute; reflexivity.
Defined.



(** ** C6 *)




(** ** C8 *)

(** C8 (code bug).  [_handle_client] closes [self._connection] and only
    after [await close()] stores its own connection, with no lock between
    the two: when two panels connect while one is active, the second
    handler closes the same old connection, and at the end B and C are both
    open and served by their read loops, C is [self._connection], and B,
    the connection it replaced, was never closed. *)
Theorem single_active_connection_race :
  exists st,
    ServerModel.run "1234" (fun _ => None) ServerModel.init two_new_panels = Some st
    /\ ServerModel.active st 1 = true
    /\ ServerModel.active st 2 = true
    /\ ServerModel.current st = Some 2%nat
    /\ ServerModel.is_open (ServerModel.conns st 1) = true.
Proof. eexists; split; [vm_compute; reflexivity|]. vm_compute. repeat split. Qed.

(** For contrast: one new panel while A is active closes A first. *)
Lemma single_replacement_closes_old :
  exists st,
    ServerModel.run "1234" (fun _ => None) ServerModel.init
      [ServerModel.EAccept; ServerModel.ERunHandler 0; ServerModel.EAccept;
       ServerModel.ERunHandler 1; ServerModel.ERunHandler 1] = Some st
    /\ ServerModel.active st 0 = false
    /\ ServerModel.active st 1 = true
    /\ ServerModel.current st = Some 1%nat.
Proof. eexists; split; [vm_compute; reflexivity|]. vm_compute. repeat split. Qed.

(** ** C9 *)

(** C9 (code bug, accept-in role).  [AMTServer._send_command] locks the
    lock of the connection it sees when called, but writes to, and sets the
    pending future of, whatever [self._connection] is once the lock is
    taken: after the trace above two commands have frames written on
    connection B and are both waiting for a response there, and the frames
    written on B are two. *)
Theorem single_flight_race :
  exists st,
    ServerModel.run "1234" (fun _ => None) ServerModel.init replaced_while_queued = Some st
    /\ ServerModel.in_flight_on st 3 1 = true
    /\ ServerModel.in_flight_on st 2 1 = true
    /\ List.length (filter (fun w => Nat.eqb (fst w) 1) (ServerModel.writes st)) = 2%nat.
Proof. eexists; split; [vm_compute; reflexivity|]. vm_compute. repeat split. Qed.

(** *** The dial-out role keeps one command in flight *)
Module ClientSingleFlight.
Import ClientModel.

(** Every task inside the critical section finds the lock taken and is
    the only task there. *)
Definition Inv (st : cstate) : Prop :=
  forall n, k_critical (tasks st n) = true ->
    locked st = true /\ forall m, k_critical (tasks st m) = true -> m = n.

Lemma upd_eq {A} (f : nat -> A) k v : upd f k v k = v.
Proof. unfold upd. now rewrite Nat.eqb_refl. Qed.

Lemma upd_neq {A} (f : nat -> A) k v n : n <> k -> upd f k v n = f n.
Proof. intros H. unfold upd. now rewrite (proj2 (Nat.eqb_neq n k) H). Qed.

(** A step of the task that owns (or takes) the lock. *)
Lemma inv_owner l w ts c ws t p :
  (forall n, n <> t -> k_critical (ts n) = false) ->
  (k_critical p = true -> l = true) ->
  Inv (mk l w (upd ts t p) c ws).
Proof.
  intros Hothers Hl n Hn. simpl in *.
  destruct (Nat.eq_dec n t) as [->|Hne].
  - rewrite upd_eq in Hn. split; [now apply Hl|].
    intros m Hm. destruct (Nat.eq_dec m t) as [->|Hmne]; [reflexivity|].
    rewrite upd_neq in Hm by exact Hmne. rewrite Hothers in Hm by exact Hmne. discriminate.
  - rewrite upd_neq in Hn by exact Hne. rewrite Hothers in Hn by exact Hne. discriminate.
Qed.

(** A step of a task outside the critical section that stays outside. *)
Lemma inv_passive st w ws t p :
  Inv st -> k_critical (tasks st t) = false -> k_critical p = false ->
  Inv (mk (locked st) w (upd (tasks st) t p) (connected st) ws).
Proof.
  intros Hinv Ht Hp n Hn. simpl in *.
  destruct (Nat.eq_dec n t) as [->|Hne]; [rewrite upd_eq in Hn; congruence|].
  rewrite upd_neq in Hn by exact Hne.
  destruct (Hinv n Hn) as [Hl Hu]. split; [exact Hl|].
  intros m Hm. destruct (Nat.eq_dec m t) as [->|Hmne]; [rewrite upd_eq in Hm; congruence|].
  rewrite upd_neq in Hm by exact Hmne. now apply Hu.
Qed.

Lemma write_frame_shape pw st t command password :
  exists l' p c' ws',
    write_frame pw st t command password = mk l' (waiters st) (upd (tasks st) t p) c' ws'
    /\ (k_critical p = true -> l' = locked st).
Proof.
  unfold write_frame. destruct (client_build_frame pw command password).
  - eexists _, KAwaitHeader, _, _. split; reflexivity.
  - eexists false, _, _, _. split; [reflexivity|discriminate].
Qed.

Lemma body_shape pw l w ts c ws t command password :
  exists l' p c' ws',
    body pw (mk l w ts c ws) t command password = mk l' w (upd ts t p) c' ws'
    /\ (k_critical p = true -> l' = l).
Proof.
  unfold body. simpl. destruct c.
  - destruct (write_frame_shape pw (mk l w ts true ws) t command password)
      as (l' & p & c' & ws' & Heq & Hl).
    exists l', p, c', ws'. split; [exact Heq|exact Hl].
  - eexists _, (KConnecting command password), _, _. split; [reflexivity|]. now intros.
Qed.

Lemma no_critical_when_free st n :
  Inv st -> locked st = false -> k_critical (tasks st n) = false.
Proof.
  intros Hinv Hl. destruct (k_critical (tasks st n)) eqn:Hc; [|reflexivity].
  destruct (Hinv n Hc) as [Hl' _]. congruence.
Qed.

Lemma others_not_critical st t :
  Inv st -> k_critical (tasks st t) = true ->
  forall n, n <> t -> k_critical (tasks st n) = false.
Proof.
  intros Hinv Ht n Hne. destruct (k_critical (tasks st n)) eqn:Hc; [|reflexivity].
  exfalso. apply Hne. exact (proj2 (Hinv t Ht) n Hc).
Qed.

Lemma kstep_inv pw st e st' : Inv st -> kstep pw st e = Some st' -> Inv st'.
Proof.
  intros Hinv Hs. destruct e as [t command password|t|t ok|t header|t data|t]; simpl in Hs.
  - destruct (tasks st t) eqn:Ht; try discriminate. injection Hs as <-.
    apply inv_passive; [exact Hinv | rewrite Ht; reflexivity | reflexivity].
  - destruct (tasks st t) as [|command password|command password| | | | |] eqn:Ht; try discriminate.
    + destruct (negb (locked st) && match waiters st with [] => true | _ => false end) eqn:Hfree.
      * injection Hs as <-. apply andb_true_iff in Hfree as [Hl _]. apply negb_true_iff in Hl.
        destruct (body_shape pw true [] (tasks st) (connected st) (cwrites st) t command password)
          as (l' & p & c' & ws' & Heq & Hl').
        rewrite Heq. apply inv_owner; [|exact Hl'].
        intros n _. now apply no_critical_when_free.
      * injection Hs as <-. apply inv_passive; [exact Hinv | rewrite Ht; reflexivity | reflexivity].
    + destruct (waiters st) as [|w ws] eqn:Hw; [discriminate|].
      destruct (negb (locked st) && Nat.eqb w t) eqn:Hfree; [|discriminate].
      injection Hs as <-. apply andb_true_iff in Hfree as [Hl _]. apply negb_true_iff in Hl.
      destruct (body_shape pw true ws (tasks st) (connected st) (cwrites st) t command password)
        as (l' & p & c' & ws' & Heq & Hl').
      rewrite Heq. apply inv_owner; [|exact Hl'].
      intros n _. now apply no_critical_when_free.
  - destruct (tasks st t) as [| | |command password| | | |] eqn:Ht; try discriminate.
    assert (Hc : k_critical (tasks st t) = true) by (rewrite Ht; reflexivity).
    destruct ok.
    + injection Hs as <-.
      destruct (write_frame_shape pw (mk (locked st) (waiters st) (tasks st) true (cwrites st))
                  t command password) as (l' & p & c' & ws' & Heq & Hl').
      rewrite Heq. apply inv_owner.
      * exact (others_not_critical st t Hinv Hc).
      * intros Hp. rewrite (Hl' Hp). exact (proj1 (Hinv t Hc)).
    + injection Hs as <-. apply inv_owner; [exact (others_not_critical st t Hinv Hc)|discriminate].
  - destruct (tasks st t) eqn:Ht; try discriminate.
    assert (Hc : k_critical (tasks st t) = true) by (rewrite Ht; reflexivity).
    destruct header as [h|]; injection Hs as <-.
    + apply inv_owner; [exact (others_not_critical st t Hinv Hc)|].
      intros _. exact (proj1 (Hinv t Hc)).
    + apply inv_owner; [exact (others_not_critical st t Hinv Hc)|discriminate].
  - destruct (tasks st t) eqn:Ht; try discriminate.
    assert (Hc : k_critical (tasks st t) = true) by (rewrite Ht; reflexivity).
    injection Hs as <-. apply inv_owner; [exact (others_not_critical st t Hinv Hc)|discriminate].
  - destruct (tasks st t) eqn:Ht; try discriminate;
      (assert (Hc : k_critical (tasks st t) = true) by (rewrite Ht; reflexivity));
      injection Hs as <-; apply inv_owner; try discriminate;
      exact (others_not_critical st t Hinv Hc).
Qed.

Lemma krun_inv pw es : forall st st', Inv st -> krun pw st es = Some st' -> Inv st'.
Proof.
  induction es as [|e es IH]; intros st st' Hinv Hr; simpl in Hr.
  - injection Hr as <-. exact Hinv.
  - destruct (kstep pw st e) as [s1|] eqn:Hs; [|discriminate].
    exact (IH s1 st' (kstep_inv pw st e s1 Hinv Hs) Hr).
Qed.

Lemma kinit_inv : Inv kinit.
Proof. intros n Hn. discriminate Hn. Qed.

(** A step that writes a frame on the socket is taken only while no
    command is in flight. *)
Lemma write_only_when_idle pw st e st' :
  Inv st -> kstep pw st e = Some st' -> cwrites st' <> cwrites st ->
  forall n, k_in_flight st n = false.
Proof.
  intros Hinv Hs Hw n.
  assert (Hfl : forall m, k_critical (tasks st m) = false -> k_in_flight st m = false)
    by (intros m Hm; unfold k_in_flight; destruct (tasks st m); simpl in *; congruence).
  destruct e as [t command password|t|t ok|t header|t data|t]; simpl in Hs.
  - destruct (tasks st t); try discriminate. injection Hs as <-. now exfalso.
  - destruct (tasks st t) as [|command password|command password| | | | |] eqn:Ht; try discriminate.
    + destruct (negb (locked st) && match waiters st with [] => true | _ => false end) eqn:Hfree.
      * apply andb_true_iff in Hfree as [Hl _]. apply negb_true_iff in Hl.
        apply Hfl, no_critical_when_free; assumption.
      * injection Hs as <-. now exfalso.
    + destruct (waiters st) as [|w ws]; [discriminate|].
      destruct (negb (locked st) && Nat.eqb w t) eqn:Hfree; [|discriminate].
      apply andb_true_iff in Hfree as [Hl _]. apply negb_true_iff in Hl.
      apply Hfl, no_critical_when_free; assumption.
  - destruct (tasks st t) as [| | |command password| | | |] eqn:Ht; try discriminate.
    assert (Hc : k_critical (tasks st t) = true) by (rewrite Ht; reflexivity).
    destruct (Nat.eq_dec n t) as [->|Hne].
    + unfold k_in_flight. rewrite Ht. reflexivity.
    + apply Hfl. exact (others_not_critical st t Hinv Hc n Hne).
  - destruct (tasks st t); try discriminate.
    destruct header; injection Hs as <-; now exfalso.
  - destruct (tasks st t); try discriminate. injection Hs as <-. now exfalso.
  - destruct (tasks st t); try discriminate; injection Hs as <-; now exfalso.
Qed.

(** X15.  In every state of the dial-out role reachable from the initial
    one ([AMTClient._send_command] under [self._lock]), at most one command
    is in flight, and no frame is written while one is. *)
Lemma client_single_flight pw es st :
  krun pw kinit es = Some st ->
  (forall t1 t2, k_in_flight st t1 = true -> k_in_flight st t2 = true -> t1 = t2)
  /\ (forall e st', kstep pw st e = Some st' -> cwrites st' <> cwrites st ->
                   forall n, k_in_flight st n = false).
Proof.
  intros Hr. pose proof (krun_inv pw es kinit st kinit_inv Hr) as Hinv.
  split.
  - intros t1 t2 H1 H2.
    assert (Hc : forall t, k_in_flight st t = true -> k_critical (tasks st t) = true)
      by (intros t; unfold k_in_flight; destruct (tasks st t); simpl; congruence).
    symmetry. exact (proj2 (Hinv t1 (Hc t1 H1)) t2 (Hc t2 H2)).
  - intros e st' Hs Hw. exact (write_only_when_idle pw st e st' Hinv Hs Hw).
Qed.
End ClientSingleFlight.

(** * Further properties of the protocol code *)

(** ** Zone bitmaps *)

Lemma map_seq_shift {A} (f : nat -> A) (a b n : nat) :
  map f (seq (a + b) n) = map (fun i => f (a + i)%nat) (seq b n).
Proof.
  revert b; induction n as [|n IH]; intros b; simpl; [reflexivity|].
  f_equal. replace (S (a + b)) with (a + S b)%nat by lia. apply IH.
Qed.

Lemma zone_bits_map (byte : Z) (idx s k mz : nat) :
  zone_bits byte idx (seq s k) mz
  = map (fun bit => flag byte (Z.shiftl 1 (Z.of_nat bit)))
        (seq s (Nat.min k (mz - (idx * 8 + s)))).
Proof.
  revert s; induction k as [|k IH]; intros s; [reflexivity|].
  cbn [seq zone_bits].
  destruct (Nat.leb mz (idx * 8 + s)) eqn:H.
  - apply Nat.leb_le in H.
    replace (Nat.min (S k) (mz - (idx * 8 + s))) with 0%nat by lia. reflexivity.
  - apply Nat.leb_gt in H.
    replace (Nat.min (S k) (mz - (idx * 8 + s)))
      with (S (Nat.min k (mz - (idx * 8 + S s)))) by lia.
    cbn [seq map]. f_equal. apply IH.
Qed.

Lemma zone_bytes_map (data : bytes) (off s k mz : nat) :
  zone_bytes data off (seq s k) mz
  = map (fun z => flag (nth (off + z / 8) data 0) (Z.shiftl 1 (Z.of_nat (z mod 8))))
        (seq (8 * s) (Nat.min (mz - 8 * s) (8 * Nat.min k (List.length data - off - s)))).
Proof.
  revert s; induction k as [|k IH]; intros s.
  - replace (Nat.min (mz - 8 * s) (8 * Nat.min 0 (List.length data - off - s))) with 0%nat
      by lia. reflexivity.
  - change (seq s (S k)) with (s :: seq (S s) k). cbn [zone_bytes].
    destruct (Nat.leb (List.length data) (off + s)) eqn:H.
    + apply Nat.leb_le in H.
      replace (Nat.min (mz - 8 * s) (8 * Nat.min (S k) (List.length data - off - s)))
        with 0%nat by lia. reflexivity.
    + apply Nat.leb_gt in H.
      rewrite zone_bits_map, IH.
      set (g := fun z => flag (nth (off + z / 8) data 0) (Z.shiftl 1 (Z.of_nat (z mod 8)))).
      assert (E1 : map (fun bit => flag (nth (off + s) data 0) (Z.shiftl 1 (Z.of_nat bit)))
                       (seq 0 (Nat.min 8 (mz - (s * 8 + 0))))
                   = map g (seq (8 * s) (Nat.min 8 (mz - (s * 8 + 0))))).
      { replace (8 * s)%nat with (8 * s + 0)%nat by lia. rewrite map_seq_shift.
        apply map_ext_in. intros bit Hin. apply in_seq in Hin. unfold g. cbv beta.
        rewrite <- (Nat.div_unique (8 * s + bit) 8 s bit) by lia.
        rewrite <- (Nat.mod_unique (8 * s + bit) 8 s bit) by lia.
        reflexivity. }
      rewrite E1.
      destruct (Nat.le_gt_cases 8 (mz - 8 * s)) as [Hge | Hlt].
      * replace (Nat.min 8 (mz - (s * 8 + 0))) with 8%nat by lia.
        replace (8 * S s)%nat with (8 * s + 8)%nat by lia.
        rewrite <- map_app, <- seq_app. f_equal. f_equal. lia.
      * replace (mz - (8 * s + 8))%nat with 0%nat by lia.
        replace (8 * S s)%nat with (8 * s + 8)%nat by lia.
        replace (mz - (8 * s + 8))%nat with 0%nat by lia.
        rewrite Nat.min_0_l. cbn [seq map]. rewrite app_nil_r. f_equal. f_equal. lia.
Qed.

Lemma parse_zones_map (data : bytes) (off mz : nat) :
  parse_zones data off mz
  = map (fun z => flag (nth (off + z / 8) data 0) (Z.shiftl 1 (Z.of_nat (z mod 8))))
        (seq 0 (Nat.min mz (8 * Nat.min 8 (List.length data - off)))).
Proof.
  unfold parse_zones. rewrite (zone_bytes_map data off 0 8 mz).
  rewrite firstn_all2 by (rewrite length_map, length_seq; lia).
  f_equal. f_equal. lia.
Qed.

Lemma flag_testbit (x : Z) (k : nat) :
  flag x (Z.shiftl 1 (Z.of_nat k)) = Z.testbit x (Z.of_nat k).
Proof.
  unfold flag. rewrite Z.shiftl_1_l.
  destruct (Z.testbit x (Z.of_nat k)) eqn:Ht.
  - assert (Hb : Z.testbit (Z.land x (2 ^ Z.of_nat k)) (Z.of_nat k) = true)
      by (rewrite Z.land_spec, Z.pow2_bits_true by lia; rewrite Ht; reflexivity).
    destruct (Z.eqb_spec (Z.land x (2 ^ Z.of_nat k)) 0) as [E|E]; [|reflexivity].
    rewrite E, Z.testbit_0_l in Hb. discriminate.
  - replace (Z.land x (2 ^ Z.of_nat k)) with 0; [reflexivity|].
    symmetry; apply Z.bits_inj'. intros n Hn.
    rewrite Z.land_spec, Z.testbit_0_l, Z.pow2_bits_eqb by lia.
    destruct (Z.eqb_spec (Z.of_nat k) n); [subst; rewrite Ht; reflexivity | apply andb_false_r].
Qed.

Lemma parse_zones_nth (data : bytes) (off mz z : nat) :
  (z < List.length (parse_zones data off mz))%nat ->
  nth z (parse_zones data off mz) false = Z.testbit (nth (off + z / 8) data 0) (Z.of_nat (z mod 8)).
Proof.
  intros Hz. rewrite parse_zones_map in *. rewrite length_map, length_seq in Hz.
  set (g := fun z => flag (nth (off + z / 8) data 0) (Z.shiftl 1 (Z.of_nat (z mod 8)))).
  rewrite (nth_indep _ false (g 0%nat)) by (rewrite length_map, length_seq; exact Hz).
  rewrite map_nth, seq_nth by exact Hz. unfold g. apply flag_testbit.
Qed.

Lemma parse_zones_length (data : bytes) (off mz : nat) :
  List.length (parse_zones data off mz) = Nat.min mz (8 * Nat.min 8 (List.length data - off)).
Proof. rewrite parse_zones_map, length_map, length_seq. reflexivity. Qed.

(** X1.  [_parse_zones] (both roles) returns
    [min(max_zones, 8 * min(8, len(data) - offset))] zones, and zone [z] is
    bit [z mod 8] of the byte [data[offset + z div 8]]. *)
Theorem parse_zones_bits (data : bytes) (offset max_zones : nat) :
  List.length (parse_zones data offset max_zones)
    = Nat.min max_zones (8 * Nat.min 8 (List.length data - offset))
  /\ forall z, (z < List.length (parse_zones data offset max_zones))%nat ->
     nth z (parse_zones data offset max_zones) false
     = Z.testbit (nth (offset + z / 8) data 0) (Z.of_nat (z mod 8)).
Proof. split; [apply parse_zones_length | intros z; apply parse_zones_nth]. Qed.

(** Witness for X1: zone 9 of [01 02] from offset 0 is bit 1 of 0x02. *)
Lemma parse_zones_bits_witness :
  nth 9 (parse_zones [1; 2] 0 16) false = Z.testbit 2 1.
Proof.
  apply (proj2 (parse_zones_bits [1; 2] 0 16) 9%nat).
  apply Nat.ltb_lt. vm_compute. reflexivity.
Defined.

(** ** Zone bypass masks *)

Lemma mask_fold_testbit (zone_mask : list bool) (i s k : nat) (acc : Z) (j : nat) :
  Z.testbit
    (fold_left (fun byte bit =>
                  if (Nat.ltb (i + bit) (List.length zone_mask) && nth (i + bit) zone_mask false)%bool
                  then Z.lor byte (Z.shiftl 1 (Z.of_nat bit)) else byte)
               (seq s k) acc) (Z.of_nat j) = true
  <-> Z.testbit acc (Z.of_nat j) = true
      \/ ((s <= j < s + k)%nat
          /\ (Nat.ltb (i + j) (List.length zone_mask) && nth (i + j) zone_mask false)%bool = true).
Proof.
  revert s acc; induction k as [|k IH]; intros s acc.
  - simpl. split; [tauto | intros [H | [H _]]; [exact H | lia]].
  - change (seq s (S k)) with (s :: seq (S s) k). cbn [fold_left]. rewrite IH.
    destruct (Nat.ltb (i + s) (List.length zone_mask) && nth (i + s) zone_mask false)%bool eqn:Hc.
    + rewrite Z.lor_spec, Z.shiftl_1_l, Z.pow2_bits_eqb by lia.
      destruct (Nat.eq_dec j s) as [->|Hne].
      * rewrite Z.eqb_refl, orb_true_r. split; [intros _; right; split; [lia | exact Hc] | tauto].
      * replace (Z.of_nat s =? Z.of_nat j) with false by (symmetry; apply Z.eqb_neq; lia).
        rewrite orb_false_r.
        split; (intros [H | [H1 H2]]; [left; exact H | right; split; [lia | exact H2]]).
    + destruct (Nat.eq_dec j s) as [->|Hne].
      * rewrite Hc. split; (intros [H | [H1 H2]]; [left; exact H | try discriminate H2; lia]).
      * split; (intros [H | [H1 H2]]; [left; exact H | right; split; [lia | exact H2]]).
Qed.

Lemma lor_is_byte (a b : Z) : is_byte a -> is_byte b -> is_byte (Z.lor a b).
Proof.
  unfold is_byte; intros Ha Hb.
  assert (H0 : 0 <= Z.lor a b) by (apply Z.lor_nonneg; lia).
  assert (Hs : Z.shiftr (Z.lor a b) 8 = 0).
  { rewrite Z.shiftr_lor, !Z.shiftr_div_pow2 by lia.
    rewrite (Z.div_small a), (Z.div_small b) by (simpl; lia). reflexivity. }
  rewrite Z.shiftr_div_pow2 in Hs by lia.
  split; [exact H0|].
  pose proof (Z.div_mod (Z.lor a b) (2 ^ 8) ltac:(simpl; lia)) as Hdm.
  rewrite Hs in Hdm.
  pose proof (Z.mod_pos_bound (Z.lor a b) (2 ^ 8) ltac:(simpl; lia)).
  simpl in *; lia.
Qed.

Lemma mask_byte_is_byte (zone_mask : list bool) (i : nat) : is_byte (mask_byte zone_mask i).
Proof.
  unfold mask_byte.
  assert (Hgen : forall l acc, (forall b, In b l -> b < 8)%nat -> is_byte acc ->
    is_byte (fold_left (fun byte bit =>
                  if (Nat.ltb (i + bit) (List.length zone_mask) && nth (i + bit) zone_mask false)%bool
                  then Z.lor byte (Z.shiftl 1 (Z.of_nat bit)) else byte) l acc)).
  { induction l as [|b l IHl]; intros acc Hl Ha; [exact Ha|].
    cbn [fold_left]. apply IHl; [intros x Hx; apply Hl; right; exact Hx|].
    destruct (_ && _)%bool; [|exact Ha].
    apply lor_is_byte; [exact Ha|].
    assert (Hb : (b < 8)%nat) by (apply Hl; left; reflexivity).
    rewrite Z.shiftl_1_l. unfold is_byte. split; [apply Z.pow_nonneg; lia|].
    apply Z.le_lt_trans with (2 ^ 7); [apply Z.pow_le_mono_r; lia | simpl; lia]. }
  apply Hgen; [intros b Hb; apply in_seq in Hb; lia | unfold is_byte; lia].
Qed.

Lemma mask_byte_testbit (zone_mask : list bool) (i j : nat) :
  (j < 8)%nat ->
  Z.testbit (mask_byte zone_mask i) (Z.of_nat j)
  = (Nat.ltb (i + j) (List.length zone_mask) && nth (i + j) zone_mask false)%bool.
Proof.
  intros Hj.
  pose proof (mask_fold_testbit zone_mask i 0 8 0 j) as H.
  change (fold_left _ (seq 0 8) 0) with (mask_byte zone_mask i) in H.
  rewrite Z.testbit_0_l in H.
  destruct (Nat.ltb (i + j) (List.length zone_mask) && nth (i + j) zone_mask false)%bool.
  - apply H. right. split; [lia | reflexivity].
  - apply not_true_is_false. intros E.
    apply H in E. destruct E as [E | [_ E]]; discriminate.
Qed.

(** X2.  [bypass_zones] (both roles) sends [CMD_BYPASS] followed by one
    byte per group of 8 zones (rounded up); every byte is in [0, 255]; and
    for a mask of at most 64 zones, [_parse_zones] applied to the mask bytes
    gives back the mask: zone [i] is bit [i mod 8] of byte [i div 8]. *)
Theorem bypass_zones_roundtrip (zone_mask : list bool) :
  hd_error (bypass_command zone_mask) = Some 66
  /\ List.length (bypass_command zone_mask) = S ((List.length zone_mask + 7) / 8)
  /\ Forall is_byte (bypass_command zone_mask)
  /\ ((List.length zone_mask <= 64)%nat ->
      parse_zones (tl (bypass_command zone_mask)) 0 (List.length zone_mask) = zone_mask).
Proof.
  set (n := List.length zone_mask).
  set (mb := map (mask_byte zone_mask) (range_by8 n)).
  assert (Hmb : List.length mb = ((n + 7) / 8)%nat)
    by (unfold mb, range_by8; rewrite !length_map, length_seq; reflexivity).
  assert (Hcmd : bypass_command zone_mask = 66 :: mb) by reflexivity.
  rewrite Hcmd. split; [reflexivity|]. split; [simpl; rewrite Hmb; reflexivity|].
  split.
  - constructor; [unfold is_byte; lia|].
    unfold mb. apply Forall_forall. intros x Hx. apply in_map_iff in Hx.
    destruct Hx as [i [<- _]]. apply mask_byte_is_byte.
  - intros H64. cbn [tl].
    pose proof (Nat.div_mod (n + 7) 8 ltac:(lia)) as Hdm.
    pose proof (Nat.mod_upper_bound (n + 7) 8 ltac:(lia)) as Hmu.
    assert (Hlen : List.length (parse_zones mb 0 n) = n)
      by (rewrite parse_zones_length, Hmb; lia).
    apply nth_ext with (d := false) (d' := false); [exact Hlen|].
    intros z Hz. rewrite Hlen in Hz.
    rewrite parse_zones_nth by lia.
    pose proof (Nat.div_mod z 8 ltac:(lia)) as Hz8.
    pose proof (Nat.mod_upper_bound z 8 ltac:(lia)) as Hzm.
    assert (Hq : (z / 8 < (n + 7) / 8)%nat) by nia.
    unfold mb, range_by8.
    rewrite (nth_indep _ 0 (mask_byte zone_mask 0)) by (rewrite !length_map, length_seq; exact Hq).
    rewrite map_nth.
    rewrite (nth_indep _ 0%nat (8 * 0)%nat) by (rewrite length_map, length_seq; exact Hq).
    rewrite map_nth, seq_nth by exact Hq. rewrite !Nat.add_0_l.
    rewrite mask_byte_testbit by exact Hzm.
    replace (8 * (z / 8) + z mod 8)%nat with z by lia.
    fold n. replace (Nat.ltb z n) with true by (symmetry; apply Nat.ltb_lt; lia).
    reflexivity.
Qed.

(** Witness for X2: the mask of zones 1 and 10 out of 12. *)
Lemma bypass_zones_roundtrip_witness :
  parse_zones (tl (bypass_command
                     [true; false; false; false; false; false; false; false;
                      false; true; false; false]))
              0 12
  = [true; false; false; false; false; false; false; false; false; true; false; false].
Proof.
  apply (proj2 (proj2 (proj2 (bypass_zones_roundtrip
    [true; false; false; false; false; false; false; false; false; true; false; false])))).
  simpl. lia.
Defined.

(** ** Partition commands and passwords *)

Lemma dict_get_set_eq (d : pdict) (k v : string) : dict_get (dict_set d k v) k = Some v.
Proof.
  induction d as [|[k' v'] d IH]; simpl.
  - rewrite String.eqb_refl. reflexivity.
  - destruct (String.eqb_spec k' k) as [->|Hne]; simpl.
    + rewrite String.eqb_refl. reflexivity.
    + apply String.eqb_neq in Hne. rewrite Hne. exact IH.
Qed.

Lemma dict_get_set_neq (d : pdict) (k k' v : string) :
  k <> k' -> dict_get (dict_set d k v) k' = dict_get d k'.
Proof.
  intros Hne. induction d as [|[k0 v0] d IH]; simpl.
  - apply String.eqb_neq in Hne. rewrite Hne. reflexivity.
  - destruct (String.eqb_spec k0 k) as [->|Hk]; simpl.
    + apply String.eqb_neq in Hne. rewrite Hne. reflexivity.
    + destruct (String.eqb k0 k'); [reflexivity | exact IH].
Qed.

Lemma set_if_get_eq (d : pdict) (k : string) (o : option string) :
  dict_get (set_if d k o) k
  = match o with
    | Some p => if String.eqb p EmptyString then dict_get d k else Some p
    | None => dict_get d k
    end.
Proof.
  destruct o as [p|]; simpl; [|reflexivity].
  destruct (String.eqb p EmptyString); [reflexivity | apply dict_get_set_eq].
Qed.

Lemma set_if_get_neq (d : pdict) (k k' : string) (o : option string) :
  k <> k' -> dict_get (set_if d k o) k' = dict_get d k'.
Proof.
  intros Hne. destruct o as [p|]; simpl; [|reflexivity].
  destruct (String.eqb p EmptyString); [reflexivity | apply dict_get_set_neq, Hne].
Qed.

(** X3.  [set_partition_passwords] (both roles) stores each non-empty
    password under its partition key and replaces an earlier one; a
    [None] or empty argument keeps the password stored before; keys other
    than "A" to "D" are not touched. *)
Theorem set_partition_passwords_get (d : pdict) (password_a password_b password_c password_d : option string) :
  (forall k o, In (k, o) [("A", password_a); ("B", password_b); ("C", password_c); ("D", password_d)]%string ->
     (forall p, o = Some p -> p <> EmptyString ->
        dict_get (set_partition_passwords d password_a password_b password_c password_d) k = Some p)
     /\ (o = None \/ o = Some EmptyString ->
        dict_get (set_partition_passwords d password_a password_b password_c password_d) k = dict_get d k))
  /\ (forall k, ~ In k ["A"; "B"; "C"; "D"]%string ->
     dict_get (set_partition_passwords d password_a password_b password_c password_d) k = dict_get d k).
Proof.
  unfold set_partition_passwords.
  assert (Hcase : forall (g : option string) dk o,
    g = match o with
        | Some p => if String.eqb p EmptyString then dk else Some p
        | None => dk
        end ->
    (forall p, o = Some p -> p <> EmptyString -> g = Some p)
    /\ (o = None \/ o = Some EmptyString -> g = dk)).
  { intros g dk o ->. split.
    - intros p -> Hp. apply String.eqb_neq in Hp. rewrite Hp. reflexivity.
    - intros [-> | ->]; reflexivity. }
  split.
  - intros k o Hin. simpl in Hin.
    destruct Hin as [E | [E | [E | [E | []]]]]; injection E; intros <- <-; apply Hcase.
    + rewrite !set_if_get_neq by discriminate. apply set_if_get_eq.
    + rewrite !set_if_get_neq by discriminate. rewrite set_if_get_eq.
      rewrite set_if_get_neq by discriminate. reflexivity.
    + rewrite set_if_get_neq by discriminate. rewrite set_if_get_eq.
      rewrite !set_if_get_neq by discriminate. reflexivity.
    + rewrite set_if_get_eq. rewrite !set_if_get_neq by discriminate. reflexivity.
  - intros k Hk. simpl in Hk.
    rewrite !set_if_get_neq; [reflexivity | intros <-; tauto ..].
Qed.

(** Witness for X3: setting only partition B over a table holding A. *)
Lemma set_partition_passwords_get_witness :
  dict_get (set_partition_passwords [("A", "1111")]%string None (Some "2222"%string) None None) "B"
  = Some "2222"%string.
Proof.
  apply (proj1 (proj1 (set_partition_passwords_get [("A", "1111")]%string None (Some "2222"%string)
                          None None) "B"%string (Some "2222"%string)
                  ltac:(simpl; tauto)) "2222"%string eq_refl).
  discriminate.
Defined.

(** X4.  [arm_partition] and [disarm_partition] (both roles): a partition
    name other than "A", "B", "C" or "D" raises [ValueError] before any
    command is sent; for a valid partition the command is 'A' (arm) or 'D'
    (disarm) followed by the partition letter, and the password used is the
    explicit one if non-empty, else the partition's stored password if
    non-empty, else the panel password. *)
Theorem partition_call_spec (d : pdict) (self_password partition : string) (password : option string) :
  (partition_call arm_partition_commands d self_password partition password = None
     <-> ~ In partition ["A"; "B"; "C"; "D"]%string)
  /\ (partition_call disarm_partition_commands d self_password partition password = None
     <-> ~ In partition ["A"; "B"; "C"; "D"]%string)
  /\ (forall c, In (String c EmptyString) ["A"; "B"; "C"; "D"]%string ->
     arm_partition_commands (String c EmptyString) = Some [65; Z.of_nat (nat_of_ascii c)]
     /\ disarm_partition_commands (String c EmptyString) = Some [68; Z.of_nat (nat_of_ascii c)])
  /\ (forall commands command, commands partition = Some command ->
     (forall p, password = Some p -> p <> EmptyString ->
        partition_call commands d self_password partition password = Some (command, p))
     /\ (password = None \/ password = Some EmptyString ->
        forall q, dict_get d partition = Some q -> q <> EmptyString ->
        partition_call commands d self_password partition password = Some (command, q))
     /\ (password = None \/ password = Some EmptyString ->
        dict_get d partition = None \/ dict_get d partition = Some EmptyString ->
        partition_call commands d self_password partition password
        = Some (command, self_password))).
Proof.
  assert (Hvalid : forall commands,
    (forall p, commands p = None <-> ~ In p ["A"; "B"; "C"; "D"]%string) ->
    (partition_call commands d self_password partition password = None
     <-> ~ In partition ["A"; "B"; "C"; "D"]%string)).
  { intros commands Hc. rewrite <- Hc. unfold partition_call.
    destruct (commands partition); split; congruence. }
  assert (Hdom : forall (commands : string -> option bytes) (c1 c2 c3 c4 : bytes),
    (forall p, commands p = if String.eqb p "A" then Some c1 else if String.eqb p "B" then Some c2
                            else if String.eqb p "C" then Some c3 else if String.eqb p "D" then Some c4
                            else None) ->
    forall p, commands p = None <-> ~ In p ["A"; "B"; "C"; "D"]%string).
  { intros commands c1 c2 c3 c4 Hc p. rewrite Hc. simpl.
    destruct (String.eqb_spec p "A"); [subst; split; [discriminate | tauto]|].
    destruct (String.eqb_spec p "B"); [subst; split; [discriminate | tauto]|].
    destruct (String.eqb_spec p "C"); [subst; split; [discriminate | tauto]|].
    destruct (String.eqb_spec p "D"); [subst; split; [discriminate | tauto]|].
    split; [intros _ [H | [H | [H | [H | []]]]]; congruence | reflexivity]. }
  split; [apply Hvalid, (Hdom _ [65; 65] [65; 66] [65; 67] [65; 68]); reflexivity|].
  split; [apply Hvalid, (Hdom _ [68; 65] [68; 66] [68; 67] [68; 68]); reflexivity|].
  split.
  - intros c Hin. simpl in Hin.
    destruct Hin as [E | [E | [E | [E | []]]]]; injection E; intros <-; split; reflexivity.
  - intros commands command Hc. unfold partition_call. rewrite Hc.
    split; [|split].
    + intros p -> Hp. apply String.eqb_neq in Hp. simpl. rewrite Hp. reflexivity.
    + intros Hpw q Hq Hq0. apply String.eqb_neq in Hq0.
      destruct Hpw as [-> | ->]; unfold effective_password; rewrite Hq; simpl; rewrite Hq0;
        reflexivity.
    + intros Hpw Hs.
      destruct Hpw as [-> | ->]; destruct Hs as [Hs | Hs];
        unfold effective_password; rewrite Hs; reflexivity.
Qed.

(** Witness for X4: arming partition C with no explicit password uses the
    stored one. *)
Lemma partition_call_spec_witness :
  partition_call arm_partition_commands [("C", "4321")]%string "1234" "C" None
  = Some ([65; 67], "4321"%string).
Proof.
  exact (proj1 (proj2 (proj2 (proj2 (proj2 (partition_call_spec [("C", "4321")]%string "1234" "C" None)))
                  arm_partition_commands [65; 67] eq_refl))
           (or_introl eq_refl) "4321"%string eq_refl ltac:(discriminate)).
Defined.

(** ** PGM commands *)

(** X5.  [activate_pgm] / [deactivate_pgm]: the dial-out role accepts PGM
    numbers 1 to 3 and sends the prefix followed by one ASCII digit; the
    accept-in role accepts 1 to [MAX_PGMS] (and raises above 217, where
    [bytes] overflows) and, for numbers below 20, sends the prefix followed
    by the number as two ASCII decimal digits. *)
Theorem pgm_commands (MAX_PGMS : Z) (prefix : bytes) (pgm_number : Z) :
  (client_pgm_command prefix pgm_number = None <-> pgm_number < 1 \/ 3 < pgm_number)
  /\ (1 <= pgm_number <= 3 ->
      client_pgm_command prefix pgm_number = Some (prefix ++ [48 + pgm_number])
      /\ 49 <= 48 + pgm_number <= 51)
  /\ (server_pgm_command MAX_PGMS prefix pgm_number = None
      <-> pgm_number < 1 \/ MAX_PGMS < pgm_number \/ 217 < pgm_number)
  /\ (1 <= pgm_number <= MAX_PGMS -> pgm_number < 20 ->
      server_pgm_command MAX_PGMS prefix pgm_number
      = Some (prefix ++ [48 + pgm_number / 10; 48 + pgm_number mod 10])).
Proof.
  set (n := pgm_number).
  split; [|split; [|split]].
  - unfold client_pgm_command.
    destruct (Z.ltb_spec n 1), (Z.ltb_spec 3 n); simpl; split; intros; try discriminate; try lia;
      reflexivity.
  - intros Hn. unfold client_pgm_command.
    replace ((n <? 1) || (3 <? n)) with false
      by (symmetry; apply orb_false_iff; split; apply Z.ltb_ge; lia).
    split; [reflexivity | lia].
  - unfold server_pgm_command.
    destruct (Z.ltb_spec n 1); [cbn [orb]; split; [intros _; lia | reflexivity]|].
    destruct (Z.ltb_spec MAX_PGMS n); [cbn [orb]; split; [intros _; lia | reflexivity]|].
    cbn [orb].
    destruct (Z.ltb_spec n 10); [split; [discriminate | lia]|].
    unfold byte_ok. destruct (Z.leb_spec 0 (48 + (n - 10))); [|lia].
    destruct (Z.ltb_spec (48 + (n - 10)) 256); cbn [andb];
      split; intros; try discriminate; try lia; reflexivity.
  - intros Hn H20. unfold server_pgm_command.
    replace ((n <? 1) || (MAX_PGMS <? n)) with false
      by (symmetry; apply orb_false_iff; split; apply Z.ltb_ge; lia).
    destruct (Z.ltb_spec n 10).
    + rewrite Z.div_small, Z.mod_small by lia. reflexivity.
    + replace (byte_ok (48 + (n - 10))) with true
        by (symmetry; unfold byte_ok; apply andb_true_iff; split; [apply Z.leb_le | apply Z.ltb_lt]; lia).
      rewrite <- (Z.div_unique n 10 1 (n - 10)) by lia.
      rewrite <- (Z.mod_unique n 10 1 (n - 10)) by lia.
      reflexivity.
Qed.

(** Witness for X5: PGM 2 with 3 PGMs in the accept-in role is "PL02". *)
Lemma pgm_commands_witness :
  server_pgm_command 3 CMD_PGM_ON_PREFIX 2 = Some [80; 76; 48; 50].
Proof. exact (proj2 (proj2 (proj2 (pgm_commands 3 CMD_PGM_ON_PREFIX 2))) ltac:(lia) ltac:(lia)). Defined.

(** ** Checksum validation and frame bounds *)

Lemma lxor_cancel_l (x a : Z) : Z.lxor x (Z.lxor x a) = a.
Proof. rewrite <- Z.lxor_assoc, Z.lxor_nilpotent. apply Z.lxor_0_l. Qed.

Lemma fold_xor_snoc (l : bytes) (a acc : Z) :
  fold_left (fun acc b => Z.lxor acc b) (l ++ [a]) acc
  = Z.lxor (fold_left (fun acc b => Z.lxor acc b) l acc) a.
Proof. rewrite fold_left_app. reflexivity. Qed.

(** X6.  [AMTServer._validate_checksum] accepts exactly the frames of at
    least two bytes whose bytes, checksum included, XOR to 0xFF. *)
Theorem validate_checksum_xor (frame : bytes) :
  validate_checksum frame
  = (Nat.leb 2 (List.length frame)
     && Z.eqb (fold_left (fun acc b => Z.lxor acc b) frame 0) 255)%bool.
Proof.
  unfold validate_checksum.
  destruct (Nat.ltb_spec (List.length frame) 2) as [Hl|Hl].
  - replace (Nat.leb 2 (List.length frame)) with false
      by (symmetry; apply Nat.leb_gt; lia). reflexivity.
  - replace (Nat.leb 2 (List.length frame)) with true
      by (symmetry; apply Nat.leb_le; lia). simpl.
    destruct (exists_last (l := frame)) as (l & a & ->);
      [intros ->; simpl in Hl; lia|].
    rewrite removelast_last, last_last, fold_xor_snoc. unfold server_checksum.
    set (x := fold_left (fun acc b => Z.lxor acc b) l 0).
    destruct (Z.eqb_spec a (Z.lxor x 255)) as [->|Hne].
    + rewrite lxor_cancel_l. reflexivity.
    + symmetry. apply Z.eqb_neq. intros He. apply Hne.
      rewrite <- He, lxor_cancel_l. reflexivity.
Qed.

Lemma password_to_bytes_three (password : string) :
  exists a b c, password_to_bytes password = [a; b; c] /\ Forall is_byte [a; b; c].
Proof.
  destruct password as [|c0 [|c1 [|c2 [|c3 [|c4 [|c5 rest]]]]]];
    unfold password_to_bytes, ljust;
    cbn -[nibble Z.shiftl Z.lor]; rewrite ?substring_0_0;
    do 3 eexists; (split; [reflexivity|]);
    repeat constructor; rewrite !nibble_hex_decode; apply pack_is_byte.
Qed.

Lemma encode_ascii_spec (s : string) (bs : bytes) :
  encode_ascii s = Some bs ->
  List.length bs = String.length s /\ Forall (fun b => 0 <= b < 128) bs.
Proof.
  revert bs; induction s as [|c s IH]; intros bs H; simpl in H.
  - injection H as <-. split; [reflexivity | constructor].
  - destruct (Z.ltb_spec (Z.of_nat (nat_of_ascii c)) 128); [|discriminate].
    destruct (encode_ascii s) as [r|]; [|discriminate].
    injection H as <-. destruct (IH r eq_refl) as [Hl Hf].
    split; [simpl; lia | constructor; [lia | exact Hf]].
Qed.

Lemma forall_byte_app (xs ys : bytes) :
  Forall is_byte xs -> Forall is_byte ys -> Forall is_byte (xs ++ ys).
Proof. intros; apply Forall_app; split; assumption. Qed.

(** X7.  [AMTClient._build_frame] raises exactly when the command has more
    than 248 bytes; otherwise the frame has 8 bytes more than the command,
    its first byte counts the bytes after it, all its bytes XOR to 0, and it
    holds only byte values when the command does. *)
Theorem client_build_frame_bounds (self_password : string) (command : bytes)
    (password : option string) :
  (client_build_frame self_password command password = None
   <-> (248 < List.length command)%nat)
  /\ (forall frame, client_build_frame self_password command password = Some frame ->
       List.length frame = (List.length command + 8)%nat
       /\ hd_error frame = Some (Z.of_nat (List.length frame) - 1)
       /\ fold_left (fun acc b => Z.lxor acc b) frame 0 = 0
       /\ (Forall is_byte command -> Forall is_byte frame)).
Proof.
  destruct (password_to_bytes_three (effective_password password self_password))
    as (a & b & c & Hpw & Hbytes).
  unfold client_build_frame. rewrite Hpw. cbv zeta.
  set (i := inner [a; b; c] command).
  assert (Hi : List.length i = (6 + List.length command)%nat)
    by (unfold i; rewrite inner_length; reflexivity).
  rewrite Hi. unfold byte_ok.
  destruct (Nat.leb_spec (List.length command) 248) as [Hc|Hc].
  - replace ((0 <=? Z.of_nat (6 + List.length command) + 1)
             && (Z.of_nat (6 + List.length command) + 1 <? 256))
      with true by (symmetry; apply andb_true_iff; split; [apply Z.leb_le | apply Z.ltb_lt]; lia).
    split; [split; [discriminate | lia]|].
    intros frame Hf.
    assert (Hf' := f_equal (fun o => match o with Some x => x | None => [] end) Hf).
    cbv beta iota in Hf'. subst frame. clear Hf.
    rewrite length_app. cbn [List.length]. rewrite Hi.
    split; [lia|]. split; [cbn [hd_error app]; f_equal; lia|].
    split.
    + rewrite fold_xor_snoc. unfold client_checksum. apply Z.lxor_nilpotent.
    + intros Hcmd.
      assert (Hfw : Forall is_byte (Z.of_nat (6 + List.length command) + 1 :: i)).
      { constructor; [unfold is_byte; lia|].
        unfold i, inner. apply forall_byte_app;
          [repeat constructor; unfold is_byte, FRAME_START, FRAME_SEPARATOR; lia|].
        apply forall_byte_app; [exact Hbytes|].
        apply forall_byte_app; [exact Hcmd|]. repeat constructor; unfold is_byte, FRAME_SEPARATOR; lia. }
      apply forall_byte_app; [exact Hfw|]. constructor; [|constructor].
      apply fold_xor_is_byte; [exact Hfw | unfold is_byte; lia].
  - replace ((0 <=? Z.of_nat (6 + List.length command) + 1)
             && (Z.of_nat (6 + List.length command) + 1 <? 256))
      with false by (symmetry; apply andb_false_iff; right; apply Z.ltb_ge; lia).
    split; [split; [intros _; lia | reflexivity]|]. discriminate.
Qed.

(** Witness for X7 on command "Z" with password "1234". *)
Lemma client_build_frame_bounds_witness :
  client_build_frame "1234" [90] None = Some [8; 233; 33; 18; 52; 255; 90; 33; 98]
  /\ List.length [8; 233; 33; 18; 52; 255; 90; 33; 98] = (List.length [90] + 8)%nat.
Proof.
  split; [vm_compute; reflexivity|].
  exact (proj1 (proj2 (client_build_frame_bounds "1234" [90] None) _ ltac:(vm_compute; reflexivity))).
Defined.

(** X8.  [AMTServer._build_frame] raises exactly when the password is not
    ASCII or the password and command together exceed 252 bytes; otherwise
    the frame has 5 bytes more than them, its first byte counts the bytes
    between it and the checksum, all its bytes XOR to 0xFF, and it holds
    only byte values when the command does. *)
Theorem server_build_frame_bounds (self_password : string) (command : bytes)
    (password : option string) :
  let pwd := effective_password password self_password in
  (server_build_frame self_password command password = None
   <-> (encode_ascii pwd = None
        \/ (252 < String.length pwd + List.length command)%nat))
  /\ (forall frame, server_build_frame self_password command password = Some frame ->
       List.length frame = (String.length pwd + List.length command + 5)%nat
       /\ hd_error frame = Some (Z.of_nat (List.length frame) - 2)
       /\ fold_left (fun acc b => Z.lxor acc b) frame 0 = 255
       /\ (Forall is_byte command -> Forall is_byte frame)).
Proof.
  intros pwd. unfold server_build_frame. fold pwd.
  destruct (encode_ascii pwd) as [pb|] eqn:He.
  2:{ split; [split; [intros _; left; reflexivity | reflexivity] | discriminate]. }
  destruct (encode_ascii_spec pwd pb He) as [Hlen Hpb].
  unfold server_frame_of. cbv zeta.
  set (i := inner pb command).
  assert (Hi : List.length i = (3 + String.length pwd + List.length command)%nat)
    by (unfold i; rewrite inner_length, Hlen; reflexivity).
  rewrite Hi. unfold byte_ok.
  destruct (Nat.leb_spec (String.length pwd + List.length command) 252) as [Hc|Hc].
  - replace ((0 <=? Z.of_nat (3 + String.length pwd + List.length command))
             && (Z.of_nat (3 + String.length pwd + List.length command) <? 256))
      with true by (symmetry; apply andb_true_iff; split; [apply Z.leb_le | apply Z.ltb_lt]; lia).
    split; [split; [discriminate | intros [H|H]; [discriminate | lia]]|].
    intros frame Hf.
    assert (Hf' := f_equal (fun o => match o with Some x => x | None => [] end) Hf).
    cbv beta iota in Hf'. subst frame. clear Hf.
    rewrite length_app. cbn [List.length]. rewrite Hi.
    split; [lia|]. split; [cbn [hd_error app]; f_equal; lia|].
    split.
    + rewrite fold_xor_snoc. unfold server_checksum. apply lxor_cancel_l.
    + intros Hcmd.
      assert (Hfw : Forall is_byte (Z.of_nat (3 + String.length pwd + List.length command) :: i)).
      { constructor; [unfold is_byte; lia|].
        unfold i, inner. apply forall_byte_app;
          [repeat constructor; unfold is_byte, FRAME_START, FRAME_SEPARATOR; lia|].
        apply forall_byte_app.
        - eapply Forall_impl; [|exact Hpb]. unfold is_byte; intros x Hx; lia.
        - apply forall_byte_app; [exact Hcmd|]. repeat constructor; unfold is_byte, FRAME_SEPARATOR; lia. }
      apply forall_byte_app; [exact Hfw|]. constructor; [|constructor].
      unfold server_checksum. apply lxor_is_byte; [|unfold is_byte; lia].
      apply fold_xor_is_byte; [exact Hfw | unfold is_byte; lia].
  - replace ((0 <=? Z.of_nat (3 + String.length pwd + List.length command))
             && (Z.of_nat (3 + String.length pwd + List.length command) <? 256))
      with false by (symmetry; apply andb_false_iff; right; apply Z.ltb_ge; lia).
    split; [split; [intros _; right; lia | reflexivity]|]. discriminate.
Qed.

(** Witness for X8 on command "Z" with password "1234". *)
Lemma server_build_frame_bounds_witness :
  server_build_frame "1234" [90] None = Some [8; 233; 33; 49; 50; 51; 52; 90; 33; 64]
  /\ List.length [8; 233; 33; 49; 50; 51; 52; 90; 33; 64]
     = (String.length (effective_password None "1234") + List.length [90] + 5)%nat.
Proof.
  split; [vm_compute; reflexivity|].
  exact (proj1 (proj2 (server_build_frame_bounds "1234" [90] None) _ ltac:(vm_compute; reflexivity))).
Defined.

(** ** The read loop of the accept-in role *)

Lemma extract_frame_split (buffer : bytes) (o : option bytes) (buffer' : bytes) :
  extract_frame buffer = (o, buffer') ->
  match o with
  | Some f => buffer = f ++ buffer'
              /\ (f = [FRAME_HEARTBEAT]
                  \/ (validate_checksum f = true /\ List.length f = Z.to_nat (nth 0 f 0 + 2)))
  | None => exists dropped, buffer = dropped ++ buffer'
  end.
Proof.
  unfold extract_frame. destruct buffer as [|b0 rest].
  { intros H; injection H as <- <-. exists []. reflexivity. }
  destruct (Z.eqb_spec b0 FRAME_HEARTBEAT) as [->|Hhb].
  { intros H; injection H as <- <-. split; [reflexivity | left; reflexivity]. }
  destruct (Nat.ltb (List.length (b0 :: rest)) 3).
  { intros H; injection H as <- <-. exists []. reflexivity. }
  destruct (Nat.ltb_spec (List.length (b0 :: rest)) (Z.to_nat (b0 + 2))) as [Hlt|Hge].
  { intros H; injection H as <- <-. exists []. reflexivity. }
  remember (Z.to_nat (b0 + 2)) as t eqn:Ht.
  destruct (validate_checksum (firstn t (b0 :: rest))) eqn:Hv; cbn [negb].
  - intros H; injection H as <- <-. split; [symmetry; apply firstn_skipn|].
    right. split; [exact Hv|].
    destruct t as [|t']; [cbn in Hv; discriminate|].
    rewrite length_firstn. cbn [firstn nth]. lia.
  - intros H; injection H as <- <-. exists (firstn t (b0 :: rest)). symmetry; apply firstn_skipn.
Qed.

Lemma process_pass_split (fuel : nat) (buffer : bytes) (frames : list bytes) (rest : bytes) :
  process_pass fuel buffer = (frames, rest) ->
  (exists dropped, buffer = List.concat frames ++ dropped ++ rest)
  /\ Forall (fun f => f = [FRAME_HEARTBEAT]
                     \/ (validate_checksum f = true
                         /\ List.length f = Z.to_nat (nth 0 f 0 + 2))) frames.
Proof.
  revert buffer frames rest; induction fuel as [|fuel IH]; intros buffer frames rest H.
  - cbn in H. injection H as <- <-. split; [exists []; reflexivity | constructor].
  - cbn [process_pass] in H. destruct buffer as [|b bs].
    { injection H as <- <-. split; [exists []; reflexivity | constructor]. }
    destruct (extract_frame (b :: bs)) as [[f|] buf'] eqn:He.
    + destruct (process_pass fuel buf') as [fs r] eqn:Hp.
      injection H as <- <-.
      pose proof (extract_frame_split _ _ _ He) as [Hsplit Hf].
      destruct (IH _ _ _ Hp) as [[d Hd] Hfs].
      split; [|constructor; assumption].
      exists d. rewrite Hsplit, Hd. cbn [List.concat]. rewrite <- app_assoc. reflexivity.
    + injection H as <- <-.
      destruct (extract_frame_split _ _ _ He) as [d Hd].
      split; [exists d; exact Hd | constructor].
Qed.

(** X9.  One pass of the read loop of [AMTServer._handle_client] only
    splits the buffer: the buffer is the frames handed to [_process_frame],
    in order, then at most one discarded chunk, then the bytes kept for the
    next read; and every frame handed on is a heartbeat or a frame whose
    checksum validates and whose length is its first byte plus 2. *)
Theorem handle_data_frames (buffer : bytes) (frames : list bytes) (rest : bytes) :
  handle_data buffer = (frames, rest) ->
  (exists dropped, buffer = List.concat frames ++ dropped ++ rest)
  /\ Forall (fun f => f = [FRAME_HEARTBEAT]
                     \/ (validate_checksum f = true
                         /\ List.length f = Z.to_nat (nth 0 f 0 + 2))) frames.
Proof. unfold handle_data. apply process_pass_split. Qed.

(** Witness for X9: a heartbeat, a corrupted frame and a short tail. *)
Lemma handle_data_frames_witness :
  handle_data [247; 3; 233; 33; 33; 0; 5] = ([[247]], [5])
  /\ exists dropped, [247; 3; 233; 33; 33; 0; 5] = List.concat [[247]] ++ dropped ++ [5].
Proof.
  split; [vm_compute; reflexivity|].
  exact (proj1 (handle_data_frames [247; 3; 233; 33; 33; 0; 5] [[247]] [5]
                  ltac:(vm_compute; reflexivity))).
Defined.

Lemma server_build_frame_shape (self_password : string) (command : bytes)
    (password : option string) (frame : bytes) :
  server_build_frame self_password command password = Some frame ->
  exists i, (3 <= List.length i)%nat
            /\ frame = Z.of_nat (List.length i) :: i
                         ++ [server_checksum (Z.of_nat (List.length i) :: i)].
Proof.
  unfold server_build_frame. destruct (encode_ascii _) as [pb|]; [|discriminate].
  unfold server_frame_of. cbv zeta. destruct (byte_ok _); [|discriminate].
  intros H. assert (H' := f_equal (fun o => match o with Some x => x | None => [] end) H).
  cbv beta iota in H'. subst frame.
  exists (inner pb command). split; [rewrite inner_length; lia | reflexivity].
Qed.

Lemma process_pass_concat (frames : list bytes) (fuel : nat) :
  Forall (fun f => f = [FRAME_HEARTBEAT]
                   \/ ((exists self_password command password,
                           server_build_frame self_password command password = Some f)
                       /\ hd_error f <> Some FRAME_HEARTBEAT)) frames ->
  (List.length frames <= fuel)%nat ->
  process_pass fuel (List.concat frames) = (frames, []).
Proof.
  revert fuel; induction frames as [|f fs IH]; intros fuel Hall Hlen.
  - destruct fuel; reflexivity.
  - inversion Hall as [|f' fs' Hf Hfs]; subst.
    destruct fuel as [|fuel]; [cbn in Hlen; lia|].
    assert (He : extract_frame (f ++ List.concat fs) = (Some f, List.concat fs)
                 /\ f <> []).
    { destruct Hf as [->|[(sp & cmd & pw & Hb) Hhd]].
      - split; [reflexivity | discriminate].
      - destruct (server_build_frame_shape _ _ _ _ Hb) as (i & Hi & ->).
        split; [|discriminate].
        apply extract_server_shaped; [exact Hi | | reflexivity].
        intros Heq. apply Hhd. rewrite Heq. reflexivity. }
    destruct He as [He Hne].
    cbn [List.concat process_pass].
    destruct f as [|b bs]; [contradiction|].
    cbn [app]. cbn [app] in He. rewrite He.
    rewrite (IH fuel Hfs) by (cbn in Hlen; lia). reflexivity.
Qed.

Lemma concat_length_ge (frames : list bytes) :
  Forall (fun f => f <> []) frames -> (List.length frames <= List.length (List.concat frames))%nat.
Proof.
  induction frames as [|f fs IH]; intros H; [cbn; lia|].
  inversion H; subst. cbn [List.concat List.length]. rewrite length_app.
  destruct f; [contradiction|]. cbn [List.length]. specialize (IH H3). lia.
Qed.

(** X10.  The read loop of [AMTServer._handle_client], given in one read
    the concatenation of heartbeats and frames built by
    [AMTServer._build_frame] (whose length byte is not 0xF7), hands exactly
    those frames to [_process_frame], in order, and keeps no bytes. *)
Theorem handle_data_concat (frames : list bytes) :
  Forall (fun f => f = [FRAME_HEARTBEAT]
                   \/ ((exists self_password command password,
                           server_build_frame self_password command password = Some f)
                       /\ hd_error f <> Some FRAME_HEARTBEAT)) frames ->
  handle_data (List.concat frames) = (frames, []).
Proof.
  intros Hall. unfold handle_data. apply process_pass_concat; [exact Hall|].
  apply concat_length_ge. eapply Forall_impl; [|exact Hall].
  intros f [->|[(sp & cmd & pw & Hb) _]]; [discriminate|].
  destruct (server_build_frame_shape _ _ _ _ Hb) as (i & _ & ->). discriminate.
Qed.

(** Witness for X10: a status command frame between two heartbeats. *)
Lemma handle_data_concat_witness :
  handle_data (List.concat [[247]; [8; 233; 33; 49; 50; 51; 52; 90; 33; 64]; [247]])
  = ([[247]; [8; 233; 33; 49; 50; 51; 52; 90; 33; 64]; [247]], []).
Proof.
  apply handle_data_concat.
  apply Forall_cons; [left; reflexivity|].
  apply Forall_cons;
    [right; split; [exists "1234"%string, [90], None; vm_compute; reflexivity | discriminate]|].
  apply Forall_cons; [left; reflexivity | apply Forall_nil].
Defined.

(** ** Frame handling of the accept-in role *)

Lemma ack_frame_bytes : ServerModel.ack_frame = [1; 254; 0].
Proof. vm_compute. reflexivity. Qed.

Lemma send_ack_shape (st : ServerModel.sstate) (c : nat) :
  ServerModel.writes (ServerModel.send_ack st c) = ServerModel.writes st ++ [(c, [1; 254; 0])]
  /\ ServerModel.cmds (ServerModel.send_ack st c) = ServerModel.cmds st.
Proof.
  unfold ServerModel.send_ack. rewrite ack_frame_bytes.
  destruct (ServerModel.is_open _); [split; reflexivity|].
  unfold ServerModel.handler_exit.
  destruct (ServerModel.current _) as [x|]; [destruct (Nat.eqb x c)|]; split; reflexivity.
Qed.

(** X12.  [_process_frame] runs for a connection in its read loop, also
    one already closed by a newer handler; it writes at most the ACK frame,
    on the frame's own connection, and resolves at most one command: the
    one whose future is the [pending_response] of that connection, if it
    is still waiting, with the frame itself. *)
Theorem frame_resolves_pending (self_password : string) (NACK_MESSAGES : Z -> option string)
    (st st' : ServerModel.sstate) (c : nat) (frame : bytes) :
  ServerModel.step self_password NACK_MESSAGES st (ServerModel.EFrame c frame) = Some st' ->
  ServerModel.handlers st c = ServerModel.HLoop
  /\ (ServerModel.writes st' = ServerModel.writes st
      \/ ServerModel.writes st' = ServerModel.writes st ++ [(c, [1; 254; 0])])
  /\ (ServerModel.cmds st' = ServerModel.cmds st
      \/ exists t lk x,
           ServerModel.pending_response (ServerModel.conns st c) = Some t
           /\ ServerModel.cmds st t = ServerModel.SAwait lk x
           /\ ServerModel.cmds st' = ServerModel.upd (ServerModel.cmds st) t
                                       (ServerModel.SResolved lk (ServerModel.Got frame))).
Proof.
  cbn [ServerModel.step].
  destruct (ServerModel.handlers st c) eqn:Hh; try discriminate.
  destruct (_ && _)%bool.
  { intros H; injection H as <-. destruct (send_ack_shape st c) as [Hw Hc].
    split; [reflexivity|]. split; [right; exact Hw | left; exact Hc]. }
  destruct (Nat.ltb (List.length frame) 3).
  { intros H; injection H as <-. repeat split; left; reflexivity. }
  destruct (Z.eqb (nth 1 frame 0) 148).
  { intros H; injection H as <-. destruct (send_ack_shape st c) as [Hw Hc].
    split; [reflexivity|]. split; [right; exact Hw | left; exact Hc]. }
  destruct (ServerModel.pending_response (ServerModel.conns st c)) as [f|] eqn:Hp.
  2:{ intros H; injection H as <-. repeat split; left; reflexivity. }
  destruct (ServerModel.cmds st f) eqn:Hc;
    try (intros H; injection H as <-; repeat split; left; reflexivity).
  intros H; injection H as <-. repeat split; [left; reflexivity|].
  right. exists f, lk, x. repeat split; assumption.
Qed.

(** A second panel connects and its handler closes connection 0, on
    which command task 1 waits for its response. *)
Definition replaced_state : ServerModel.sstate :=
  after_event (after_event (after_event after_send_state ServerModel.EAccept)
                 (ServerModel.ERunHandler 1)) (ServerModel.ERunHandler 1).

(** Witness for X12: the status response still buffered on connection 0,
    closed by the handler of connection 1, resolves command task 1. *)
Lemma frame_resolves_pending_witness :
  ServerModel.is_open (ServerModel.conns replaced_state 0) = false
  /\ ServerModel.cmds (after_frame replaced_state 0 [3; 233; 1; 2; 22]) 1%nat
     = ServerModel.SResolved 0 (ServerModel.Got [3; 233; 1; 2; 22])
  /\ ServerModel.handlers replaced_state 0 = ServerModel.HLoop.
Proof.
  split; [vm_compute; reflexivity|]. split; [vm_compute; reflexivity|].
  exact (proj1 (frame_resolves_pending "1234" (fun _ => None) replaced_state
                  (after_frame replaced_state 0 [3; 233; 1; 2; 22]) 0 [3; 233; 1; 2; 22]
                  ltac:(vm_compute; reflexivity))).
Defined.

(** ** Frames written by the dial-out role *)
Module ClientWrites.
Import ClientModel.

Lemma upd_same {A} (f : nat -> A) k v : upd f k v k = v.
Proof. unfold upd. now rewrite Nat.eqb_refl. Qed.

Lemma write_frame_writes pw st t command password :
  cwrites (write_frame pw st t command password) <> cwrites st ->
  exists frame, client_build_frame pw command password = Some frame
    /\ cwrites (write_frame pw st t command password) = cwrites st ++ [frame]
    /\ connected (write_frame pw st t command password) = connected st
    /\ tasks (write_frame pw st t command password) t = KAwaitHeader.
Proof.
  unfold write_frame. destruct (client_build_frame pw command password) as [frame|].
  - intros _. exists frame. cbn. rewrite upd_same. repeat split.
  - cbn. intros H; exfalso; apply H; reflexivity.
Qed.

Lemma body_writes pw st t command password :
  cwrites (body pw st t command password) <> cwrites st ->
  exists frame, client_build_frame pw command password = Some frame
    /\ cwrites (body pw st t command password) = cwrites st ++ [frame]
    /\ connected (body pw st t command password) = true
    /\ tasks (body pw st t command password) t = KAwaitHeader.
Proof.
  unfold body. destruct (connected st) eqn:Hc.
  - intros H. destruct (write_frame_writes pw st t command password H)
      as (frame & Hb & Hw & Hcn & Ht).
    exists frame. repeat split; congruence.
  - cbn. intros H; exfalso; apply H; reflexivity.
Qed.

(** X14.  In the dial-out role, a step that writes on the socket writes
    exactly one frame, the one [AMTClient._build_frame] builds from the
    command and password of the task that holds the lock; the client is
    connected at that moment (connecting first when it was not), and the
    task then waits for the response header. *)
Theorem kstep_write_shape (pw : string) (st st' : cstate) (e : kevent) :
  kstep pw st e = Some st' -> cwrites st' <> cwrites st ->
  exists t command password frame,
    client_build_frame pw command password = Some frame
    /\ cwrites st' = cwrites st ++ [frame]
    /\ connected st' = true
    /\ tasks st' t = KAwaitHeader
    /\ (tasks st t = KStart command password
        \/ tasks st t = KWaitLock command password
        \/ tasks st t = KConnecting command password).
Proof.
  intros Hs Hw.
  destruct e as [t command password|t|t ok|t header|t data|t]; cbn [kstep] in Hs.
  - destruct (tasks st t); try discriminate. injection Hs as <-. now exfalso.
  - destruct (tasks st t) as [|command password|command password| | | | |] eqn:Ht; try discriminate.
    + destruct (negb (locked st) && match waiters st with [] => true | _ => false end).
      * injection Hs as <-.
        destruct (body_writes pw (mk true [] (tasks st) (connected st) (cwrites st)) t command password Hw)
          as (frame & Hb & Hw' & Hc & Ht').
        exists t, command, password, frame. repeat split; try assumption. left; exact Ht.
      * injection Hs as <-. now exfalso.
    + destruct (waiters st) as [|w ws]; [discriminate|].
      destruct (negb (locked st) && Nat.eqb w t); [|discriminate].
      injection Hs as <-.
      destruct (body_writes pw (mk true ws (tasks st) (connected st) (cwrites st)) t command password Hw)
        as (frame & Hb & Hw' & Hc & Ht').
      exists t, command, password, frame. repeat split; try assumption. right; left; exact Ht.
  - destruct (tasks st t) as [| | |command password| | | |] eqn:Ht; try discriminate.
    destruct ok.
    + injection Hs as <-.
      destruct (write_frame_writes pw (mk (locked st) (waiters st) (tasks st) true (cwrites st))
                  t command password Hw) as (frame & Hb & Hw' & Hc & Ht').
      exists t, command, password, frame. repeat split; try assumption. right; right; exact Ht.
    + injection Hs as <-. now exfalso.
  - destruct (tasks st t); try discriminate.
    destruct header; injection Hs as <-; now exfalso.
  - destruct (tasks st t); try discriminate. injection Hs as <-. now exfalso.
  - destruct (tasks st t); try discriminate; injection Hs as <-; now exfalso.
Qed.

(** Witness for X14: the status command "Z" written after connecting. *)
Lemma kstep_write_shape_witness :
  let st := match krun "1234" kinit [KSend 1 [90] None; KRun 1] with
            | Some s => s | None => kinit end in
  let st' := match kstep "1234" st (KConnectDone 1 true) with
             | Some s => s | None => kinit end in
  exists t command password frame,
    client_build_frame "1234" command password = Some frame
    /\ cwrites st' = cwrites st ++ [frame]
    /\ connected st' = true
    /\ tasks st' t = KAwaitHeader
    /\ (tasks st t = KStart command password
        \/ tasks st t = KWaitLock command password
        \/ tasks st t = KConnecting command password).
Proof.
  intros st st'.
  exact (kstep_write_shape "1234" st st' (KConnectDone 1 true)
           ltac:(vm_compute; reflexivity) ltac:(vm_compute; discriminate)).
Defined.

(** Witness for X15: a command connects, writes its frame and waits. *)
Lemma client_single_flight_witness :
  let st := match krun "1234" kinit [KSend 1 [90] None; KRun 1; KConnectDone 1 true;
                                     KSend 2 [90] None; KRun 2] with
            | Some s => s | None => kinit end in
  negb (k_in_flight st 1 && k_in_flight st 2) = true.
Proof.
  intros st.
  pose proof (proj1 (ClientSingleFlight.client_single_flight "1234"
                  [KSend 1 [90] None; KRun 1; KConnectDone 1 true; KSend 2 [90] None; KRun 2]
                  st ltac:(vm_compute; reflexivity))) as Hu.
  destruct (k_in_flight st 1) eqn:E1, (k_in_flight st 2) eqn:E2; try reflexivity.
  exfalso. pose proof (Hu 1%nat 2%nat E1 E2) as E. discriminate E.
Defined.
End ClientWrites.

(** ** Hexadecimal strings of raw commands *)

Lemma byte_hex_digits (b : Z) :
  is_byte b ->
  is_space (hex_lower (Z.shiftr b 4)) = false
  /\ Ascii.eqb (hex_lower (Z.shiftr b 4)) " "%char = false
  /\ Ascii.eqb (hex_lower (Z.land b 15)) " "%char = false
  /\ exists top bot, hex_value (hex_lower (Z.shiftr b 4)) = Some top
       /\ hex_value (hex_lower (Z.land b 15)) = Some bot
       /\ top * 16 + bot = b.
Proof.
  intros Hb.
  assert (Hall : forallb (fun n =>
            let b := Z.of_nat n in
            let c1 := hex_lower (Z.shiftr b 4) in
            let c2 := hex_lower (Z.land b 15) in
            negb (is_space c1) && negb (Ascii.eqb c1 " "%char) && negb (Ascii.eqb c2 " "%char)
            && match hex_value c1, hex_value c2 with
               | Some t, Some u => Z.eqb (t * 16 + u) b
               | _, _ => false
               end) (seq 0 256) = true) by (vm_compute; reflexivity).
  rewrite forallb_forall in Hall.
  specialize (Hall (Z.to_nat b) ltac:(apply in_seq; unfold is_byte in Hb; lia)).
  rewrite Z2Nat.id in Hall by (unfold is_byte in Hb; lia).
  cbv zeta in Hall.
  apply andb_true_iff in Hall as [Hall Hv].
  apply andb_true_iff in Hall as [Hall H3].
  apply andb_true_iff in Hall as [H1 H2].
  apply negb_true_iff in H1, H2, H3.
  split; [exact H1|]. split; [exact H2|]. split; [exact H3|].
  destruct (hex_value (hex_lower (Z.shiftr b 4))) as [t|]; [|discriminate].
  destruct (hex_value (hex_lower (Z.land b 15))) as [u|]; [|discriminate].
  exists t, u. split; [reflexivity|]. split; [reflexivity|]. apply Z.eqb_eq, Hv.
Qed.

Lemma hex_remove_spaces (bs : bytes) : Forall is_byte bs -> remove_spaces (hex bs) = hex bs.
Proof.
  induction bs as [|b bs IH]; intros H; [reflexivity|].
  inversion H as [|b' bs' Hb Hbs]; subst.
  destruct (byte_hex_digits b Hb) as (_ & H1 & H2 & _).
  cbn [hex remove_spaces]. rewrite H1, H2, (IH Hbs). reflexivity.
Qed.

Lemma hex_fromhex (bs : bytes) : Forall is_byte bs -> fromhex (hex bs) = Some bs.
Proof.
  unfold fromhex.
  induction bs as [|b bs IH]; intros H; [reflexivity|].
  inversion H as [|b' bs' Hb Hbs]; subst.
  destruct (byte_hex_digits b Hb) as (Hs & _ & _ & t & u & Ht & Hu & Htu).
  cbn [hex list_ascii_of_string fromhex_chars]. rewrite Hs, Ht, Hu, (IH Hbs), Htu.
  reflexivity.
Qed.

Lemma hex_length (bs : bytes) : String.length (hex bs) = (2 * List.length bs)%nat.
Proof. induction bs as [|b bs IH]; cbn [hex String.length List.length]; lia. Qed.

(** X16.  [bytes.hex()] and [bytes.fromhex] are inverse on bytes: the
    [response_hex] of a raw command decodes back to the response, has two
    characters per byte and no space; and [send_raw_command] given the hex
    string of some bytes sends exactly those bytes and reports the outcome:
    the response as [response_hex] and [response_length], a NACK with its
    message and code, any other [AMTServerError] as a failure, while an
    exception of another class raised by [_send_command] propagates. *)
Theorem raw_hex_roundtrip (bs : bytes)
    (send : bytes -> option string -> option (result bytes)) (password : option string) :
  Forall is_byte bs ->
  fromhex (hex bs) = Some bs
  /\ remove_spaces (hex bs) = hex bs
  /\ String.length (hex bs) = (2 * List.length bs)%nat
  /\ send_raw_command send (hex bs) password
     = Some (match send bs password with
             | None => None
             | Some (Ok response) => Some (RawSuccess (hex response) (List.length response))
             | Some (Err (NackError code message)) => Some (RawNack message code)
             | Some (Err e) => Some (RawFailure e)
             end).
Proof.
  intros Hb.
  split; [exact (hex_fromhex bs Hb)|].
  split; [exact (hex_remove_spaces bs Hb)|].
  split; [exact (hex_length bs)|].
  unfold send_raw_command. rewrite (hex_remove_spaces bs Hb), (hex_fromhex bs Hb).
  reflexivity.
Qed.

(** Witness for X16 on the partition A stay command [41 35]. *)
Lemma raw_hex_roundtrip_witness :
  hex [65; 53] = "4135"%string
  /\ fromhex (hex [65; 53]) = Some [65; 53].
Proof.
  split; [vm_compute; reflexivity|].
  exact (proj1 (raw_hex_roundtrip [65; 53] (fun _ _ => Some (Ok [])) None
                  ltac:(repeat constructor; unfold is_byte; lia))).
Defined.

Lemma hex_digit_not_space (c : ascii) :
  hex_value c <> None -> is_space c = false /\ Ascii.eqb c " "%char = false.
Proof.
  destruct c as [b0 b1 b2 b3 b4 b5 b6 b7].
  destruct b0, b1, b2, b3, b4, b5, b6, b7; vm_compute; intros H;
    try (split; reflexivity); exfalso; apply H; reflexivity.
Qed.

Lemma remove_spaces_digits (s : string) :
  Forall (fun c => hex_value c <> None) (list_ascii_of_string s) -> remove_spaces s = s.
Proof.
  induction s as [|c s IH]; intros H; [reflexivity|].
  inversion H as [|c' l' Hc Hs]; subst.
  cbn [remove_spaces]. rewrite (proj2 (hex_digit_not_space c Hc)), (IH Hs). reflexivity.
Qed.

Lemma list_ascii_length (s : string) : List.length (list_ascii_of_string s) = String.length s.
Proof. induction s as [|c s IH]; cbn; [reflexivity | now rewrite IH]. Qed.

Lemma fromhex_chars_digits (n : nat) (l : list ascii) :
  (List.length l <= n)%nat ->
  Forall (fun c => hex_value c <> None) l ->
  (fromhex_chars l = None <-> Nat.odd (List.length l) = true)
  /\ (forall bs, fromhex_chars l = Some bs -> (2 * List.length bs = List.length l)%nat).
Proof.
  revert l; induction n as [|n IH]; intros l Hn Hl.
  - destruct l; [|cbn in Hn; lia].
    cbn. split; [split; discriminate|]. intros bs H; injection H as <-; reflexivity.
  - destruct l as [|c l].
    { cbn. split; [split; discriminate|]. intros bs H; injection H as <-; reflexivity. }
    inversion Hl as [|c' l' Hc Hl']; subst.
    cbn [fromhex_chars]. rewrite (proj1 (hex_digit_not_space c Hc)).
    destruct (hex_value c) as [t|]; [|contradiction].
    destruct l as [|d l].
    { cbn. split; [split; reflexivity|]. discriminate. }
    inversion Hl' as [|d' l'' Hd Hl'']; subst.
    destruct (hex_value d) as [u|]; [|contradiction].
    assert (Hlen : (List.length l <= n)%nat) by (cbn in Hn; lia).
    destruct (IH l Hlen Hl'') as [Hnone Hsome].
    replace (Nat.odd (List.length (c :: d :: l))) with (Nat.odd (List.length l))
      by (cbn [List.length]; rewrite Nat.odd_succ, Nat.even_succ; reflexivity).
    destruct (fromhex_chars l) as [r|] eqn:Hr.
    + split; [split; [discriminate | intros Ho; apply Hnone in Ho; discriminate]|].
      intros bs H; injection H as <-. specialize (Hsome r eq_refl). cbn [List.length]. lia.
    + split; [split; [intros _; apply Hnone; reflexivity | reflexivity]|]. discriminate.
Qed.

(** X17.  On a hex string of digits only (either case, no spaces),
    [send_raw_command] raises the [ValueError] of [bytes.fromhex] exactly
    when the string has an odd number of digits, whatever the connection
    does; otherwise the command has one byte per two digits. *)
Theorem raw_command_digits (command_hex : string) :
  Forall (fun c => hex_value c <> None) (list_ascii_of_string command_hex) ->
  (forall send password,
     send_raw_command send command_hex password = None
     <-> Nat.odd (String.length command_hex) = true)
  /\ (forall command_bytes, fromhex (remove_spaces command_hex) = Some command_bytes ->
       (2 * List.length command_bytes = String.length command_hex)%nat).
Proof.
  intros Hd. rewrite (remove_spaces_digits command_hex Hd). unfold fromhex.
  destruct (fromhex_chars_digits _ (list_ascii_of_string command_hex) (le_n _) Hd)
    as [Hnone Hsome].
  rewrite list_ascii_length in Hnone, Hsome.
  split; [|exact Hsome].
  intros send password. unfold send_raw_command.
  rewrite (remove_spaces_digits command_hex Hd). unfold fromhex.
  rewrite <- Hnone. destruct (fromhex_chars _); split; congruence.
Qed.

(** Witness for X17: the three digits "413" raise. *)
Lemma raw_command_digits_witness :
  send_raw_command (fun _ _ => Some (Ok [])) "413" None = None.
Proof.
  apply (proj1 (raw_command_digits "413"
                  ltac:(repeat constructor; vm_compute; discriminate)) (fun _ _ => Some (Ok [])) None).
  reflexivity.
Defined.

(** ** Panel identification *)

Lemma forall_slice (P : Z -> Prop) (l : bytes) (i j : nat) :
  Forall P l -> Forall P (slice l i j).
Proof.
  unfold slice. intros H.
  assert (Hs : Forall P (skipn i l)).
  { revert l H; induction i as [|i IH]; intros l H; [exact H|].
    destruct l as [|x l]; [constructor|]. inversion H; subst. cbn. apply IH; assumption. }
  generalize (j - i)%nat. clear H. revert Hs. generalize (skipn i l). clear l.
  intros l Hl n. revert l Hl; induction n as [|n IH]; intros l Hl; [constructor|].
  destruct l as [|x l]; [constructor|]. inversion Hl; subst. cbn. constructor; [assumption|].
  apply IH; assumption.
Qed.

Lemma frame_content_length (frame : bytes) :
  (3 < List.length frame)%nat -> List.length (frame_content frame) = (List.length frame - 3)%nat.
Proof.
  intros H. unfold frame_content, slice.
  replace (Nat.ltb 3 (List.length frame)) with true by (symmetry; apply Nat.ltb_lt; lia).
  rewrite length_firstn, length_skipn. lia.
Qed.

(** X18.  [_process_frame] and [_handle_connection_info] on a
    connection-info frame: a frame of fewer than 7 bytes changes nothing; a
    longer one sets [account] to its bytes 2 to 5 read as ASCII (U+FFFD for a
    byte above 0x7F); [mac_suffix] changes only from 13 bytes on, and is then
    the 12-digit hex string of bytes 6 to 11. *)
Theorem connection_info_fields (ci : conn_info) (frame : bytes) :
  let ci' := handle_connection_info ci (frame_content frame) in
  ((List.length frame < 7)%nat -> ci' = ci)
  /\ ((7 <= List.length frame)%nat ->
      account ci' = Some (decode_ascii_replace (slice frame 2 6))
      /\ (Forall is_byte frame ->
          Forall (fun x => 0 <= x < 128 \/ x = 65533) (decode_ascii_replace (slice frame 2 6))))
  /\ ((7 <= List.length frame < 13)%nat -> mac_suffix ci' = mac_suffix ci)
  /\ ((13 <= List.length frame)%nat -> Forall is_byte frame ->
      exists m, mac_suffix ci' = Some m
        /\ String.length m = 12%nat
        /\ fromhex m = Some (slice frame 6 12)).
Proof.
  intros ci'.
  assert (Hcont : (3 < List.length frame)%nat -> frame_content frame = slice frame 2 (List.length frame - 1))
    by (intros H; unfold frame_content; replace (Nat.ltb 3 (List.length frame)) with true
          by (symmetry; apply Nat.ltb_lt; lia); reflexivity).
  split.
  { intros H. unfold ci', handle_connection_info.
    assert (Hl : (List.length (frame_content frame) < 4)%nat).
    { destruct (Nat.ltb_spec 3 (List.length frame)).
      - rewrite frame_content_length by lia. lia.
      - unfold frame_content. replace (Nat.ltb 3 (List.length frame)) with false
          by (symmetry; apply Nat.ltb_ge; lia). cbn. lia. }
    replace (Nat.leb 4 (List.length (frame_content frame))) with false
      by (symmetry; apply Nat.leb_gt; lia).
    replace (Nat.leb 10 (List.length (frame_content frame))) with false
      by (symmetry; apply Nat.leb_gt; lia).
    destruct ci; reflexivity. }
  split.
  { intros H. unfold ci', handle_connection_info.
    pose proof (frame_content_length frame ltac:(lia)) as Hl.
    replace (Nat.leb 4 (List.length (frame_content frame))) with true
      by (symmetry; apply Nat.leb_le; lia).
    assert (Hf4 : firstn 4 (frame_content frame) = slice frame 2 6).
    { rewrite Hcont by lia. unfold slice. rewrite firstn_firstn. f_equal. lia. }
    split.
    - destruct (Nat.leb 10 (List.length (frame_content frame))); cbn [account]; rewrite Hf4; reflexivity.
    - intros Hb. apply Forall_forall. intros x Hx. unfold decode_ascii_replace in Hx.
      apply in_map_iff in Hx as (b & <- & Hin).
      assert (Hbb : is_byte b) by (exact (proj1 (Forall_forall _ _) (forall_slice _ _ 2 6 Hb) b Hin)).
      destruct (Z.ltb_spec b 128); [|right; reflexivity].
      left. unfold is_byte in Hbb. lia. }
  split.
  { intros H. unfold ci', handle_connection_info.
    pose proof (frame_content_length frame ltac:(lia)) as Hl.
    replace (Nat.leb 4 (List.length (frame_content frame))) with true
      by (symmetry; apply Nat.leb_le; lia).
    replace (Nat.leb 10 (List.length (frame_content frame))) with false
      by (symmetry; apply Nat.leb_gt; lia).
    reflexivity. }
  intros H Hb. unfold ci', handle_connection_info.
  pose proof (frame_content_length frame ltac:(lia)) as Hl.
  replace (Nat.leb 10 (List.length (frame_content frame))) with true
    by (symmetry; apply Nat.leb_le; lia).
  assert (Hm : slice (frame_content frame) 4 10 = slice frame 6 12).
  { rewrite Hcont by lia. unfold slice.
    rewrite skipn_firstn_comm, skipn_skipn, firstn_firstn. f_equal. lia. }
  exists (hex (slice (frame_content frame) 4 10)). cbn [mac_suffix]. split; [reflexivity|].
  rewrite Hm.
  assert (Hsb : Forall is_byte (slice frame 6 12)) by (apply forall_slice, Hb).
  split; [|apply hex_fromhex, Hsb].
  rewrite hex_length. unfold slice. rewrite length_firstn, length_skipn. lia.
Qed.

(** Witness for X18 on a 13-byte frame: account "1234", MAC 0a..0f. *)
Lemma connection_info_fields_witness :
  exists m, mac_suffix (handle_connection_info {| account := None; mac_suffix := None |}
                          (frame_content [11; 148; 49; 50; 51; 52; 10; 11; 12; 13; 14; 15; 0]))
            = Some m
    /\ String.length m = 12%nat /\ fromhex m = Some [10; 11; 12; 13; 14; 15].
Proof.
  exact (proj2 (proj2 (proj2 (connection_info_fields {| account := None; mac_suffix := None |}
                                [11; 148; 49; 50; 51; 52; 10; 11; 12; 13; 14; 15; 0])))
            ltac:(cbn; lia) ltac:(repeat constructor; unfold is_byte; lia)).
Defined.

(** ** Status polling *)

Lemma server_parse_ok (mp mt ms ml : nat) (data : bytes) :
  (exists s, server_parse_response mp mt ms ml data = Ok s) <-> (10 <= List.length data)%nat.
Proof.
  unfold server_parse_response.
  destruct (Nat.ltb_spec (List.length data) 10).
  - split; [intros [s Hs]; discriminate | lia].
  - split; [intros _; lia | eexists; reflexivity].
Qed.

(** X19.  [AMTServer.get_status] stores a status in [_last_status] only
    when the panel answered with at least 10 bytes, and then the status it
    returns; an error from [_send_command] or a short response leaves
    [_last_status] as it was; [test_connection] is [True] exactly when the
    panel answered with at least 10 bytes. *)
Theorem server_poll (MAX_PGMS MAX_ZONES_TAMPER MAX_ZONES_SHORT_CIRCUIT MAX_ZONES_LOW_BATTERY : nat)
    (last_status : option server_status) (response : result bytes) :
  let r := server_get_status MAX_PGMS MAX_ZONES_TAMPER MAX_ZONES_SHORT_CIRCUIT
             MAX_ZONES_LOW_BATTERY last_status response in
  (forall e, fst r = Err e -> snd r = last_status)
  /\ (forall s, fst r = Ok s -> snd r = Some s)
  /\ (snd r <> last_status -> exists data, response = Ok data /\ (10 <= List.length data)%nat)
  /\ (server_test_connection MAX_PGMS MAX_ZONES_TAMPER MAX_ZONES_SHORT_CIRCUIT
        MAX_ZONES_LOW_BATTERY last_status response = true
      <-> exists data, response = Ok data /\ (10 <= List.length data)%nat).
Proof.
  intros r. unfold server_test_connection. fold r. unfold r, server_get_status.
  destruct response as [data|e].
  2:{ cbn. split; [reflexivity|]. split; [discriminate|].
      split; [intros H; exfalso; apply H; reflexivity|].
      split; [discriminate | intros (d & H & _); discriminate]. }
  pose proof (server_parse_ok MAX_PGMS MAX_ZONES_TAMPER MAX_ZONES_SHORT_CIRCUIT
                MAX_ZONES_LOW_BATTERY data) as Hok.
  destruct (server_parse_response _ _ _ _ data) as [s|e] eqn:Hp; cbn [fst snd].
  - assert (Hl : (10 <= List.length data)%nat) by (apply Hok; exists s; reflexivity).
    split; [discriminate|]. split; [intros s' H; injection H as <-; reflexivity|].
    split; [intros _; exists data; split; [reflexivity | exact Hl]|].
    split; [intros _; exists data; split; [reflexivity | exact Hl] | reflexivity].
  - assert (Hl : ~ (10 <= List.length data)%nat) by (intros Hl; apply Hok in Hl as [s' Hs']; discriminate).
    split; [reflexivity|]. split; [discriminate|].
    split; [intros H; exfalso; apply H; reflexivity|].
    split; [discriminate | intros (d & Hd & Hl'); injection Hd as <-; contradiction].
Qed.

(** Witness for X19: a 9-byte answer keeps the last status. *)
Lemma server_poll_witness :
  snd (server_get_status 3 0 0 0 None (Ok (List.repeat 0 9))) = None.
Proof.
  exact (proj1 (server_poll 3 0 0 0 None (Ok (List.repeat 0 9))) (ProtocolError 9) eq_refl).
Defined.

(** X20.  In the dial-out role, the status poll of
    [AMTClient.test_connection] succeeds exactly when the panel's length
    byte is at least 47 and [reader.read(length)] returned at least 47
    bytes: [read] returns only the bytes received so far, so a response
    whose tail has not yet arrived fails the test. *)
Theorem client_poll (pw : string) (st st' : ClientModel.cstate) (t : nat) (h : Z) (data : bytes) :
  ClientModel.tasks st t = ClientModel.KAwaitBody h ->
  ClientModel.kstep pw st (ClientModel.KBody t data) = Some st' ->
  exists r, ClientModel.tasks st' t = ClientModel.KDone r
    /\ (client_test_connection r = true
        <-> (47 <= Z.to_nat h)%nat /\ (47 <= List.length data)%nat).
Proof.
  intros Ht Hs. cbn [ClientModel.kstep] in Hs. rewrite Ht in Hs.
  injection Hs as <-. eexists. split.
  - unfold ClientModel.finish, ClientModel.mk, ClientModel.upd; cbn.
    rewrite Nat.eqb_refl. reflexivity.
  - unfold client_test_connection, client_get_status, client_parse_response.
    rewrite length_firstn.
    destruct (Nat.ltb_spec (Nat.min (Z.to_nat h) (List.length data)) 47).
    + split; [discriminate | lia].
    + split; [intros _; lia | reflexivity].
Qed.

(** A dial-out task that has read the length byte 47 and waits in
    [read(47)]. *)
Definition awaiting_body : ClientModel.cstate :=
  ClientModel.mk true [] (ClientModel.upd (fun _ => ClientModel.KNone) 1%nat
                            (ClientModel.KAwaitBody 47)) true [].

(** Witness for X20: [read(47)] returns the 20 bytes received so far. *)
Lemma client_poll_witness :
  match ClientModel.kstep "1234" awaiting_body (ClientModel.KBody 1 (List.repeat 0 20)) with
  | Some st' => match ClientModel.tasks st' 1%nat with
                | ClientModel.KDone r => client_test_connection r
                | _ => true
                end
  | None => true
  end = false.
Proof.
  destruct (ClientModel.kstep "1234" awaiting_body (ClientModel.KBody 1 (List.repeat 0 20)))
    as [st'|] eqn:Hk; [|vm_compute in Hk; discriminate Hk].
  destruct (client_poll "1234" awaiting_body st' 1 47 (List.repeat 0 20) eq_refl Hk)
    as (r & Hr & Hiff).
  rewrite Hr. destruct (client_test_connection r) eqn:E; [|reflexivity].
  exfalso. destruct (proj1 Hiff eq_refl) as [_ E2]. rewrite repeat_length in E2. lia.
Defined.

(** ** Shapes of the decoded status *)

Lemma get_or0_nth (xs : bytes) (i : nat) : (i < List.length xs)%nat -> get_or0 xs i = nth i xs 0.
Proof. intros H. unfold get_or0. apply Nat.ltb_lt in H. rewrite H. reflexivity. Qed.

Lemma parse_zones_full (data : bytes) (off mz : nat) :
  (off + 8 <= List.length data)%nat -> (mz <= 64)%nat ->
  List.length (parse_zones data off mz) = mz.
Proof. intros H1 H2. rewrite parse_zones_length. lia. Qed.

(** X21.  Every status decoded by [AMTClient._parse_response] reports the
    model byte 26, 18 zones for an AMT 2018 (model 0x39) and 64 otherwise,
    exactly that many open, violated and bypassed zones, a battery level
    within [0, 100], three PGMs and four partitions. *)
Theorem client_status_shape (data : bytes) (s : client_status) :
  client_parse_response data = Ok s ->
  c_model_id s = nth 26 data 0
  /\ c_max_zones s = (if Z.eqb (nth 26 data 0) 57 then 18%nat else 64%nat)
  /\ List.length (c_zones_open s) = c_max_zones s
  /\ List.length (c_zones_violated s) = c_max_zones s
  /\ List.length (c_zones_bypassed s) = c_max_zones s
  /\ 0 <= c_battery_level s <= 100
  /\ List.length (c_pgms s) = 3%nat
  /\ List.length (c_partitions s) = 4%nat.
Proof.
  unfold client_parse_response.
  destruct (Nat.ltb_spec (List.length data) 47) as [Hl|Hl]; [discriminate|].
  cbv zeta. intros H.
  assert (H' := f_equal (fun r => match r with Ok x => x | Err _ => s end) H).
  cbv beta iota in H'. subst s. clear H.
  cbn [c_model_id c_max_zones c_zones_open c_zones_violated c_zones_bypassed
       c_battery_level c_pgms c_partitions].
  rewrite (get_or0_nth data OFFSET_MODEL_ID) by (unfold OFFSET_MODEL_ID; lia).
  unfold OFFSET_MODEL_ID.
  assert (Hmz : (if Z.eqb (nth 26 data 0) MODEL_AMT_4010_SMART then MAX_ZONES_4010
                 else if Z.eqb (nth 26 data 0) MODEL_AMT_2018 then MAX_ZONES_2018
                 else MAX_ZONES_4010)
                = (if Z.eqb (nth 26 data 0) 57 then 18%nat else 64%nat)).
  { unfold MODEL_AMT_4010_SMART, MODEL_AMT_2018, MAX_ZONES_4010, MAX_ZONES_2018.
    destruct (Z.eqb_spec (nth 26 data 0) 65) as [->|]; [reflexivity|].
    destruct (Z.eqb (nth 26 data 0) 57); reflexivity. }
  rewrite Hmz.
  assert (Hle : Nat.le (if Z.eqb (nth 26 data 0) 57 then 18%nat else 64%nat) 64)
    by (destruct (Z.eqb (nth 26 data 0) 57); lia).
  split; [reflexivity|]. split; [reflexivity|].
  split; [apply parse_zones_full; [unfold OFFSET_ZONES_OPEN_START; lia | exact Hle]|].
  split; [apply parse_zones_full; [unfold OFFSET_ZONES_VIOLATED_START; lia | exact Hle]|].
  split; [apply parse_zones_full; [unfold OFFSET_ZONES_BYPASSED_START; lia | exact Hle]|].
  split; [unfold clamp_level; lia|].
  split; reflexivity.
Qed.

(** Witness for X21 on an all-zero payload of 47 bytes. *)
Lemma client_status_shape_witness :
  exists s, client_parse_response (List.repeat 0 47) = Ok s
    /\ List.length (c_zones_open s) = c_max_zones s.
Proof.
  eexists. split; [reflexivity|].
  exact (proj1 (proj2 (proj2 (client_status_shape (List.repeat 0 47) _ eq_refl)))).
Defined.

Lemma server_content_nth (data : bytes) (k : nat) :
  (10 <= List.length data)%nat ->
  get_or0 (slice data 2 (List.length data - 1)) k
  = if Nat.ltb (k + 3) (List.length data) then nth (2 + k) data 0 else 0.
Proof.
  intros Hl. unfold get_or0, slice.
  rewrite length_firstn, length_skipn, nth_firstn, nth_skipn.
  destruct (Nat.ltb_spec (k + 3) (List.length data)).
  - replace (Nat.ltb k (Nat.min (List.length data - 1 - 2) (List.length data - 2))) with true
      by (symmetry; apply Nat.ltb_lt; lia).
    replace (Nat.ltb k (List.length data - 1 - 2)) with true by (symmetry; apply Nat.ltb_lt; lia).
    reflexivity.
  - replace (Nat.ltb k (Nat.min (List.length data - 1 - 2) (List.length data - 2))) with false
      by (symmetry; apply Nat.ltb_ge; lia). reflexivity.
Qed.

Lemma server_content_length (data : bytes) :
  List.length (slice data 2 (List.length data - 1)) = (List.length data - 3)%nat.
Proof. unfold slice. rewrite length_firstn, length_skipn. lia. Qed.

Lemma server_parse_unfold (MP MT MS ML : nat) (data : bytes) (s : server_status) :
  server_parse_response MP MT MS ML data = Ok s ->
  (10 <= List.length data)%nat
  /\ let content := slice data 2 (List.length data - 1) in
     let model_id := get_or0 content 24 in
     let is_2018 := Z.eqb model_id 57 in
     let battery_level := get_or0 content 40 in
     s_model_id s = model_id
     /\ s_max_zones s = (if is_2018 then 18%nat else 64%nat)
     /\ s_zones_open s = (if is_2018 then firstn 18 (parse_zones content 0 64)
                          else parse_zones content 0 64)
     /\ s_zones_violated s = (if is_2018 then firstn 18 (parse_zones content 8 64)
                              else parse_zones content 8 64)
     /\ s_zones_bypassed s = (if is_2018 then firstn 18 (parse_zones content 16 64)
                              else parse_zones content 16 64)
     /\ s_zones_open_count s = count_true (parse_zones content 0 64)
     /\ s_zones_violated_count s = count_true (parse_zones content 8 64)
     /\ s_zones_bypassed_count s = count_true (parse_zones content 16 64)
     /\ s_battery_level s = (if 100 <? battery_level then 100 else battery_level)
     /\ s_pgms s = server_pgms MP (get_or0 content 41)
     /\ s_zones_tamper s = List.repeat false MT
     /\ s_zones_short_circuit s = List.repeat false MS
     /\ s_zones_low_battery s = List.repeat false ML.
Proof.
  unfold server_parse_response.
  destruct (Nat.ltb_spec (List.length data) 10) as [Hl|Hl]; [discriminate|].
  cbv zeta. intros H.
  assert (H' := f_equal (fun r => match r with Ok x => x | Err _ => s end) H).
  cbv beta iota in H'. subst s. clear H.
  split; [exact Hl|]. cbv zeta.
  unfold MODEL_AMT_2018, MAX_ZONES_2018, MAX_ZONES_4010.
  destruct (Z.eqb _ 57); repeat split.
Qed.

Lemma count_true_firstn (k : nat) (l : list bool) : (count_true (firstn k l) <= count_true l)%nat.
Proof.
  unfold count_true. revert l; induction k as [|k IH]; intros l; [cbn; lia|].
  destruct l as [|b l]; [cbn; lia|]. cbn [firstn filter].
  specialize (IH l). destruct b; cbn [List.length]; lia.
Qed.

Lemma length_repeat_bool (n : nat) : List.length (List.repeat false n) = n.
Proof. apply repeat_length. Qed.

Lemma server_pgms_length (MP : nat) (b : Z) : List.length (server_pgms MP b) = MP.
Proof. unfold server_pgms. rewrite length_map, length_seq. reflexivity. Qed.

(** X22.  Every status decoded by [AMTServer._parse_response] reports
    the model byte 26 (0 when the response has at most 27 bytes), 18 zones
    for an AMT 2018 and 64 otherwise, open, violated and bypassed zone lists
    of [min(max_zones, 8 * min(8, n - offset))] zones for content length
    [n = len - 3] and offsets 0, 8, 16, a battery level of at most 100 (and
    not negative on bytes), and [MAX_PGMS] PGMs and [MAX_ZONES_*] entries
    in the tamper, short-circuit and low-battery lists. *)
Theorem server_status_shape (MAX_PGMS MAX_ZONES_TAMPER MAX_ZONES_SHORT_CIRCUIT
    MAX_ZONES_LOW_BATTERY : nat) (data : bytes) (s : server_status) :
  server_parse_response MAX_PGMS MAX_ZONES_TAMPER MAX_ZONES_SHORT_CIRCUIT
    MAX_ZONES_LOW_BATTERY data = Ok s ->
  let n := (List.length data - 3)%nat in
  s_model_id s = (if Nat.ltb 27 (List.length data) then nth 26 data 0 else 0)
  /\ s_max_zones s = (if Z.eqb (s_model_id s) 57 then 18%nat else 64%nat)
  /\ List.length (s_zones_open s) = Nat.min (s_max_zones s) (8 * Nat.min 8 n)
  /\ List.length (s_zones_violated s) = Nat.min (s_max_zones s) (8 * Nat.min 8 (n - 8))
  /\ List.length (s_zones_bypassed s) = Nat.min (s_max_zones s) (8 * Nat.min 8 (n - 16))
  /\ s_battery_level s <= 100
  /\ (Forall is_byte data -> 0 <= s_battery_level s)
  /\ List.length (s_pgms s) = MAX_PGMS
  /\ List.length (s_zones_tamper s) = MAX_ZONES_TAMPER
  /\ List.length (s_zones_short_circuit s) = MAX_ZONES_SHORT_CIRCUIT
  /\ List.length (s_zones_low_battery s) = MAX_ZONES_LOW_BATTERY.
Proof.
  intros H n.
  destruct (server_parse_unfold _ _ _ _ data s H)
    as (Hl & Hmodel & Hmax & Hopen & Hviol & Hbyp & _ & _ & _ & Hbat & Hpgms & Ht & Hs & Hlb).
  cbv zeta in Hmodel, Hmax, Hopen, Hviol, Hbyp, Hbat, Hpgms.
  rewrite server_content_nth in Hmodel, Hmax, Hopen, Hviol, Hbyp by exact Hl.
  replace (Nat.ltb (24 + 3) (List.length data)) with (Nat.ltb 27 (List.length data))
    in Hmodel, Hmax, Hopen, Hviol, Hbyp by reflexivity.
  change (2 + 24)%nat with 26%nat in Hmodel, Hmax, Hopen, Hviol, Hbyp.
  rewrite Hmodel, Hmax, Hopen, Hviol, Hbyp, Ht, Hs, Hlb, Hpgms.
  rewrite !length_repeat_bool, server_pgms_length.
  set (m := if Nat.ltb 27 (List.length data) then nth 26 data 0 else 0).
  split; [reflexivity|]. split; [reflexivity|].
  destruct (Z.eqb m 57); rewrite ?length_firstn, ?parse_zones_length, ?server_content_length;
    fold n.
  - split; [lia|]. split; [lia|]. split; [lia|].
    split; [destruct (Z.ltb_spec 100 (get_or0 (slice data 2 (List.length data - 1)) 40)); lia|].
    split; [|repeat split].
    intros Hb. rewrite Hbat.
    destruct (Z.ltb_spec 100 (get_or0 (slice data 2 (List.length data - 1)) 40)); [lia|].
    unfold get_or0. destruct (Nat.ltb 40 (List.length (slice data 2 (List.length data - 1)))); [|lia].
    apply forall_slice with (i := 2%nat) (j := (List.length data - 1)%nat) in Hb.
    destruct (nth_in_or_default 40 (slice data 2 (List.length data - 1)) 0) as [Hin | ->]; [|lia].
    exact (proj1 (proj1 (Forall_forall _ _) Hb _ Hin)).
  - split; [lia|]. split; [lia|]. split; [lia|].
    split; [destruct (Z.ltb_spec 100 (get_or0 (slice data 2 (List.length data - 1)) 40)); lia|].
    split; [|repeat split].
    intros Hb. rewrite Hbat.
    destruct (Z.ltb_spec 100 (get_or0 (slice data 2 (List.length data - 1)) 40)); [lia|].
    unfold get_or0. destruct (Nat.ltb 40 (List.length (slice data 2 (List.length data - 1)))); [|lia].
    apply forall_slice with (i := 2%nat) (j := (List.length data - 1)%nat) in Hb.
    destruct (nth_in_or_default 40 (slice data 2 (List.length data - 1)) 0) as [Hin | ->]; [|lia].
    exact (proj1 (proj1 (Forall_forall _ _) Hb _ Hin)).
Qed.

(** Witness for X22 on a 30-byte AMT 2018 response. *)
Lemma server_status_shape_witness :
  exists s, server_parse_response 3 0 0 0 (List.repeat 0 26 ++ [57; 0; 0; 0]) = Ok s
    /\ s_max_zones s = (if Z.eqb (s_model_id s) 57 then 18%nat else 64%nat).
Proof.
  eexists. split; [reflexivity|].
  exact (proj1 (proj2 (server_status_shape 3 0 0 0 (List.repeat 0 26 ++ [57; 0; 0; 0]) _ eq_refl))).
Defined.

(** X23.  [AMTServer._parse_response] counts the open, violated and
    bypassed zones on the 64-zone lists, before an AMT 2018 response
    (model 0x39) has its lists cut to 18 zones: the counts are the number of
    set zones among 64, never fewer than the set zones in the lists
    reported, and equal to them for any other model; for an AMT 2018 with a
    zone above 18 set the count exceeds the zones reported. *)
Theorem server_zone_counts (MAX_PGMS MAX_ZONES_TAMPER MAX_ZONES_SHORT_CIRCUIT
    MAX_ZONES_LOW_BATTERY : nat) :
  (forall data s,
     server_parse_response MAX_PGMS MAX_ZONES_TAMPER MAX_ZONES_SHORT_CIRCUIT
       MAX_ZONES_LOW_BATTERY data = Ok s ->
     let content := slice data 2 (List.length data - 1) in
     s_zones_open_count s = count_true (parse_zones content 0 64)
     /\ s_zones_violated_count s = count_true (parse_zones content 8 64)
     /\ s_zones_bypassed_count s = count_true (parse_zones content 16 64)
     /\ (count_true (s_zones_open s) <= s_zones_open_count s)%nat
     /\ (count_true (s_zones_violated s) <= s_zones_violated_count s)%nat
     /\ (count_true (s_zones_bypassed s) <= s_zones_bypassed_count s)%nat
     /\ (s_model_id s <> 57 ->
         s_zones_open_count s = count_true (s_zones_open s)
         /\ s_zones_violated_count s = count_true (s_zones_violated s)
         /\ s_zones_bypassed_count s = count_true (s_zones_bypassed s)))
  /\ (exists data s,
        server_parse_response MAX_PGMS MAX_ZONES_TAMPER MAX_ZONES_SHORT_CIRCUIT
          MAX_ZONES_LOW_BATTERY data = Ok s
        /\ s_model_id s = 57
        /\ (count_true (s_zones_open s) < s_zones_open_count s)%nat).
Proof.
  split.
  - intros data s H content.
    destruct (server_parse_unfold _ _ _ _ data s H)
      as (Hl & Hmodel & Hmax & Hopen & Hviol & Hbyp & Hco & Hcv & Hcb & _).
    cbv zeta in *. fold content in Hmodel, Hopen, Hviol, Hbyp, Hco, Hcv, Hcb.
    rewrite Hco, Hcv, Hcb, Hopen, Hviol, Hbyp.
    split; [reflexivity|]. split; [reflexivity|]. split; [reflexivity|].
    rewrite <- Hmodel.
    destruct (Z.eqb_spec (s_model_id s) 57).
    + split; [apply count_true_firstn|]. split; [apply count_true_firstn|].
      split; [apply count_true_firstn|]. contradiction.
    + split; [lia|]. split; [lia|]. split; [lia|]. intros _. repeat split.
  - exists ([0; 0; 0; 0; 0; 255] ++ List.repeat 0 20 ++ [57; 0; 0; 0]).
    eexists. split; [reflexivity|]. split; [vm_compute; reflexivity|].
    apply Nat.ltb_lt. vm_compute. reflexivity.
Qed.

(** Witness for X23: an AMT 2018 response with zones 25 to 32 open. *)
Lemma server_zone_counts_witness :
  exists s, server_parse_response 3 0 0 0 ([0; 0; 0; 0; 0; 255] ++ List.repeat 0 20 ++ [57; 0; 0; 0]) = Ok s
    /\ s_zones_open_count s = count_true (parse_zones [0; 0; 0; 255; 0; 0; 0; 0; 0; 0; 0; 0; 0; 0; 0; 0; 0; 0; 0; 0; 0; 0; 0; 0; 57; 0; 0] 0 64)
    /\ count_true (s_zones_open s) = 0%nat.
Proof.
  eexists. split; [reflexivity|]. split; [|vm_compute; reflexivity].
  exact (proj1 (proj1 (server_zone_counts 3 0 0 0)
                  ([0; 0; 0; 0; 0; 255] ++ List.repeat 0 20 ++ [57; 0; 0; 0]) _ eq_refl)).
Defined.

(** ** PGM outputs of the accept-in decoder *)

(** X24.  The PGM list of [AMTServer._parse_response] has [MAX_PGMS]
    entries; PGM [i] (from 0) is bit [i + 1] of the PGM byte for the first
    seven and is always off from the eighth on. *)
Theorem server_pgms_bits (MAX_PGMS : nat) (pgm_byte : Z) :
  List.length (server_pgms MAX_PGMS pgm_byte) = MAX_PGMS
  /\ forall i, (i < MAX_PGMS)%nat ->
     nth i (server_pgms MAX_PGMS pgm_byte) false
     = (Nat.ltb i 7 && Z.testbit pgm_byte (Z.of_nat i + 1))%bool.
Proof.
  split; [apply server_pgms_length|].
  intros i Hi. unfold server_pgms.
  set (g := fun i => if Nat.ltb i (Nat.min 8 MAX_PGMS) then
                       if Nat.ltb i 7 then flag pgm_byte (Z.shiftl 1 (Z.of_nat i + 1)) else false
                     else false).
  rewrite (nth_indep _ false (g 0%nat)) by (rewrite length_map, length_seq; exact Hi).
  rewrite map_nth, seq_nth by exact Hi. unfold g. cbn [Nat.add].
  destruct (Nat.ltb_spec i 7).
  - replace (Nat.ltb i (Nat.min 8 MAX_PGMS)) with true by (symmetry; apply Nat.ltb_lt; lia).
    replace (Z.of_nat i + 1) with (Z.of_nat (S i)) by lia.
    apply flag_testbit.
  - destruct (Nat.ltb i (Nat.min 8 MAX_PGMS)); reflexivity.
Qed.

(** Witness for X24: PGM 1 of byte 0x02 is on. *)
Lemma server_pgms_bits_witness :
  nth 0 (server_pgms 3 2) false = true.
Proof.
  rewrite (proj2 (server_pgms_bits 3 2) 0%nat ltac:(lia)). reflexivity.
Defined.

(** ** Reconnection in the dial-out role *)
Module ClientReconnect.
Import ClientModel.

Lemma upd_here {A} (f : nat -> A) k v : upd f k v k = v.
Proof. unfold upd. now rewrite Nat.eqb_refl. Qed.

Lemma body_disconnected_no_write pw st t command password :
  connected st = false -> cwrites (body pw st t command password) = cwrites st.
Proof. intros H. unfold body. rewrite H. reflexivity. Qed.

(** X25.  [AMTClient._send_command] never writes on a connection it
    considers lost: from a state in which [self._connected] is false, a
    step writes only when it is the completion of [self.connect()], and a
    lost response (time-out while waiting for it, or [b''] as the header)
    sets [self._connected] to false, releases the lock and fails the
    command with a connection error. *)
Theorem reconnect_before_write (pw : string) (st st' : cstate) (e : kevent) :
  kstep pw st e = Some st' ->
  (connected st = false -> cwrites st' <> cwrites st ->
     exists t command password,
       e = KConnectDone t true /\ tasks st t = KConnecting command password)
  /\ (forall t, (tasks st t = KAwaitHeader \/ exists h, tasks st t = KAwaitBody h) ->
       (e = KTimeout t \/ e = KHeader t None) ->
       connected st' = false /\ locked st' = false
       /\ exists msg, tasks st' t = KDone (Err (ConnectionError msg))).
Proof.
  intros Hs. split.
  - intros Hc Hw.
    destruct e as [t command password|t|t ok|t header|t data|t]; cbn [kstep] in Hs.
    + destruct (tasks st t); try discriminate. injection Hs as <-. now exfalso.
    + destruct (tasks st t) as [|command password|command password| | | | |]; try discriminate.
      * destruct (negb (locked st) && match waiters st with [] => true | _ => false end).
        -- injection Hs as <-. exfalso. apply Hw.
           exact (body_disconnected_no_write pw (mk true [] (tasks st) (connected st) (cwrites st))
                    t command password Hc).
        -- injection Hs as <-. now exfalso.
      * destruct (waiters st) as [|w ws]; [discriminate|].
        destruct (negb (locked st) && Nat.eqb w t); [|discriminate].
        injection Hs as <-. exfalso. apply Hw.
        exact (body_disconnected_no_write pw (mk true ws (tasks st) (connected st) (cwrites st))
                 t command password Hc).
    + destruct (tasks st t) as [| | |command password| | | |] eqn:Ht; try discriminate.
      destruct ok.
      * exists t, command, password. split; [reflexivity | exact Ht].
      * injection Hs as <-. now exfalso.
    + destruct (tasks st t); try discriminate. destruct header; injection Hs as <-; now exfalso.
    + destruct (tasks st t); try discriminate. injection Hs as <-. now exfalso.
    + destruct (tasks st t); try discriminate; injection Hs as <-; now exfalso.
  - intros t Hwait [-> | ->]; cbn [kstep] in Hs.
    + destruct Hwait as [Ht|[h Ht]]; rewrite Ht in Hs; injection Hs as <-;
        cbn; (split; [reflexivity|]); (split; [reflexivity|]); rewrite upd_here; eexists; reflexivity.
    + destruct Hwait as [Ht|[h Ht]]; rewrite Ht in Hs; [|discriminate].
      injection Hs as <-. cbn. split; [reflexivity|]. split; [reflexivity|].
      rewrite upd_here. eexists; reflexivity.
Qed.

(** Witness for X25: the response of command 1 times out. *)
Lemma reconnect_before_write_witness :
  let st := match krun "1234" kinit [KSend 1 [90] None; KRun 1; KConnectDone 1 true] with
            | Some s => s | None => kinit end in
  let st' := match kstep "1234" st (KTimeout 1) with Some s => s | None => kinit end in
  connected st' = false.
Proof.
  intros st st'.
  exact (proj1 (proj2 (reconnect_before_write "1234" st st' (KTimeout 1)
                         ltac:(vm_compute; reflexivity)) 1%nat
                  (ltac:(left; vm_compute; reflexivity)
                     : tasks st 1%nat = KAwaitHeader \/ exists h, tasks st 1%nat = KAwaitBody h)
                  (or_introl eq_refl))).
Defined.
End ClientReconnect.
